(** * Deployment configuration loader of the tile-server CDK application

    A shallow embedding of [cdk/bin/deployment/load-deployment.ts]
    (validators and [loadDeploymentConfig]) and of the configuration value
    classes it builds ([BaseConfig], [NetworkConfig], [TestConfig],
    [TestImageryConfig], [DataplaneConfig]), with the properties of the
    loader stated and proved over the embedding.

    JavaScript data is modelled as follows.
    - A string is its sequence of UTF-16 code units ([list N]).
    - A number is a rational, an infinity or NaN; every IEEE double is one of
      these and [<] / [>] on doubles agree with the order used here.
    - An object is a finite map from property names to values, an array a
      list of values.  The accessor [__proto__] of [Object.prototype] is not
      modelled: every key is an ordinary data property.
    - A thrown exception is the [Throw] case of [result]. *)

From Stdlib Require Import QArith Ascii String.
From stdpp Require Import gmap strings list fin_maps pretty.

Set Default Proof Using "Type".
#[local] Open Scope list_scope.

(* ===================================================================== *)
(** ** Strings *)
(* ===================================================================== *)

(** A JavaScript string: UTF-16 code units. *)
Abbreviation jsstring := (list N) (only parsing).

(** A source literal (ASCII text) as a JavaScript string. *)
Definition lit (s : string) : jsstring :=
  (fun a => N_of_ascii a) <$> list_ascii_of_string s.
Arguments lit : simpl never.

(** [WhiteSpace] and [LineTerminator] code points of ECMAScript: what
    [String.prototype.trim] strips. *)
Definition isWhiteSpace (c : N) : bool :=
  (   (c =? 0x0009) || (c =? 0x000A) || (c =? 0x000B) || (c =? 0x000C)
   || (c =? 0x000D) || (c =? 0x0020) || (c =? 0x00A0) || (c =? 0x1680)
   || ((0x2000 <=? c) && (c <=? 0x200A))
   || (c =? 0x2028) || (c =? 0x2029) || (c =? 0x202F) || (c =? 0x205F)
   || (c =? 0x3000) || (c =? 0xFEFF))%N.

Fixpoint trimStart (s : jsstring) : jsstring :=
  match s with
  | c :: s' => if isWhiteSpace c then trimStart s' else s
  | [] => []
  end.

Definition trimEnd (s : jsstring) : jsstring :=
  reverse (trimStart (reverse s)).

(** [String.prototype.trim]. *)
Definition trim (s : jsstring) : jsstring := trimEnd (trimStart s).

(** [s === ""]. *)
Definition is_empty (s : jsstring) : bool :=
  match s with [] => true | _ => false end.

(** [s.startsWith(p)]. *)
Fixpoint startsWith (p s : jsstring) : bool :=
  match p, s with
  | [], _ => true
  | a :: p', b :: s' => (a =? b)%N && startsWith p' s'
  | _ :: _, [] => false
  end.

(** [s.includes(sub)]: [sub] occurs in [s] as a contiguous run.  This is what
    jest's [toThrow(/text/)] checks of a message for a literal text. *)
Fixpoint includes (sub s : jsstring) : bool :=
  startsWith sub s ||
  match s with
  | [] => false
  | _ :: s' => includes sub s'
  end.

(** [parts.join(sep)]. *)
Fixpoint join (sep : jsstring) (parts : list jsstring) : jsstring :=
  match parts with
  | [] => []
  | [p] => p
  | p :: rest => p ++ sep ++ join sep rest
  end.

(* ===================================================================== *)
(** ** Regular expressions *)
(* ===================================================================== *)

(** The fragment of the RegExp syntax the validators use: character
    classes, concatenation, [?], [+], [*], [{n}] and non-capturing groups.
    All patterns of the source are anchored with [^] and [$] and carry no
    flag, so [pattern.test(s)] holds iff the whole of [s] is in the language
    of the body. *)
Inductive regex : Type :=
| RVoid
| REps
| RSet (ranges : list (N * N))
| RCat (r1 r2 : regex)
| RAlt (r1 r2 : regex)
| RStar (r : regex).

(** [c] lies in one of the inclusive ranges of a class. *)
Definition in_ranges (ranges : list (N * N)) (c : N) : bool :=
  existsb (fun '(lo, hi) => (lo <=? c) && (c <=? hi))%N ranges.

Definition RChr (c : N) : regex := RSet [(c, c)].

(** A literal run of characters. *)
Definition RLit (s : jsstring) : regex :=
  foldr (fun c r => RCat (RChr c) r) REps s.

(** [r{n}]. *)
Fixpoint RRep (n : nat) (r : regex) : regex :=
  match n with
  | O => REps
  | S n' => RCat r (RRep n' r)
  end.

(** [r?]. *)
Definition ROpt (r : regex) : regex := RAlt r REps.

(** [r+]. *)
Definition RPlus (r : regex) : regex := RCat r (RStar r).

Fixpoint nullable (r : regex) : bool :=
  match r with
  | RVoid => false
  | REps => true
  | RSet _ => false
  | RCat r1 r2 => nullable r1 && nullable r2
  | RAlt r1 r2 => nullable r1 || nullable r2
  | RStar _ => true
  end.

(** Derivative of [r] by the character [c]. *)
Fixpoint deriv (c : N) (r : regex) : regex :=
  match r with
  | RVoid => RVoid
  | REps => RVoid
  | RSet ranges => if in_ranges ranges c then REps else RVoid
  | RCat r1 r2 =>
      if nullable r1
      then RAlt (RCat (deriv c r1) r2) (deriv c r2)
      else RCat (deriv c r1) r2
  | RAlt r1 r2 => RAlt (deriv c r1) (deriv c r2)
  | RStar r1 => RCat (deriv c r1) (RStar r1)
  end.

(** [/^r$/.test(s)]. *)
Fixpoint regex_test (r : regex) (s : jsstring) : bool :=
  match s with
  | [] => nullable r
  | c :: s' => regex_test (deriv c r) s'
  end.

(** The language of a regular expression. *)
Fixpoint lang (r : regex) (s : jsstring) : Prop :=
  match r with
  | RVoid => False
  | REps => s = []
  | RSet ranges => exists c, s = [c] /\ in_ranges ranges c = true
  | RCat r1 r2 => exists s1 s2, s = s1 ++ s2 /\ lang r1 s1 /\ lang r2 s2
  | RAlt r1 r2 => lang r1 s \/ lang r2 s
  | RStar r1 =>
      exists parts, s = concat parts /\ Forall (fun p => lang r1 p) parts
  end.

(** Character classes of the source patterns. *)
Definition cc_digit : list (N * N) := [(48, 57)]%N.           (* \d *)
Definition cc_hex : list (N * N) := [(97, 102); (48, 57)]%N.   (* [a-f0-9] *)
Definition cc_alnum : list (N * N) := [(97, 122); (48, 57)]%N. (* [a-z0-9] *)
Definition hyphen : N := 45%N.

(** [/^\d{12}$/] *)
Definition re_accountId : regex := RRep 12 (RSet cc_digit).

(** [/^[a-z0-9]+-[a-z0-9]+(?:-[a-z0-9]+)*$/] *)
Definition re_region : regex :=
  RCat (RPlus (RSet cc_alnum))
    (RCat (RChr hyphen)
       (RCat (RPlus (RSet cc_alnum))
          (RStar (RCat (RChr hyphen) (RPlus (RSet cc_alnum)))))).

(** [/^<prefix>[a-f0-9]{8}(?:[a-f0-9]{9})?$/] *)
Definition re_resourceId (prefix : jsstring) : regex :=
  RCat (RLit prefix)
    (RCat (RRep 8 (RSet cc_hex)) (ROpt (RRep 9 (RSet cc_hex)))).

Definition re_vpcId : regex := re_resourceId (lit "vpc-").
Definition re_securityGroupId : regex := re_resourceId (lit "sg-").
Definition re_subnetId : regex := re_resourceId (lit "subnet-").

(* ===================================================================== *)
(** ** Values *)
(* ===================================================================== *)

(** A JavaScript number. *)
Inductive number : Type :=
| Fin (q : Q)
| PosInf
| NegInf
| NaN.

(** A JavaScript value as [JSON.parse] or an object literal builds it. *)
#[warnings="-register-all"]
Inductive value : Type :=
| VUndefined
| VNull
| VBool (b : bool)
| VNum (n : number)
| VStr (s : jsstring)
| VArr (elems : list value)
| VObj (props : gmap jsstring value).

(** The own properties of an object ([Record<string, unknown>]). *)
Abbreviation props := (gmap jsstring value) (only parsing).

Definition Qltb (x y : Q) : bool := negb (Qle_bool y x).

(** [a < b] on numbers: false as soon as one side is NaN. *)
Definition num_lt (a b : number) : bool :=
  match a, b with
  | NaN, _ | _, NaN => false
  | Fin x, Fin y => Qltb x y
  | NegInf, Fin _ | NegInf, PosInf | Fin _, PosInf => true
  | _, _ => false
  end.

(** [a > b]. *)
Definition num_gt (a b : number) : bool := num_lt b a.

(** [a <= b]. *)
Definition num_le (a b : number) : bool :=
  match a, b with
  | NaN, _ | _, NaN => false
  | Fin x, Fin y => Qle_bool x y
  | NegInf, _ | _, PosInf => true
  | _, _ => false
  end.

Definition num_of_Z (z : Z) : number := Fin (inject_Z z).
Definition num_of_nat (n : nat) : number := num_of_Z (Z.of_nat n).

(** The results of the [typeof] operator on the values above. *)
Inductive jstype : Type :=
| TUndefined | TObject | TBoolean | TNumber | TString.

#[global] Instance jstype_eq_dec : EqDecision jstype.
Proof. solve_decision. Defined.

Definition typeof (v : value) : jstype :=
  match v with
  | VUndefined => TUndefined
  | VNull => TObject
  | VBool _ => TBoolean
  | VNum _ => TNumber
  | VStr _ => TString
  | VArr _ => TObject
  | VObj _ => TObject
  end.

(** The text [typeof] yields, as interpolated in messages. *)
Definition typeName (t : jstype) : jsstring :=
  match t with
  | TUndefined => lit "undefined"
  | TObject => lit "object"
  | TBoolean => lit "boolean"
  | TNumber => lit "number"
  | TString => lit "string"
  end.

(** [v === undefined], [v === null], [Array.isArray(v)]. *)
Definition is_undefined (v : value) : bool :=
  match v with VUndefined => true | _ => false end.
Definition is_null (v : value) : bool :=
  match v with VNull => true | _ => false end.
Definition isArray (v : value) : bool :=
  match v with VArr _ => true | _ => false end.

(** The value is an object in the sense of the language: an object or an
    array ([null] is not). *)
Definition isObject (v : value) : bool :=
  match v with VArr _ | VObj _ => true | _ => false end.

(** ToBoolean: what [!v], [v && ...] and [if (v)] look at. *)
Definition truthy (v : value) : bool :=
  match v with
  | VUndefined | VNull => false
  | VBool b => b
  | VNum (Fin q) => negb (Qeq_bool q 0)
  | VNum NaN => false
  | VNum _ => true
  | VStr s => negb (is_empty s)
  | VArr _ | VObj _ => true
  end.

(** Property key of an array index. *)
Definition indexKey (i : nat) : jsstring := lit (pretty i).

(** The own enumerable properties [{...v}] and [Object.assign(_, v)] copy:
    the properties of an object, the indexed elements of an array or a
    string, nothing for the other primitives. *)
Definition ownProps (v : value) : props :=
  match v with
  | VObj m => m
  | VArr l => list_to_map (imap (fun i x => (indexKey i, x)) l)
  | VStr s => list_to_map (imap (fun i c => (indexKey i, VStr [c])) s)
  | _ => ∅
  end.

(** Property read [o.k] on an object or an array, for data properties
    ([undefined] when absent).  The loader reads properties of object-typed
    values only. *)
Definition get (o : value) (k : jsstring) : value :=
  match o with
  | VObj m => default VUndefined (m !! k)
  | VArr l =>
      if decide (k = lit "length") then VNum (num_of_nat (length l))
      else default VUndefined (ownProps o !! k)
  | _ => VUndefined
  end.

(* ===================================================================== *)
(** ** Exceptions *)
(* ===================================================================== *)

(** Thrown values.  [DeploymentConfigError] extends [Error]; [SyntaxError]
    and [TypeError] are the built-in subclasses of [Error]; [NonError] is a
    thrown value that is not an instance of [Error]. *)
Inductive exn : Type :=
| DeploymentConfigError (msg : jsstring) (field : option jsstring)
| SyntaxError (msg : jsstring)
| TypeError (msg : jsstring)
| Error (msg : jsstring)
| NonError.

(** [e.message]. *)
Definition message (e : exn) : jsstring :=
  match e with
  | DeploymentConfigError m _ | SyntaxError m | TypeError m | Error m => m
  | NonError => []
  end.

(** A computation that returns or throws. *)
Inductive result (A : Type) : Type :=
| Ok (a : A)
| Throw (e : exn).
Arguments Ok {A} a.
Arguments Throw {A} e.

#[global] Instance result_ret : MRet result := fun A a => Ok a.
#[global] Instance result_bind : MBind result :=
  fun A B f m => match m with Ok a => f a | Throw e => Throw e end.

(** An expression statement: the value is dropped, an exception is not. *)
Definition discard {A} (m : result A) : result unit :=
  m ≫= fun _ => Ok tt.

(** [if (c) { body }] for a body run for its exceptions only. *)
Definition when (c : bool) (body : result unit) : result unit :=
  if c then body else Ok tt.

(** [for (const x of xs) { body(x) }]. *)
Fixpoint forOf {A} (xs : list A) (body : A -> result unit) : result unit :=
  match xs with
  | [] => Ok tt
  | x :: rest => body x ≫= fun _ => forOf rest body
  end.

Definition succeeds {A} (r : result A) : bool :=
  match r with Ok _ => true | Throw _ => false end.

(* ===================================================================== *)
(** ** Field validators (load-deployment.ts) *)
(* ===================================================================== *)

Definition validateStringField
    (v : value) (fieldName : jsstring) (isRequired : bool) : result jsstring :=
  if is_undefined v || is_null v then
    if isRequired then
      Throw (DeploymentConfigError
               (lit "Missing required field: " ++ fieldName) (Some fieldName))
    else Ok []
  else
    match v with
    | VStr s =>
        let trimmed := trim s in
        if isRequired && is_empty trimmed then
          Throw (DeploymentConfigError
                   (lit "Field '" ++ fieldName
                      ++ lit "' cannot be empty or contain only whitespace")
                   (Some fieldName))
        else Ok trimmed
    | _ =>
        Throw (DeploymentConfigError
                 (lit "Field '" ++ fieldName ++ lit "' must be a string, got "
                    ++ typeName (typeof v))
                 (Some fieldName))
    end.

Definition validateBooleanField
    (v : value) (fieldName : jsstring) (isRequired : bool)
    (defaultValue : option bool) : result bool :=
  if is_undefined v || is_null v then
    if isRequired then
      Throw (DeploymentConfigError
               (lit "Missing required field: " ++ fieldName) (Some fieldName))
    else Ok (default false defaultValue)
  else
    match v with
    | VBool b => Ok b
    | _ =>
        Throw (DeploymentConfigError
                 (lit "Field '" ++ fieldName ++ lit "' must be a boolean, got "
                    ++ typeName (typeof v))
                 (Some fieldName))
    end.

Definition validateAccountId (accountId : jsstring) : result jsstring :=
  if negb (regex_test re_accountId accountId) then
    Throw (DeploymentConfigError
             (lit "Invalid AWS account ID format: '" ++ accountId
                ++ lit "'. Must be exactly 12 digits.")
             (Some (lit "account.id")))
  else Ok accountId.

Definition validateRegion (region : jsstring) : result jsstring :=
  if negb (regex_test re_region region) then
    Throw (DeploymentConfigError
             (lit "Invalid AWS region format: '" ++ region
                ++ lit "'. Must follow pattern like 'us-east-1', 'eu-west-2', etc.")
             (Some (lit "account.region")))
  else Ok region.

Definition validateVpcId (vpcId : jsstring) : result jsstring :=
  if negb (regex_test re_vpcId vpcId) then
    Throw (DeploymentConfigError
             (lit "Invalid VPC ID format: '" ++ vpcId
                ++ lit "'. Must start with 'vpc-' followed by 8 or 17 hexadecimal characters.")
             (Some (lit "config.targetVpcId")))
  else Ok vpcId.

Definition validateSecurityGroupId (securityGroupId : jsstring)
    : result jsstring :=
  if negb (regex_test re_securityGroupId securityGroupId) then
    Throw (DeploymentConfigError
             (lit "Invalid security group ID format: '" ++ securityGroupId
                ++ lit "'. Must start with 'sg-' followed by 8 or 17 hexadecimal characters.")
             (Some (lit "vpcConfig.securityGroupId")))
  else Ok securityGroupId.

Definition validateSubnetId (subnetId : jsstring) : result jsstring :=
  if negb (regex_test re_subnetId subnetId) then
    Throw (DeploymentConfigError
             (lit "Invalid Subnet ID format: '" ++ subnetId
                ++ lit "'. Must start with 'subnet-' followed by 8 or 17 hexadecimal characters.")
             (Some (lit "networkConfig.targetSubnets")))
  else Ok subnetId.

(* ===================================================================== *)
(** ** Configuration value classes *)
(* ===================================================================== *)

(** An object literal [{ k1: v1, ..., kn: vn }]; a later key overrides an
    earlier one. *)
Definition object (fields : list (string * value)) : props :=
  foldl (fun m '(k, v) => <[lit k := v]> m) ∅ fields.

(** [{ ...defaults, ...config }]: the own properties of [config] over the
    defaults. *)
Definition spreadOver (defaults : props) (config : value) : props :=
  ownProps config ∪ defaults.

(** What an instance has for a prototype once the constructor of
    [BaseConfig] has run. *)
Inductive prototype : Type :=
| ClassPrototype
| ReplacedBy (v : value)
| NullPrototype.

(** types.ts, [BaseConfig]: the own properties of the instance, and its
    prototype. *)
Record BaseConfig : Type := {
  BaseConfig_fields : props;
  BaseConfig_prototype : prototype
}.

(** The prototype [Object.assign(this, config)] leaves.  The assignment
    [this.__proto__ = v] that an own key [__proto__] of [config] causes runs
    the setter inherited from [Object.prototype]: it replaces the prototype
    when [v] is an object or [null], and does nothing for any other value. *)
Definition assignedPrototype (config : props) : prototype :=
  match config !! lit "__proto__" with
  | Some VNull => NullPrototype
  | Some v => if isObject v then ReplacedBy v else ClassPrototype
  | None => ClassPrototype
  end.

(** [new BaseConfig(config)]: [Object.assign(this, config)] on the fresh
    instance.  Every own key of [config] becomes an own property, except
    [__proto__], which the setter consumes. *)
Definition BaseConfig_new (config : props) : BaseConfig :=
  {| BaseConfig_fields := delete (lit "__proto__") config;
     BaseConfig_prototype := assignedPrototype config |}.

(** A property read [this.k] for a name that no built-in prototype and no
    class defines: the own property, or else what a replaced prototype
    holds. *)
Definition BaseConfig_get (this : BaseConfig) (k : jsstring) : value :=
  match BaseConfig_fields this !! k with
  | Some x => x
  | None =>
      match BaseConfig_prototype this with
      | ReplacedBy v => get v k
      | _ => VUndefined
      end
  end.

(** network.ts, [NetworkConfig]. *)
Record NetworkConfig : Type := {
  NetworkConfig_fields : props;
  NetworkConfig_prototype : prototype
}.

Definition NetworkConfig_defaults : props :=
  object [("VPC_NAME", VStr (lit "tile-server-vpc"));
          ("SECURITY_GROUP_NAME", VStr (lit "tile-server-security-group"))].

Definition NetworkConfig_new (config : value) : NetworkConfig :=
  let this := BaseConfig_new (spreadOver NetworkConfig_defaults config) in
  {| NetworkConfig_fields := BaseConfig_fields this;
     NetworkConfig_prototype := BaseConfig_prototype this |}.

(** test.ts, [TestConfig]. *)
Record TestConfig : Type := {
  TestConfig_fields : props;
  TestConfig_prototype : prototype
}.

Definition TestConfig_defaults : props :=
  object [("BUILD_FROM_SOURCE", VBool false);
          ("TEST_CONTAINER_BUILD_PATH", VStr (lit "../"));
          ("TEST_CONTAINER_BUILD_TARGET", VStr (lit "integ"));
          ("TEST_CONTAINER_DOCKERFILE", VStr (lit "docker/Dockerfile.integ"));
          ("TEST_CONTAINER_URI",
             VStr (lit "awsosml/osml-tile-server-test:latest"))].

Definition TestConfig_new (config : value) : TestConfig :=
  let this := BaseConfig_new (spreadOver TestConfig_defaults config) in
  {| TestConfig_fields := BaseConfig_fields this;
     TestConfig_prototype := BaseConfig_prototype this |}.

(** [TestImageryConfig]. *)
Record TestImageryConfig : Type := {
  TestImageryConfig_fields : props;
  TestImageryConfig_prototype : prototype
}.

Definition TestImageryConfig_defaults : props :=
  object [("S3_IMAGE_BUCKET_PREFIX", VStr (lit "ts-test-imagery"));
          ("S3_TEST_IMAGES_PATH", VStr (lit "../test/data/integ/"))].

Definition TestImageryConfig_new (config : value) : TestImageryConfig :=
  let this := BaseConfig_new (spreadOver TestImageryConfig_defaults config) in
  {| TestImageryConfig_fields := BaseConfig_fields this;
     TestImageryConfig_prototype := BaseConfig_prototype this |}.

(** dataplane.ts, [DataplaneConfig]. *)
Record DataplaneConfig : Type := {
  DataplaneConfig_fields : props;
  DataplaneConfig_prototype : prototype
}.

Definition DataplaneConfig_defaults : props :=
  object [("BUILD_FROM_SOURCE", VBool false);
          ("CONTAINER_BUILD_PATH", VStr (lit "../"));
          ("CONTAINER_BUILD_TARGET", VStr (lit "tile_server"));
          ("CONTAINER_DOCKERFILE", VStr (lit "docker/Dockerfile.tile_server"));
          ("CONTAINER_URI", VStr (lit "awsosml/osml-tile-server:latest"));
          ("CW_LOGGROUP_NAME", VStr (lit "TSService"));
          ("CW_METRICS_NAMESPACE", VStr (lit "OSML"));
          ("DDB_JOB_TABLE", VStr (lit "TSJobTable"));
          ("DDB_TTL_ATTRIBUTE", VStr (lit "expire_time"));
          ("EFS_MOUNT_NAME", VStr (lit "ts-efs-volume"));
          ("ECS_CONTAINER_CPU", VNum (num_of_Z 8192));
          ("ECS_CONTAINER_MEMORY", VNum (num_of_Z 16384));
          ("ECS_CONTAINER_NAME", VStr (lit "TSContainer"));
          ("ECS_CONTAINER_PORT", VNum (num_of_Z 8080));
          ("ECS_CLUSTER_NAME", VStr (lit "TSCluster"));
          ("ECS_TASK_CPU", VNum (num_of_Z 8192));
          ("ECS_TASK_MEMORY", VNum (num_of_Z 16384));
          ("SQS_JOB_QUEUE", VStr (lit "TSJobQueue"))].

(** The line feed of ["\n"]. *)
Definition LF : jsstring := [10%N].

Definition msg_cpu_min : jsstring :=
  lit "ECS_TASK_CPU must be at least 256 (0.25 vCPU)".
Definition msg_cpu_max : jsstring :=
  lit "ECS_TASK_CPU must be at most 16384 (16 vCPU)".
Definition msg_memory_min : jsstring :=
  lit "ECS_TASK_MEMORY must be at least 512 MiB".
Definition msg_memory_max : jsstring :=
  lit "ECS_TASK_MEMORY must be at most 122880 MiB (120 GB)".
Definition validation_header : jsstring :=
  lit "Configuration validation failed:".

(** [typeof v === "number" ? v : 0]. *)
Definition numberOrZero (v : value) : number :=
  match v with
  | VNum n => n
  | _ => num_of_Z 0
  end.

(** [errors.push(line)] when [c] holds. *)
Definition pushIf (c : bool) (line : jsstring) (errors : list jsstring)
    : list jsstring :=
  if c then errors ++ [line] else errors.

(** The [errors] array at the end of [validateConfig]. *)
Definition validationErrors (config : props) : list jsstring :=
  let errors := [] in
  let ecsTaskCpu := numberOrZero (get (VObj config) (lit "ECS_TASK_CPU")) in
  let errors := pushIf (num_lt ecsTaskCpu (num_of_Z 256)) msg_cpu_min errors in
  let errors := pushIf (num_gt ecsTaskCpu (num_of_Z 16384)) msg_cpu_max errors in
  let ecsTaskMemory :=
    numberOrZero (get (VObj config) (lit "ECS_TASK_MEMORY")) in
  let errors :=
    pushIf (num_lt ecsTaskMemory (num_of_Z 512)) msg_memory_min errors in
  let errors :=
    pushIf (num_gt ecsTaskMemory (num_of_Z 122880)) msg_memory_max errors in
  errors.

(** [DataplaneConfig.validateConfig]. *)
Definition validateConfig (config : props) : result unit :=
  let errors := validationErrors config in
  if (0 <? length errors)%nat then
    Throw (Error (validation_header ++ LF ++ join LF errors))
  else Ok tt.

(** The [mergedConfig] constant of the [DataplaneConfig] constructor. *)
Definition mergedConfig (config : value) : props :=
  spreadOver DataplaneConfig_defaults config.

(** The method call [this.name(...)] reaches the method of the class: no
    own property of the instance hides it and the prototype is still the one
    of the class.  (No value of a configuration is a function, and no
    prototype a configuration can supply has a function under a name of the
    classes.) *)
Definition reachesMethod (this : BaseConfig) (name : jsstring) : bool :=
  bool_decide (BaseConfig_fields this !! name = None)
  && match BaseConfig_prototype this with
     | ClassPrototype => true
     | _ => false
     end.

Definition msg_not_a_function : jsstring :=
  lit "this.validateConfig is not a function".

(** [new DataplaneConfig(config)]; an omitted argument is [undefined], whose
    spread adds nothing to the defaults, as the default [{}] does.  The
    constructor of the base class runs first; then [this.validateConfig] is
    looked up on the instance it has filled, and called. *)
Definition DataplaneConfig_new (config : value) : result DataplaneConfig :=
  let merged := mergedConfig config in
  let this := BaseConfig_new merged in
  if reachesMethod this (lit "validateConfig") then
    validateConfig merged ≫= fun _ =>
    Ok {| DataplaneConfig_fields := BaseConfig_fields this;
          DataplaneConfig_prototype := BaseConfig_prototype this |}
  else Throw (TypeError msg_not_a_function).

(* ===================================================================== *)
(** ** The loader (load-deployment.ts) *)
(* ===================================================================== *)

Record Account : Type := {
  account_id : jsstring;
  account_region : jsstring;
  account_prodLike : bool;
  account_isAdc : bool
}.

(** The [DeploymentConfig] interface; [None] is an [undefined] field. *)
Record DeploymentConfig : Type := {
  projectName : jsstring;
  account : Account;
  networkConfig : option NetworkConfig;
  dataplaneConfig : option value;
  deployIntegrationTests : bool;
  testImageryConfig : option TestImageryConfig;
  testConfig : option TestConfig
}.

(** What [existsSync] and [readFileSync] find at the path. *)
Inductive file_state : Type :=
| FileMissing
| FileUnreadable (thrown : exn)
| FileContent (rawContent : jsstring).

(** The environment the loader runs in: the configuration file beside the
    loader and the lines written with [console.log]. *)
Record world : Type := {
  deploymentPath : jsstring;
  deployment_json : file_state;
  console : list jsstring
}.

Definition console_log (line : jsstring) (w : world) : world :=
  {| deploymentPath := deploymentPath w;
     deployment_json := deployment_json w;
     console := console w ++ [line] |}.

(** [x && typeof x === "object"], the guard of every optional section. *)
Definition isObjectValue (x : value) : bool :=
  truthy x && bool_decide (typeof x = TObject).

(** The [catch] clause around reading and parsing. *)
Definition readErrorHandler (error : exn) : exn :=
  match error with
  | SyntaxError m =>
      DeploymentConfigError
        (lit "Invalid JSON format in deployment.json: " ++ m) None
  | NonError =>
      DeploymentConfigError
        (lit "Failed to read deployment.json: " ++ lit "Unknown error") None
  | _ =>
      DeploymentConfigError
        (lit "Failed to read deployment.json: " ++ message error) None
  end.

(** The first part of [loadDeploymentConfig]: locate, read and parse the
    file. *)
Definition readParsed (JSON_parse : jsstring -> result value) (w : world)
    : result value :=
  match deployment_json w with
  | FileMissing =>
      Throw (DeploymentConfigError
               (lit "Missing deployment.json file at " ++ deploymentPath w
                  ++ lit ". Please create it by copying deployment.json.example")
               None)
  | FileUnreadable thrown => Throw (readErrorHandler thrown)
  | FileContent rawContent =>
      match JSON_parse rawContent with
      | Ok parsed => Ok parsed
      | Throw error => Throw (readErrorHandler error)
      end
  end.

(** The part of [loadDeploymentConfig] under "Validate account section". *)
Definition parseAccount (config : value) : result Account :=
  if negb (truthy (get config (lit "account")))
     || negb (bool_decide (typeof (get config (lit "account")) = TObject))
  then
    Throw (DeploymentConfigError
             (lit "Missing or invalid account section in deployment.json")
             (Some (lit "account")))
  else
    let accountConfig := get config (lit "account") in
    accountId ←
      validateStringField (get accountConfig (lit "id")) (lit "account.id") true
        ≫= validateAccountId;
    region ←
      validateStringField (get accountConfig (lit "region"))
        (lit "account.region") true
        ≫= validateRegion;
    prodLike ←
      validateBooleanField (get accountConfig (lit "prodLike"))
        (lit "account.prodLike") true None;
    isAdc ←
      validateBooleanField (get accountConfig (lit "isAdc"))
        (lit "account.isAdc") false (Some false);
    Ok {| account_id := accountId; account_region := region;
          account_prodLike := prodLike; account_isAdc := isAdc |}.

(** The elements a [for ... of] loop visits. *)
Definition elements (v : value) : list value :=
  match v with
  | VArr l => l
  | _ => []
  end.

(** [arr.length === 0]. *)
Definition lengthIsZero (v : value) : bool :=
  match v with
  | VArr [] => true
  | _ => false
  end.

(** The part of [loadDeploymentConfig] under "Parse optional Network
    configuration". *)
Definition parseNetworkConfig (config : value)
    : result (option NetworkConfig) :=
  if isObjectValue (get config (lit "networkConfig"))
     && negb (is_null (get config (lit "networkConfig")))
  then
    let networkConfigData := get config (lit "networkConfig") in
    let VPC_ID := get networkConfigData (lit "VPC_ID") in
    let TARGET_SUBNETS := get networkConfigData (lit "TARGET_SUBNETS") in
    let SECURITY_GROUP_ID := get networkConfigData (lit "SECURITY_GROUP_ID") in
    when (negb (is_undefined VPC_ID))
      (discard (validateStringField VPC_ID (lit "networkConfig.VPC_ID") true
                  ≫= validateVpcId));;
    when (negb (is_undefined TARGET_SUBNETS))
      (if negb (isArray TARGET_SUBNETS) then
         Throw (DeploymentConfigError
                  (lit "Field 'networkConfig.TARGET_SUBNETS' must be an array")
                  (Some (lit "networkConfig.TARGET_SUBNETS")))
       else
         forOf (elements TARGET_SUBNETS) (fun subnetId =>
           discard (validateStringField subnetId
                      (lit "networkConfig.TARGET_SUBNETS[]") true
                      ≫= validateSubnetId)));;
    when (negb (is_undefined SECURITY_GROUP_ID))
      (discard (validateStringField SECURITY_GROUP_ID
                  (lit "networkConfig.SECURITY_GROUP_ID") true
                  ≫= validateSecurityGroupId));;
    when (truthy VPC_ID
          && (negb (truthy TARGET_SUBNETS)
              || negb (isArray TARGET_SUBNETS)
              || lengthIsZero TARGET_SUBNETS))
      (Throw (DeploymentConfigError
                (lit "When VPC_ID is provided, TARGET_SUBNETS must also be specified with at least one subnet ID")
                (Some (lit "networkConfig.TARGET_SUBNETS"))));;
    Ok (Some (NetworkConfig_new networkConfigData))
  else Ok None.

(** The rest of [loadDeploymentConfig], from "Validate top-level
    structure" to the [validatedConfig] record. *)
Definition validateParsed (parsed : value) : result DeploymentConfig :=
  if negb (truthy parsed) || negb (bool_decide (typeof parsed = TObject)) then
    Throw (DeploymentConfigError
             (lit "deployment.json must contain a valid JSON object") None)
  else
    let config := parsed in
    projectName ←
      validateStringField (get config (lit "projectName")) (lit "projectName")
        true;
    when (length projectName =? 0)%nat
      (Throw (DeploymentConfigError (lit "projectName cannot be empty") None));;
    account ← parseAccount config;
    networkConfig ← parseNetworkConfig config;
    let dataplaneConfig :=
      if isObjectValue (get config (lit "dataplaneConfig"))
      then Some (get config (lit "dataplaneConfig")) else None in
    deployIntegrationTests ←
      validateBooleanField (get config (lit "deployIntegrationTests"))
        (lit "deployIntegrationTests") false (Some true);
    let testImageryConfig :=
      if (deployIntegrationTests : bool) then
        if isObjectValue (get config (lit "testImageryConfig"))
        then Some (TestImageryConfig_new (get config (lit "testImageryConfig")))
        else None
      else None in
    let testConfig :=
      if (deployIntegrationTests : bool) then
        if isObjectValue (get config (lit "testConfig"))
        then Some (TestConfig_new (get config (lit "testConfig")))
        else None
      else None in
    Ok {| projectName := projectName;
          account := account;
          networkConfig := networkConfig;
          dataplaneConfig := dataplaneConfig;
          deployIntegrationTests := deployIntegrationTests;
          testImageryConfig := testImageryConfig;
          testConfig := testConfig |}.

(** The line the loader logs on success. *)
Definition logLine (validatedConfig : DeploymentConfig) : jsstring :=
  lit "Using environment from deployment.json: projectName="
    ++ projectName validatedConfig ++ lit ", region="
    ++ account_region (account validatedConfig).

(** [loadDeploymentConfig()]: the value returned or thrown, and the world it
    leaves.  [JSON_parse] is the built-in [JSON.parse]. *)
Definition loadDeploymentConfig
    (JSON_parse : jsstring -> result value) (w : world)
    : result DeploymentConfig * world :=
  match readParsed JSON_parse w ≫= validateParsed with
  | Ok validatedConfig =>
      (Ok validatedConfig, console_log (logLine validatedConfig) w)
  | Throw e => (Throw e, w)
  end.

(* ===================================================================== *)
(** ** Identifier shapes, as the documentation words them *)
(* ===================================================================== *)

Definition isDigit (c : N) : bool := ((48 <=? c) && (c <=? 57))%N.

(** A lowercase hexadecimal character: [0-9] or [a-f]. *)
Definition isLowerHex (c : N) : bool :=
  isDigit c || ((97 <=? c) && (c <=? 102))%N.

(** A lowercase alphanumeric character: [0-9] or [a-z]. *)
Definition isLowerAlnum (c : N) : bool :=
  isDigit c || ((97 <=? c) && (c <=? 122))%N.

(** [prefix] followed by exactly 8 or exactly 17 lowercase hexadecimal
    characters. *)
Definition resourceIdShape (prefix s : jsstring) : Prop :=
  exists suffix,
    s = prefix ++ suffix
    /\ (length suffix = 8 \/ length suffix = 17)
    /\ Forall (fun c => isLowerHex c = true) suffix.

(** A non-empty run of lowercase alphanumeric characters. *)
Definition segment (seg : jsstring) : Prop :=
  seg <> [] /\ Forall (fun c => isLowerAlnum c = true) seg.

(** At least [n] segments separated by single hyphens. *)
Definition regionShape (n : nat) (s : jsstring) : Prop :=
  exists segs,
    n <= length segs /\ Forall segment segs /\ s = join [hyphen] segs.

(* ===================================================================== *)
(** ** Notions used to state the properties of the loader *)
(* ===================================================================== *)

(** Exactly twelve decimal digits. *)
Definition accountIdShape (s : jsstring) : Prop :=
  length s = 12 /\ Forall (fun c => isDigit c = true) s.

(** The file exists, is readable, and [JSON.parse] of its content is
    [parsed]. *)
Definition parsesTo (JSON_parse : jsstring -> result value) (w : world)
    (parsed : value) : Prop :=
  exists rawContent,
    deployment_json w = FileContent rawContent
    /\ JSON_parse rawContent = Ok parsed.

(** The checks the loader makes before it looks at the optional sections
    pass: the content is an object, [projectName] is a string that is not
    blank, and the [account] section is an object with a twelve-digit [id], a
    [region] of two segments or more, a boolean [prodLike] and, if given, a
    boolean [isAdc]. *)
Record validHeader (parsed : value) : Prop := {
  vh_object : isObjectValue parsed = true;
  vh_projectName :
    exists p, get parsed (lit "projectName") = VStr p /\ trim p <> [];
  vh_account : isObjectValue (get parsed (lit "account")) = true;
  vh_id :
    exists i, get (get parsed (lit "account")) (lit "id") = VStr i
              /\ accountIdShape (trim i);
  vh_region :
    exists r, get (get parsed (lit "account")) (lit "region") = VStr r
              /\ regionShape 2 (trim r);
  vh_prodLike :
    exists b, get (get parsed (lit "account")) (lit "prodLike") = VBool b;
  vh_isAdc :
    is_undefined (get (get parsed (lit "account")) (lit "isAdc"))
    || is_null (get (get parsed (lit "account")) (lit "isAdc"))
    || bool_decide (typeof (get (get parsed (lit "account")) (lit "isAdc"))
                    = TBoolean) = true
}.

(** The [isAdc] flag stored for a raw value that is absent or a boolean. *)
Definition isAdcOf (v : value) : bool :=
  match v with VBool b => b | _ => false end.

(** The optional top-level sections that are objects. *)
Inductive section : Type :=
| NetworkSection | DataplaneSection | TestImagerySection | TestSection.

#[global] Instance section_eq_dec : EqDecision section.
Proof. solve_decision. Defined.

Definition sectionKey (sec : section) : jsstring :=
  match sec with
  | NetworkSection => lit "networkConfig"
  | DataplaneSection => lit "dataplaneConfig"
  | TestImagerySection => lit "testImageryConfig"
  | TestSection => lit "testConfig"
  end.

(** The field of the result a section fills is [undefined]. *)
Definition sectionAbsent (sec : section) (cfg : DeploymentConfig) : Prop :=
  match sec with
  | NetworkSection => networkConfig cfg = None
  | DataplaneSection => dataplaneConfig cfg = None
  | TestImagerySection => testImageryConfig cfg = None
  | TestSection => testConfig cfg = None
  end.

(** The configuration leaves the instance built from it its class and the
    methods of the class: it has no key [validateConfig], and no key
    [__proto__] that holds an object or [null]. *)
Definition keepsMethods (config : value) : Prop :=
  ownProps config !! lit "validateConfig" = None
  /\ forall v, ownProps config !! lit "__proto__" = Some v ->
               typeof v <> TObject.

(** The violation lines, one per violated bound, compute bounds first. *)
Definition violationLines (cpu memory : number) : list jsstring :=
  (if num_lt cpu (num_of_Z 256) then [msg_cpu_min] else [])
  ++ (if num_gt cpu (num_of_Z 16384) then [msg_cpu_max] else [])
  ++ (if num_lt memory (num_of_Z 512) then [msg_memory_min] else [])
  ++ (if num_gt memory (num_of_Z 122880) then [msg_memory_max] else []).

(** Both sizes within their inclusive bounds. *)
Definition withinBounds (cpu memory : number) : bool :=
  num_le (num_of_Z 256) cpu && num_le cpu (num_of_Z 16384)
  && num_le (num_of_Z 512) memory && num_le memory (num_of_Z 122880).


(** [VPC_ID] of a network section is a string that, trimmed, is a VPC
    identifier. *)
Definition validVpcId (networkConfigData : value) : Prop :=
  exists v, get networkConfigData (lit "VPC_ID") = VStr v
            /\ resourceIdShape (lit "vpc-") (trim v).

(** [SECURITY_GROUP_ID] of a network section is absent or a string that,
    trimmed, is a security-group identifier. *)
Definition securityGroupOk (networkConfigData : value) : Prop :=
  get networkConfigData (lit "SECURITY_GROUP_ID") = VUndefined
  \/ exists g, get networkConfigData (lit "SECURITY_GROUP_ID") = VStr g
               /\ resourceIdShape (lit "sg-") (trim g).

(** [TARGET_SUBNETS] is absent, not a list, or an empty list. *)
Definition noSubnets (targetSubnets : value) : Prop :=
  targetSubnets = VUndefined
  \/ isArray targetSubnets = false
  \/ targetSubnets = VArr [].

Definition msg_subnets_not_array : jsstring :=
  lit "Field 'networkConfig.TARGET_SUBNETS' must be an array".
Definition msg_subnets_required : jsstring :=
  lit "When VPC_ID is provided, TARGET_SUBNETS must also be specified with at least one subnet ID".

(** A configuration that supplies only [projectName] and an [account]
    section with [id], [region] and [prodLike]. *)
Definition minimalConfig (p i r : jsstring) (b : bool) : value :=
  VObj (object [("projectName", VStr p);
                ("account", VObj (object [("id", VStr i);
                                          ("region", VStr r);
                                          ("prodLike", VBool b)]))]).

(** Two raw values of an optional section the loader cannot tell apart:
    equal, or neither a non-null object. *)
Definition sameSection (x y : value) : Prop :=
  x = y \/ (isObjectValue x = false /\ isObjectValue y = false).

(** jest's [expect(...).toThrow(text)]: the computation throws and the
    message contains [text]. *)
Definition toThrow {A} (text : string) (r : result A) : bool :=
  match r with
  | Throw e => includes (lit text) (message e)
  | Ok _ => false
  end.

(* ===================================================================== *)
(** ** Example inputs *)
(* ===================================================================== *)

(** The account section the unit tests use. *)
Definition ex_account : value :=
  VObj (object [("id", VStr (lit "123456789012"));
                ("region", VStr (lit "us-west-2"));
                ("prodLike", VBool false)]).

(** The configuration of the unit tests, with further top-level keys. *)
Definition ex_config (more : list (string * value)) : value :=
  VObj (object ([("projectName", VStr (lit "test-project"));
                 ("account", ex_account)] ++ more)).

(** A world in which the configuration file is present and readable. *)
Definition ex_world : world :=
  {| deploymentPath := lit "/app/cdk/bin/deployment/deployment.json";
     deployment_json := FileContent (lit "deployment.json content");
     console := [] |}.

(** A [JSON.parse] under which the example file parses to [parsed]. *)
Definition parsingTo (parsed : value) : jsstring -> result value :=
  fun rawContent =>
    if decide (rawContent = lit "deployment.json content") then Ok parsed
    else Throw (SyntaxError (lit "Unexpected token")).

(** [networkConfig: { VPC_ID: "vpc-12345678" }] *)
Definition ex_vpc_only : value :=
  ex_config [("networkConfig",
              VObj (object [("VPC_ID", VStr (lit "vpc-12345678"))]))].

(** [networkConfig: { VPC_ID: "invalid-vpc-id" }] *)
Definition ex_vpc_invalid : value :=
  ex_config [("networkConfig",
              VObj (object [("VPC_ID", VStr (lit "invalid-vpc-id"))]))].

(** [deployIntegrationTests: false] with both test sections supplied. *)
Definition ex_tests_off : value :=
  ex_config [("deployIntegrationTests", VBool false);
             ("testImageryConfig",
              VObj (object [("S3_IMAGE_BUCKET_PREFIX",
                             VStr (lit "custom-test-imagery"))]));
             ("testConfig",
              VObj (object [("BUILD_FROM_SOURCE", VBool true)]))].

(** A [VPC_ID] written with blanks around it. *)
Definition ex_vpc_padded : value :=
  ex_config [("networkConfig",
              VObj (object [("VPC_ID", VStr (lit " vpc-12345678 "));
                            ("TARGET_SUBNETS",
                             VArr [VStr (lit "subnet-12345678")])]))].

(** Sections given as a string, a number, a boolean and [null]. *)
Definition ex_sections_not_objects : value :=
  ex_config [("networkConfig", VStr (lit "vpc-12345678"));
             ("dataplaneConfig", VNum (num_of_Z 4096));
             ("testImageryConfig", VBool true);
             ("testConfig", VNull)].

(* ===================================================================== *)
(** ** Validity of a parsed configuration *)
(* ===================================================================== *)

(** An element of [TARGET_SUBNETS]: a string that, trimmed, is a subnet
    identifier. *)
Definition validSubnetEntry (v : value) : Prop :=
  exists s, v = VStr s /\ resourceIdShape (lit "subnet-") (trim s).

(** [TARGET_SUBNETS] is absent or a list of subnet identifiers. *)
Definition validSubnets (targetSubnets : value) : Prop :=
  targetSubnets = VUndefined
  \/ exists l, targetSubnets = VArr l /\ Forall validSubnetEntry l.

(** The network section is not an object (and is ignored), or each of its
    identifiers that is given is well formed and a [VPC_ID] comes with at
    least one subnet. *)
Definition validNetwork (parsed : value) : Prop :=
  let networkConfigData := get parsed (lit "networkConfig") in
  isObjectValue networkConfigData = false
  \/ ((get networkConfigData (lit "VPC_ID") = VUndefined
       \/ validVpcId networkConfigData)
      /\ validSubnets (get networkConfigData (lit "TARGET_SUBNETS"))
      /\ securityGroupOk networkConfigData
      /\ (get networkConfigData (lit "VPC_ID") <> VUndefined ->
          exists x l,
            get networkConfigData (lit "TARGET_SUBNETS") = VArr (x :: l))).

(** [deployIntegrationTests] is absent, [null] or a boolean. *)
Definition validFlag (parsed : value) : Prop :=
  let flag := get parsed (lit "deployIntegrationTests") in
  flag = VUndefined \/ flag = VNull \/ exists b, flag = VBool b.

Definition validConfiguration (parsed : value) : Prop :=
  validHeader parsed /\ validNetwork parsed /\ validFlag parsed.

(** Property read [config.k] on a [NetworkConfig] instance, for a name that
    no built-in prototype defines: the own property, or else the property of
    a prototype the configuration has put in place of the one of the class. *)
Definition NetworkConfig_get (config : NetworkConfig) (k : jsstring) : value :=
  BaseConfig_get
    {| BaseConfig_fields := NetworkConfig_fields config;
       BaseConfig_prototype := NetworkConfig_prototype config |} k.

(** The section has no key [__proto__] that holds an object: an instance
    built from it inherits nothing from the file. *)
Definition inheritsNothing (data : value) : Prop :=
  forall v, ownProps data !! lit "__proto__" = Some v -> isObject v = false.

(** The tags the loader puts on its errors: the paths it passes to the
    field validators, and the fixed tags of the pattern validators. *)
Definition fieldTags : list jsstring :=
  [lit "projectName"; lit "account"; lit "account.id"; lit "account.region";
   lit "account.prodLike"; lit "account.isAdc"; lit "networkConfig.VPC_ID";
   lit "config.targetVpcId"; lit "networkConfig.TARGET_SUBNETS";
   lit "networkConfig.TARGET_SUBNETS[]"; lit "networkConfig.targetSubnets";
   lit "networkConfig.SECURITY_GROUP_ID"; lit "vpcConfig.securityGroupId";
   lit "deployIntegrationTests"].

(** The result with the field of a section blanked. *)
Definition withoutSection (sec : section) (cfg : DeploymentConfig)
    : DeploymentConfig :=
  {| projectName := projectName cfg;
     account := account cfg;
     networkConfig :=
       match sec with NetworkSection => None | _ => networkConfig cfg end;
     dataplaneConfig :=
       match sec with DataplaneSection => None | _ => dataplaneConfig cfg end;
     deployIntegrationTests := deployIntegrationTests cfg;
     testImageryConfig :=
       match sec with
       | TestImagerySection => None
       | _ => testImageryConfig cfg
       end;
     testConfig :=
       match sec with TestSection => None | _ => testConfig cfg end |}.

Definition mapResult {A B} (f : A -> B) (r : result A) : result B :=
  match r with
  | Ok a => Ok (f a)
  | Throw e => Throw e
  end.

Definition msg_not_an_object : jsstring :=
  lit "deployment.json must contain a valid JSON object".

(* ===================================================================== *)
(** ** Regional configuration (types.ts) *)
(* ===================================================================== *)

Record RegionalConfigType : Type := {
  s3Endpoint : jsstring;
  maxVpcAzs : Z
}.

(** The [configs] table of [RegionalConfig]. *)
Definition RegionalConfig_configs : list (string * RegionalConfigType) :=
  [("us-east-1",
    {| s3Endpoint := lit "s3.amazonaws.com"; maxVpcAzs := 3 |});
   ("us-west-2",
    {| s3Endpoint := lit "s3.us-west-2.amazonaws.com"; maxVpcAzs := 3 |});
   ("us-west-1",
    {| s3Endpoint := lit "s3.us-west-1.amazonaws.com"; maxVpcAzs := 2 |});
   ("eu-west-1",
    {| s3Endpoint := lit "s3.eu-west-1.amazonaws.com"; maxVpcAzs := 3 |});
   ("ap-southeast-1",
    {| s3Endpoint := lit "s3.ap-southeast-1.amazonaws.com"; maxVpcAzs := 3 |});
   ("us-gov-west-1",
    {| s3Endpoint := lit "s3.us-gov-west-1.amazonaws.com"; maxVpcAzs := 2 |});
   ("us-gov-east-1",
    {| s3Endpoint := lit "s3.us-gov-east-1.amazonaws.com"; maxVpcAzs := 2 |});
   ("us-isob-east-1",
    {| s3Endpoint := lit "s3.us-isob-east-1.sc2s.sgov.gov"; maxVpcAzs := 2 |});
   ("us-iso-east-1",
    {| s3Endpoint := lit "s3.us-iso-east-1.c2s.ic.gov"; maxVpcAzs := 2 |})].

(** The own property [configs[k]] of the table. *)
Fixpoint ownConfig (table : list (string * RegionalConfigType))
    (k : jsstring) : option RegionalConfigType :=
  match table with
  | [] => None
  | (name, c) :: rest =>
      if decide (lit name = k) then Some c else ownConfig rest k
  end.

(** The properties every object literal inherits from [Object.prototype];
    a read of one of these names on the table yields the inherited member,
    which is truthy. *)
Definition Object_prototype_names : list jsstring :=
  [lit "constructor"; lit "__defineGetter__"; lit "__defineSetter__";
   lit "hasOwnProperty"; lit "__lookupGetter__"; lit "__lookupSetter__";
   lit "isPrototypeOf"; lit "propertyIsEnumerable"; lit "toString";
   lit "valueOf"; lit "__proto__"; lit "toLocaleString"].

(** What [this.configs[region] || this.configs["us-east-1"]] evaluates to. *)
Inductive configMember : Type :=
| RegionEntry (c : RegionalConfigType)
| InheritedMember (name : jsstring).

(** [RegionalConfig.getConfig]. *)
Definition getConfig (region : jsstring) : configMember :=
  match ownConfig RegionalConfig_configs region with
  | Some c => RegionEntry c
  | None =>
      if decide (region ∈ Object_prototype_names) then InheritedMember region
      else
        match ownConfig RegionalConfig_configs (lit "us-east-1") with
        | Some c => RegionEntry c
        | None => InheritedMember (lit "us-east-1")
        end
  end.

(** [Dataplane.initializeRegionalS3Endpoint]: the [s3Endpoint] property of
    what [getConfig] returns, [undefined] on an inherited member. *)
Definition initializeRegionalS3Endpoint (account : Account) : option jsstring :=
  match getConfig (account_region account) with
  | RegionEntry c => Some (s3Endpoint c)
  | InheritedMember _ => None
  end.

(* ===================================================================== *)
(** ** Users of the loaded configuration *)
(* ===================================================================== *)

(** The [config] property handed to [Dataplane]: a [DataplaneConfig]
    instance, or any other value ([undefined] when omitted). *)
Inductive configProp : Type :=
| ConfigInstance (c : DataplaneConfig)
| ConfigPlain (v : value).

(** tile-server-stack.ts:
    [deployment.dataplaneConfig ? new DataplaneConfig(...) : undefined]. *)
Definition TileServerStack_dataplaneConfig (deployment : DeploymentConfig)
    : result configProp :=
  match dataplaneConfig deployment with
  | Some raw =>
      if truthy raw
      then DataplaneConfig_new raw ≫= fun c => Ok (ConfigInstance c)
      else Ok (ConfigPlain VUndefined)
  | None => Ok (ConfigPlain VUndefined)
  end.

(** [Dataplane.initializeConfig]. *)
Definition initializeConfig (config : configProp) : result DataplaneConfig :=
  match config with
  | ConfigInstance c => Ok c
  | ConfigPlain v =>
      DataplaneConfig_new (if is_undefined v || is_null v then VObj ∅ else v)
  end.

(** What [Network.resolveSubnets] asks the VPC to select. *)
Inductive SubnetSelection : Type :=
| byIds (ids : value)
| PRIVATE_WITH_EGRESS.

(** [Network.resolveSubnets]. *)
Definition resolveSubnets (config : NetworkConfig) : SubnetSelection :=
  if truthy (NetworkConfig_get config (lit "TARGET_SUBNETS"))
  then byIds (NetworkConfig_get config (lit "TARGET_SUBNETS"))
  else PRIVATE_WITH_EGRESS.

(** bin/app.ts and [Network.resolveVpc]: the existing VPC is looked up when
    [networkConfig?.VPC_ID] is truthy. *)
Definition importsVpc (deployment : DeploymentConfig) : bool :=
  match networkConfig deployment with
  | Some config => truthy (NetworkConfig_get config (lit "VPC_ID"))
  | None => false
  end.

(** The error carries the tag [f]. *)
Definition taggedWith (f : jsstring) (e : exn) : Prop :=
  exists m, e = DeploymentConfigError m (Some f).

(** An error that carries one of the tags of the loader. *)
Definition tagged (e : exn) : Prop :=
  exists m f, e = DeploymentConfigError m (Some f) /\ f ∈ fieldTags.

(* ===================================================================== *)
(** ** Facts about strings *)
(* ===================================================================== *)

Section StringFacts.
Implicit Types s sub p : jsstring.

Lemma startsWith_spec p s :
  startsWith p s = true <-> exists post, s = p ++ post.
Proof.
  revert s. induction p as [|a p IH]; intros s; simpl.
  - split; [intros _; by exists s | done].
  - destruct s as [|b s].
    + split; [done | intros [post H]; discriminate].
    + rewrite andb_true_iff, N.eqb_eq, IH. split.
      * intros [-> [post ->]]. by exists post.
      * intros [post H]. injection H as -> ->. eauto.
Qed.

Lemma includes_spec sub s :
  includes sub s = true <-> exists pre post, s = pre ++ sub ++ post.
Proof.
  induction s as [|c s IH]; simpl; rewrite orb_true_iff, startsWith_spec.
  - split.
    + intros [[post H] | ?]; [|done]. by exists [], post.
    + intros (pre & post & H). left.
      destruct pre; [by exists post | discriminate].
  - rewrite IH. split.
    + intros [[post H] | (pre & post & ->)].
      * by exists [], post.
      * by exists (c :: pre), post.
    + intros (pre & post & H). destruct pre as [|c' pre].
      * left. by exists post.
      * right. injection H as -> ->. by exists pre, post.
Qed.

Lemma includes_app_r sub a b :
  includes sub b = true -> includes sub (a ++ b) = true.
Proof.
  rewrite !includes_spec. intros (pre & post & ->).
  exists (a ++ pre), post. by rewrite <- app_assoc.
Qed.

Lemma includes_app_l sub a b :
  includes sub a = true -> includes sub (a ++ b) = true.
Proof.
  rewrite !includes_spec. intros (pre & post & ->).
  exists pre, (post ++ b). by rewrite <- !app_assoc.
Qed.

Lemma includes_refl s : includes s s = true.
Proof. apply includes_spec. exists [], []. by rewrite app_nil_r. Qed.

(** [trimStart] removes the longest run of white space at the front. *)
Lemma trimStart_spec s :
  exists ws, s = ws ++ trimStart s
             /\ Forall (fun c => isWhiteSpace c = true) ws
             /\ head (isWhiteSpace <$> trimStart s) <> Some true.
Proof.
  induction s as [|c s (ws & Hs & Hws & Hhd)]; simpl.
  - by exists [].
  - destruct (isWhiteSpace c) eqn:Hc.
    + exists (c :: ws). split_and!; [simpl; f_equal; exact Hs | by constructor | done].
    + exists []. split_and!; [done | constructor |]. simpl. by rewrite Hc.
Qed.

Lemma trimStart_fixed s :
  head (isWhiteSpace <$> s) <> Some true -> trimStart s = s.
Proof. destruct s as [|c s]; simpl; [done|]. by destruct (isWhiteSpace c). Qed.

Lemma trimStart_idemp s : trimStart (trimStart s) = trimStart s.
Proof.
  destruct (trimStart_spec s) as (ws & _ & _ & Hhd). by apply trimStart_fixed.
Qed.

Lemma trimEnd_idemp s : trimEnd (trimEnd s) = trimEnd s.
Proof.
  unfold trimEnd. by rewrite reverse_involutive, trimStart_idemp.
Qed.

Lemma trimStart_all_ws s :
  Forall (fun c => isWhiteSpace c = true) s -> trimStart s = [].
Proof. induction 1 as [|c s Hc _ IH]; simpl; [done|]. by rewrite Hc. Qed.



(** Trimming the end does not bring white space to the front. *)
Lemma trimEnd_head s :
  head (isWhiteSpace <$> s) <> Some true ->
  head (isWhiteSpace <$> trimEnd s) <> Some true.
Proof.
  unfold trimEnd.
  destruct (trimStart_spec (reverse s)) as (ws & Hs & Hws & _).
  intros Hhd. apply (f_equal reverse) in Hs.
  rewrite reverse_involutive, reverse_app in Hs.
  destruct (reverse (trimStart (reverse s))) as [|c r] eqn:Hr; [done|].
  rewrite Hs in Hhd. exact Hhd.
Qed.

Lemma trim_head s : head (isWhiteSpace <$> trim s) <> Some true.
Proof.
  unfold trim. apply trimEnd_head.
  by destruct (trimStart_spec s) as (ws & _ & _ & Hhd).
Qed.

(** [trim] is idempotent. *)
Lemma trim_idemp s : trim (trim s) = trim s.
Proof.
  unfold trim at 1. rewrite (trimStart_fixed (trim s)) by apply trim_head.
  unfold trim. apply trimEnd_idemp.
Qed.

(** The result of [trim] is the input less a run of white space at each
    end, and it neither starts nor ends with white space. *)
Lemma trim_spec s :
  exists front back,
    s = front ++ trim s ++ back
    /\ Forall (fun c => isWhiteSpace c = true) front
    /\ Forall (fun c => isWhiteSpace c = true) back
    /\ head (isWhiteSpace <$> trim s) <> Some true
    /\ last (isWhiteSpace <$> trim s) <> Some true.
Proof.
  destruct (trimStart_spec s) as (front & Hs & Hfront & _).
  destruct (trimStart_spec (reverse (trimStart s))) as (kcab & Hr & Hback & Hl).
  exists front, (reverse kcab). split_and!.
  - rewrite Hs at 1. f_equal. unfold trim, trimEnd.
    rewrite <- reverse_app, <- Hr. by rewrite reverse_involutive.
  - done.
  - by apply Forall_reverse.
  - apply trim_head.
  - unfold trim, trimEnd. rewrite fmap_reverse, last_reverse. exact Hl.
Qed.

Lemma trim_all_ws s :
  Forall (fun c => isWhiteSpace c = true) s -> trim s = [].
Proof. intros H. unfold trim. by rewrite trimStart_all_ws. Qed.

Lemma trim_empty_iff s :
  trim s = [] <-> Forall (fun c => isWhiteSpace c = true) s.
Proof.
  split; [|apply trim_all_ws].
  destruct (trim_spec s) as (front & back & Hs & Hf & Hb & _).
  intros E. rewrite E in Hs. rewrite Hs. simpl. by apply Forall_app.
Qed.

Lemma is_empty_true s : is_empty s = true <-> s = [].
Proof. by destruct s. Qed.

Lemma join_cons sep p (rest : list jsstring) :
  join sep (p :: rest) = p ++ concat ((fun q => sep ++ q) <$> rest).
Proof.
  revert p. induction rest as [|q rest IH]; intros p.
  - simpl. by rewrite app_nil_r.
  - change (join sep (p :: q :: rest)) with (p ++ sep ++ join sep (q :: rest)).
    rewrite IH. simpl. by rewrite <- !app_assoc.
Qed.
End StringFacts.

(* ===================================================================== *)
(** ** Facts about regular expressions *)
(* ===================================================================== *)

Section RegexFacts.
Implicit Types (r : regex) (s p : jsstring) (c : N).

Lemma nullable_spec r : nullable r = true <-> lang r [].
Proof.
  induction r as [| |cs|r1 IH1 r2 IH2|r1 IH1 r2 IH2|r1 IH1]; simpl.
  - done.
  - done.
  - split; [done | intros (c & H & _); discriminate].
  - rewrite andb_true_iff, IH1, IH2. split.
    + intros [H1 H2]. by exists [], [].
    + intros (s1 & s2 & H & H1 & H2).
      symmetry in H. apply app_eq_nil in H as [-> ->]. done.
  - by rewrite orb_true_iff, IH1, IH2.
  - split; [intros _ | done]. by exists [].
Qed.

(** A star word that starts with [c] splits into a first part that starts
    with [c] and a star word. *)
Lemma lang_star_cons r c s :
  lang (RStar r) (c :: s) ->
  exists s1 s2, s = s1 ++ s2 /\ lang r (c :: s1) /\ lang (RStar r) s2.
Proof.
  simpl. intros (parts & Hs & Hparts). revert Hs.
  induction Hparts as [|p parts Hp Hparts IH]; simpl; [done|].
  destruct p as [|c' p]; simpl.
  - exact IH.
  - intros H. injection H as <- ->. exists p, (concat parts).
    split_and!; [done | done | by exists parts].
Qed.

Lemma deriv_spec c r s : lang (deriv c r) s <-> lang r (c :: s).
Proof.
  revert s.
  induction r as [| |cs|r1 IH1 r2 IH2|r1 IH1 r2 IH2|r1 IH1]; intros s; simpl.
  - done.
  - done.
  - destruct (in_ranges cs c) eqn:Hc; simpl.
    + split.
      * intros ->. by exists c.
      * intros (c' & H & _). by injection H.
    + split; [done|]. intros (c' & H & Hc'). injection H as <- _.
      congruence.
  - assert (Hcat : (exists s1 s2, s = s1 ++ s2 /\ lang (deriv c r1) s1
                                  /\ lang r2 s2)
                   <-> exists t1 s2, c :: s = t1 ++ s2 /\ t1 <> []
                                     /\ lang r1 t1 /\ lang r2 s2).
    { split.
      - intros (s1 & s2 & -> & H1 & H2). exists (c :: s1), s2.
        split_and!; [done | done | by apply IH1 | done].
      - intros (t1 & s2 & H & Hne & H1 & H2).
        destruct t1 as [|c' t1]; [done|]. injection H as <- ->.
        exists t1, s2. split_and!; [done | by apply IH1 | done]. }
    destruct (nullable r1) eqn:Hn; simpl.
    + rewrite Hcat, IH2. split.
      * intros [(t1 & s2 & H & _ & H1 & H2) | H2]; [by exists t1, s2|].
        exists [], (c :: s). split_and!; [done | by apply nullable_spec | done].
      * intros (t1 & s2 & H & H1 & H2). destruct t1 as [|c' t1].
        -- right. simpl in H. by rewrite H.
        -- left. exists (c' :: t1), s2. done.
    + rewrite Hcat. split.
      * intros (t1 & s2 & H & _ & H1 & H2). by exists t1, s2.
      * intros (t1 & s2 & H & H1 & H2). exists t1, s2.
        split_and!; try done. intros ->. apply nullable_spec in H1.
        congruence.
  - by rewrite IH1, IH2.
  - split.
    + intros (s1 & s2 & -> & H1 & parts & -> & Hparts).
      exists ((c :: s1) :: parts). split; [done|].
      constructor; [by apply IH1 | done].
    + intros H. apply lang_star_cons in H as (s1 & s2 & -> & H1 & H2).
      exists s1, s2. split_and!; [done | by apply IH1 | done].
Qed.

(** The matcher decides the language. *)
Theorem regex_test_spec r s : regex_test r s = true <-> lang r s.
Proof.
  revert r. induction s as [|c s IH]; intros r; simpl.
  - apply nullable_spec.
  - by rewrite IH, deriv_spec.
Qed.

Lemma lang_RChr c s : lang (RChr c) s <-> s = [c].
Proof.
  simpl. split.
  - intros (c' & -> & H). rewrite orb_false_r, andb_true_iff in H.
    destruct H as [H1 H2]. apply N.leb_le in H1, H2. f_equal. lia.
  - intros ->. exists c. split; [done|].
    by rewrite orb_false_r, andb_true_iff, !N.leb_le.
Qed.

Lemma lang_RLit p s : lang (RLit p) s <-> s = p.
Proof.
  revert s. induction p as [|c p IH]; intros s.
  - done.
  - change (RLit (c :: p)) with (RCat (RChr c) (RLit p)).
    change (lang (RCat (RChr c) (RLit p)) s)
      with (exists s1 s2, s = s1 ++ s2 /\ lang (RChr c) s1 /\ lang (RLit p) s2).
    split.
    + intros (s1 & s2 & -> & H1 & H2). apply lang_RChr in H1 as ->.
      apply IH in H2 as ->. done.
    + intros ->. exists [c], p. split_and!; [done | by apply lang_RChr | by apply IH].
Qed.

Lemma lang_RRep_set n cs s :
  lang (RRep n (RSet cs)) s
  <-> length s = n /\ Forall (fun c => in_ranges cs c = true) s.
Proof.
  revert s. induction n as [|n IH]; intros s; simpl.
  - split; [by intros -> | intros [H _]; by destruct s].
  - split.
    + intros (s1 & s2 & -> & (c & -> & Hc) & H2). apply IH in H2 as [<- H2].
      split; [done | by constructor].
    + intros [Hlen Hall]. destruct s as [|c s]; [done|].
      apply Forall_cons in Hall as [Hc Hall]. exists [c], s.
      split_and!; [done | by exists c |]. apply IH. split; [|done].
      simpl in Hlen. lia.
Qed.

Lemma lang_RStar_set cs s :
  lang (RStar (RSet cs)) s <-> Forall (fun c => in_ranges cs c = true) s.
Proof.
  simpl. split.
  - intros (parts & -> & Hparts).
    induction Hparts as [|p parts (c & -> & Hc) _ IH]; simpl; [done|].
    by constructor.
  - intros Hall. exists ((fun c => [c]) <$> s). split.
    + clear Hall. induction s as [|c s IH]; simpl; [done | by f_equal].
    + induction Hall as [|c s Hc _ IH]; simpl; constructor; [by exists c | done].
Qed.

Lemma lang_RPlus_set cs s :
  lang (RPlus (RSet cs)) s
  <-> s <> [] /\ Forall (fun c => in_ranges cs c = true) s.
Proof.
  unfold RPlus.
  change (lang (RCat (RSet cs) (RStar (RSet cs))) s)
    with (exists s1 s2, s = s1 ++ s2 /\ lang (RSet cs) s1
                        /\ lang (RStar (RSet cs)) s2).
  split.
  - intros (s1 & s2 & -> & (c & -> & Hc) & H2). apply lang_RStar_set in H2.
    split; [done | by constructor].
  - intros [Hne Hall]. destruct s as [|c s]; [done|].
    apply Forall_cons in Hall as [Hc Hall]. exists [c], s.
    split_and!; [done | by exists c | by apply lang_RStar_set].
Qed.

Lemma lang_ROpt r s : lang (ROpt r) s <-> lang r s \/ s = [].
Proof. done. Qed.
End RegexFacts.

Section ShapeFacts.
Implicit Types (s p : jsstring) (c : N).

Lemma in_cc_hex c : in_ranges cc_hex c = isLowerHex c.
Proof.
  unfold in_ranges, cc_hex, isLowerHex, isDigit. simpl.
  rewrite orb_false_r. apply orb_comm.
Qed.

Lemma in_cc_alnum c : in_ranges cc_alnum c = isLowerAlnum c.
Proof.
  unfold in_ranges, cc_alnum, isLowerAlnum, isDigit. simpl.
  rewrite orb_false_r. apply orb_comm.
Qed.

Lemma Forall_cc_hex s :
  Forall (fun c => in_ranges cc_hex c = true) s
  <-> Forall (fun c => isLowerHex c = true) s.
Proof. apply Forall_iff. intros c. by rewrite in_cc_hex. Qed.

Lemma lang_segment s : lang (RPlus (RSet cc_alnum)) s <-> segment s.
Proof.
  rewrite lang_RPlus_set. unfold segment.
  apply and_iff_compat_l, Forall_iff. intros c. by rewrite in_cc_alnum.
Qed.

(** The language of [<prefix>[a-f0-9]{8}(?:[a-f0-9]{9})?]. *)
Lemma lang_resourceId p s : lang (re_resourceId p) s <-> resourceIdShape p s.
Proof.
  unfold re_resourceId, resourceIdShape.
  change (lang (RCat (RLit p) ?r) s)
    with (exists s1 s2, s = s1 ++ s2 /\ lang (RLit p) s1 /\ lang r s2).
  split.
  - intros (s1 & suffix & -> & H1 & s2 & s3 & -> & H2 & H3).
    apply lang_RLit in H1 as ->. apply lang_RRep_set in H2 as [L2 F2].
    exists (s2 ++ s3). split; [done|].
    apply lang_ROpt in H3 as [H3 | ->].
    + apply lang_RRep_set in H3 as [L3 F3]. split.
      * right. rewrite length_app. lia.
      * apply Forall_cc_hex, Forall_app. done.
    + rewrite app_nil_r. split; [by left | by apply Forall_cc_hex].
  - intros (suffix & -> & Hlen & Hall). exists p, suffix.
    split_and!; [done | by apply lang_RLit |].
    apply Forall_cc_hex in Hall.
    exists (take 8 suffix), (drop 8 suffix).
    rewrite take_drop. split_and!; [done | |].
    + apply lang_RRep_set. split.
      * rewrite length_take. lia.
      * by apply Forall_take.
    + apply lang_ROpt. destruct Hlen as [Hlen | Hlen].
      * right. apply nil_length_inv. rewrite length_drop. lia.
      * left. apply lang_RRep_set. split.
        -- rewrite length_drop. lia.
        -- by apply Forall_drop.
Qed.

(** The language of [(?:-[a-z0-9]+)*]. *)
Lemma lang_more_segments s :
  lang (RStar (RCat (RChr hyphen) (RPlus (RSet cc_alnum)))) s
  <-> exists segs,
        Forall segment segs
        /\ s = concat ((fun q => [hyphen] ++ q) <$> segs).
Proof.
  change (lang (RStar ?r) s)
    with (exists parts, s = concat parts /\ Forall (fun p => lang r p) parts).
  split.
  - intros (parts & -> & Hparts).
    induction Hparts as [|p parts Hp _ (segs & Hsegs & IH)].
    + by exists [].
    + destruct Hp as (h & q & -> & Hh & Hq). apply lang_RChr in Hh as ->.
      apply lang_segment in Hq. exists (q :: segs).
      split; [by constructor|]. simpl. by rewrite IH.
  - intros (segs & Hsegs & ->).
    exists ((fun q => [hyphen] ++ q) <$> segs). split; [done|].
    induction Hsegs as [|q segs Hq _ IH]; simpl; constructor; [|done].
    exists [hyphen], q.
    split_and!; [done | by apply lang_RChr | by apply lang_segment].
Qed.

(** The language of [[a-z0-9]+-[a-z0-9]+(?:-[a-z0-9]+)*]: two segments or
    more. *)
Lemma lang_region s : lang re_region s <-> regionShape 2 s.
Proof.
  unfold re_region, regionShape.
  change (lang (RCat ?a (RCat ?b (RCat ?c ?d))) s)
    with (exists s1 r1, s = s1 ++ r1 /\ lang a s1 /\
          exists s2 r2, r1 = s2 ++ r2 /\ lang b s2 /\
          exists s3 r3, r2 = s3 ++ r3 /\ lang c s3 /\ lang d r3).
  split.
  - intros (s1 & r1 & -> & H1 & h & r2 & -> & Hh & s3 & r3 & -> & H3 & H4).
    apply lang_segment in H1, H3. apply lang_RChr in Hh as ->.
    apply lang_more_segments in H4 as (segs & Hsegs & ->).
    exists (s1 :: s3 :: segs). split_and!.
    + simpl. lia.
    + by apply Forall_cons_2; [|apply Forall_cons_2].
    + rewrite join_cons. done.
  - intros (segs & Hlen & Hsegs & ->).
    destruct segs as [|s1 [|s3 segs]]; simpl in Hlen; [lia | lia |].
    apply Forall_cons in Hsegs as [H1 Hsegs].
    apply Forall_cons in Hsegs as [H3 Hsegs].
    exists s1, ([hyphen] ++ s3 ++ concat ((fun q => [hyphen] ++ q) <$> segs)).
    split_and!.
    + rewrite join_cons. done.
    + by apply lang_segment.
    + exists [hyphen], (s3 ++ concat ((fun q => [hyphen] ++ q) <$> segs)).
      split_and!; [done | by apply lang_RChr |].
      exists s3, (concat ((fun q => [hyphen] ++ q) <$> segs)).
      split_and!; [done | by apply lang_segment |].
      apply lang_more_segments. by exists segs.
Qed.
End ShapeFacts.

(* ===================================================================== *)
(** ** Facts about the loader *)
(* ===================================================================== *)

Section LoaderFacts.
Implicit Types (parsed v : value) (cfg : DeploymentConfig).


Lemma get_non_object v k : isObjectValue v = false -> get v k = VUndefined.
Proof. by destruct v. Qed.

Lemma validateParsed_Ok parsed cfg :
  validateParsed parsed = Ok cfg ->
  isObjectValue parsed = true
  /\ validateStringField (get parsed (lit "projectName")) (lit "projectName")
       true = Ok (projectName cfg)
  /\ parseAccount parsed = Ok (account cfg)
  /\ parseNetworkConfig parsed = Ok (networkConfig cfg)
  /\ validateBooleanField (get parsed (lit "deployIntegrationTests"))
       (lit "deployIntegrationTests") false (Some true)
     = Ok (deployIntegrationTests cfg)
  /\ dataplaneConfig cfg
     = (if isObjectValue (get parsed (lit "dataplaneConfig"))
        then Some (get parsed (lit "dataplaneConfig")) else None)
  /\ testImageryConfig cfg
     = (if deployIntegrationTests cfg then
          if isObjectValue (get parsed (lit "testImageryConfig"))
          then Some (TestImageryConfig_new
                       (get parsed (lit "testImageryConfig")))
          else None
        else None)
  /\ testConfig cfg
     = (if deployIntegrationTests cfg then
          if isObjectValue (get parsed (lit "testConfig"))
          then Some (TestConfig_new (get parsed (lit "testConfig")))
          else None
        else None).
Proof.
  unfold validateParsed, isObjectValue.
  destruct (truthy parsed); simpl; [|done].
  destruct (bool_decide (typeof parsed = TObject)); simpl; [|done].
  destruct (validateStringField _ _ _) as [pn|]; simpl; [|done].
  destruct (length pn =? 0)%nat; simpl; [done|].
  destruct (parseAccount parsed) as [acc|]; simpl; [|done].
  destruct (parseNetworkConfig parsed) as [nc|]; simpl; [|done].
  destruct (validateBooleanField _ _ _ _) as [dit|]; simpl; [|done].
  intros [= <-]. simpl. done.
Qed.
End LoaderFacts.

Section ValidatorFacts.
Implicit Types (s fieldName : jsstring) (v : value).

Lemma validateStringField_str s fieldName isRequired :
  validateStringField (VStr s) fieldName isRequired
  = if isRequired && is_empty (trim s)
    then Throw (DeploymentConfigError
                  (lit "Field '" ++ fieldName
                     ++ lit "' cannot be empty or contain only whitespace")
                  (Some fieldName))
    else Ok (trim s).
Proof. done. Qed.

Lemma validateStringField_required_Ok v fieldName t :
  validateStringField v fieldName true = Ok t ->
  exists s, v = VStr s /\ t = trim s /\ t <> [].
Proof.
  destruct v as [| |b|n|s|l|m]; try done.
  rewrite validateStringField_str.
  destruct (trim s) as [|c t'] eqn:E; simpl; [done|].
  intros [= <-]. exists s. by rewrite E.
Qed.

Lemma validateStringField_nonblank s fieldName isRequired :
  trim s <> [] ->
  validateStringField (VStr s) fieldName isRequired = Ok (trim s).
Proof.
  intros H. rewrite validateStringField_str.
  destruct (trim s); [done|]. by rewrite andb_false_r.
Qed.

Lemma in_cc_digit c : in_ranges cc_digit c = isDigit c.
Proof. unfold in_ranges, cc_digit, isDigit. simpl. apply orb_false_r. Qed.

Lemma regex_test_accountId s :
  regex_test re_accountId s = true <-> accountIdShape s.
Proof.
  rewrite regex_test_spec. unfold re_accountId, accountIdShape.
  rewrite lang_RRep_set. apply and_iff_compat_l, Forall_iff.
  intros c. by rewrite in_cc_digit.
Qed.

Lemma validateAccountId_Ok s : accountIdShape s -> validateAccountId s = Ok s.
Proof.
  intros H. apply regex_test_accountId in H. unfold validateAccountId.
  by rewrite H.
Qed.

Lemma validateRegion_iff s : validateRegion s = Ok s <-> regionShape 2 s.
Proof.
  rewrite <- lang_region, <- regex_test_spec. unfold validateRegion.
  by destruct (regex_test re_region s).
Qed.

Lemma validateVpcId_iff s :
  validateVpcId s = Ok s <-> resourceIdShape (lit "vpc-") s.
Proof.
  rewrite <- lang_resourceId, <- regex_test_spec. unfold validateVpcId.
  fold re_vpcId. by destruct (regex_test re_vpcId s).
Qed.

Lemma validateSecurityGroupId_iff s :
  validateSecurityGroupId s = Ok s <-> resourceIdShape (lit "sg-") s.
Proof.
  rewrite <- lang_resourceId, <- regex_test_spec.
  unfold validateSecurityGroupId. fold re_securityGroupId.
  by destruct (regex_test re_securityGroupId s).
Qed.

Lemma validateSubnetId_iff s :
  validateSubnetId s = Ok s <-> resourceIdShape (lit "subnet-") s.
Proof.
  rewrite <- lang_resourceId, <- regex_test_spec. unfold validateSubnetId.
  fold re_subnetId. by destruct (regex_test re_subnetId s).
Qed.

End ValidatorFacts.

Section HeaderFacts.
Implicit Types (parsed v : value) (cfg : DeploymentConfig).

Lemma regionShape_nonempty s : regionShape 2 s -> s <> [].
Proof.
  intros (segs & Hlen & Hsegs & ->).
  destruct segs as [|s1 segs]; simpl in Hlen; [lia|].
  apply Forall_cons in Hsegs as [[Hne _] _]. rewrite join_cons.
  by destruct s1.
Qed.

Lemma accountIdShape_nonempty s : accountIdShape s -> s <> [].
Proof. intros [Hlen _] ->. done. Qed.

Lemma resourceIdShape_nonempty p s : resourceIdShape p s -> s <> [].
Proof.
  intros (suffix & -> & Hlen & _) E. apply app_eq_nil in E as [_ ->].
  simpl in Hlen. lia.
Qed.

Lemma trim_nonempty s : trim s <> [] -> s <> [].
Proof. intros H ->. by apply H. Qed.

Lemma validateBooleanField_optional v fieldName d :
  is_undefined v || is_null v || bool_decide (typeof v = TBoolean) = true ->
  validateBooleanField v fieldName false (Some d)
  = Ok (match v with VBool b => b | _ => d end).
Proof. by destruct v. Qed.

Lemma parseAccount_valid parsed :
  validHeader parsed ->
  exists i r b,
    get (get parsed (lit "account")) (lit "id") = VStr i
    /\ get (get parsed (lit "account")) (lit "region") = VStr r
    /\ get (get parsed (lit "account")) (lit "prodLike") = VBool b
    /\ parseAccount parsed
       = Ok {| account_id := trim i; account_region := trim r;
               account_prodLike := b;
               account_isAdc :=
                 isAdcOf (get (get parsed (lit "account")) (lit "isAdc")) |}.
Proof.
  intros [_ _ Hacc (i & Ei & Hi) (r & Er & Hr) (b & Eb) Hadc].
  exists i, r, b. split_and!; try done.
  unfold parseAccount. unfold isObjectValue in Hacc.
  apply andb_true_iff in Hacc as [-> ->]. simpl.
  rewrite Ei, Er, Eb.
  rewrite (validateStringField_nonblank i)
    by by apply accountIdShape_nonempty.
  rewrite (validateStringField_nonblank r) by by apply regionShape_nonempty.
  simpl. rewrite validateAccountId_Ok by done. simpl.
  apply validateRegion_iff in Hr. rewrite Hr. simpl.
  rewrite validateBooleanField_optional by done. simpl.
  by destruct (get (get parsed (lit "account")) (lit "isAdc")).
Qed.

(** With a valid header the outcome is that of the optional sections. *)
Lemma validateParsed_valid parsed :
  validHeader parsed ->
  exists p acc,
    get parsed (lit "projectName") = VStr p
    /\ parseAccount parsed = Ok acc
    /\ validateParsed parsed
       = (parseNetworkConfig parsed ≫= fun nc =>
          validateBooleanField (get parsed (lit "deployIntegrationTests"))
            (lit "deployIntegrationTests") false (Some true) ≫= fun dit =>
          Ok {| projectName := trim p;
                account := acc;
                networkConfig := nc;
                dataplaneConfig :=
                  if isObjectValue (get parsed (lit "dataplaneConfig"))
                  then Some (get parsed (lit "dataplaneConfig")) else None;
                deployIntegrationTests := dit;
                testImageryConfig :=
                  if dit then
                    if isObjectValue (get parsed (lit "testImageryConfig"))
                    then Some (TestImageryConfig_new
                                 (get parsed (lit "testImageryConfig")))
                    else None
                  else None;
                testConfig :=
                  if dit then
                    if isObjectValue (get parsed (lit "testConfig"))
                    then Some (TestConfig_new (get parsed (lit "testConfig")))
                    else None
                  else None |}).
Proof.
  intros H. destruct (parseAccount_valid parsed H) as (i & r & b & _ & _ & _ & Hacc).
  destruct H as [Hobj (p & Ep & Hp) _ _ _ _ _].
  eexists p, _. split_and!; [done | exact Hacc |].
  unfold validateParsed. unfold isObjectValue in Hobj.
  apply andb_true_iff in Hobj as [-> ->]. simpl.
  rewrite Ep, validateStringField_nonblank by done. simpl.
  destruct (trim p) as [|c t] eqn:E; [done|]. simpl.
  rewrite Hacc. simpl. done.
Qed.

Lemma validateParsed_network_throws parsed e :
  validHeader parsed ->
  parseNetworkConfig parsed = Throw e -> validateParsed parsed = Throw e.
Proof.
  intros H Hnc. destruct (validateParsed_valid parsed H) as (p & acc & _ & _ & ->).
  by rewrite Hnc.
Qed.

(** How [loadDeploymentConfig] reduces to [validateParsed]. *)
Lemma load_parsed JSON_parse w parsed :
  parsesTo JSON_parse w parsed ->
  fst (loadDeploymentConfig JSON_parse w) = validateParsed parsed.
Proof.
  intros (raw & Hfile & Hparse). unfold loadDeploymentConfig, readParsed.
  rewrite Hfile, Hparse. simpl. by destruct (validateParsed parsed).
Qed.
End HeaderFacts.

Section NetworkFacts.
Implicit Types (parsed v nc : value).

Lemma validVpcId_check nc :
  validVpcId nc ->
  exists s, get nc (lit "VPC_ID") = VStr s /\ s <> []
    /\ (validateStringField (get nc (lit "VPC_ID")) (lit "networkConfig.VPC_ID")
          true ≫= validateVpcId) = Ok (trim s).
Proof.
  intros (s & Ev & Hv). exists s. split_and!; [done | |].
  - apply trim_nonempty. by eapply resourceIdShape_nonempty.
  - rewrite Ev, validateStringField_nonblank
      by by eapply resourceIdShape_nonempty.
    simpl. by apply validateVpcId_iff.
Qed.

Lemma securityGroupOk_check nc :
  securityGroupOk nc ->
  when (negb (is_undefined (get nc (lit "SECURITY_GROUP_ID"))))
    (discard (validateStringField (get nc (lit "SECURITY_GROUP_ID"))
                (lit "networkConfig.SECURITY_GROUP_ID") true
                ≫= validateSecurityGroupId))
  = Ok tt.
Proof.
  intros [-> | (g & -> & Hg)]; [done|]. simpl.
  rewrite validateStringField_nonblank by by eapply resourceIdShape_nonempty.
  simpl. apply validateSecurityGroupId_iff in Hg. by rewrite Hg.
Qed.

(** A checked [VPC_ID] is a non-empty string, hence truthy. *)
Lemma checked_vpc_truthy v t :
  (validateStringField v (lit "networkConfig.VPC_ID") true ≫= validateVpcId)
  = Ok t -> truthy v = true.
Proof.
  destruct (validateStringField v _ true) as [u|] eqn:E; [|done]. intros _.
  apply validateStringField_required_Ok in E as (s & -> & -> & Hne).
  simpl. apply trim_nonempty in Hne. by destruct s.
Qed.

(** The network section with a [VPC_ID] and no subnet always throws; when
    the checks made before the subnet rule pass, the message is one of the
    two about [TARGET_SUBNETS]. *)
Lemma parseNetworkConfig_vpc_no_subnets parsed :
  let nc := get parsed (lit "networkConfig") in
  let ts := get nc (lit "TARGET_SUBNETS") in
  get nc (lit "VPC_ID") <> VUndefined ->
  noSubnets ts ->
  exists e,
    parseNetworkConfig parsed = Throw e
    /\ (validVpcId nc ->
        (ts = VUndefined \/ ts = VArr [] -> securityGroupOk nc) ->
        message e = msg_subnets_not_array
        \/ message e = msg_subnets_required)
    /\ (validVpcId nc -> ts = VUndefined -> securityGroupOk nc ->
        message e = msg_subnets_required).
Proof.
  intros nc ts Hvpc Hts. unfold parseNetworkConfig. fold nc. fold ts.
  destruct (isObjectValue nc) eqn:Hobj.
  2:{ by rewrite get_non_object in Hvpc. }
  assert (is_null nc = false) as -> by by destruct nc.
  simpl.
  assert (is_undefined (get nc (lit "VPC_ID")) = false) as ->
    by by destruct (get nc (lit "VPC_ID")).
  simpl. unfold discard at 1.
  destruct (validateStringField (get nc (lit "VPC_ID")) _ true
            ≫= validateVpcId) as [t|e] eqn:Evpc.
  2:{ exists e. split_and!; [done | |];
      intros (v & _ & _ & Hv)%validVpcId_check; congruence. }
  apply checked_vpc_truthy in Evpc as ->. simpl.
  set (sg := when (negb (is_undefined (get nc (lit "SECURITY_GROUP_ID"))))
               (discard (validateStringField
                           (get nc (lit "SECURITY_GROUP_ID"))
                           (lit "networkConfig.SECURITY_GROUP_ID") true
                           ≫= validateSecurityGroupId))).
  assert (Hlast : forall x : value,
            x = VUndefined \/ x = VArr [] ->
            exists e,
              (sg ≫= fun _ =>
               when (negb (truthy x) || negb (isArray x) || lengthIsZero x)
                 (Throw (DeploymentConfigError
                    (lit "When VPC_ID is provided, TARGET_SUBNETS must also be specified with at least one subnet ID")
                    (Some (lit "networkConfig.TARGET_SUBNETS"))));;
               Ok (Some (NetworkConfig_new nc))) = Throw e
              /\ (validVpcId nc ->
                  (x = VUndefined \/ x = VArr [] -> securityGroupOk nc) ->
                  message e = msg_subnets_not_array
                  \/ message e = msg_subnets_required)
              /\ (validVpcId nc -> x = VUndefined -> securityGroupOk nc ->
                  message e = msg_subnets_required)).
  { intros x Hx. destruct sg as [[]|e] eqn:Esg.
    - eexists. split.
      + by destruct Hx as [-> | ->].
      + split; [by right | done].
    - exists e. split; [done|]. subst sg.
      split.
      + intros _ Hsg. by rewrite securityGroupOk_check in Esg by auto.
      + intros _ _ Hsg. by rewrite securityGroupOk_check in Esg. }
  destruct Hts as [Ets | [Hna | Ets]].
  - rewrite Ets. exact (Hlast VUndefined (or_introl eq_refl)).
  - destruct ts as [| |b|n|s|l|m]; try done;
      try (simpl; eexists; split; [done|]; split; [by left | done]).
    exact (Hlast VUndefined (or_introl eq_refl)).
  - rewrite Ets. exact (Hlast (VArr []) (or_intror eq_refl)).
Qed.
End NetworkFacts.

Section DataplaneFacts.
Implicit Types (config v : value) (cpu memory : number).

Lemma pushIf_app c line errors :
  pushIf c line errors = errors ++ (if c then [line] else []).
Proof. destruct c; simpl; [done | by rewrite app_nil_r]. Qed.

(** The pushes of [validateConfig] build the violation lines of the two
    sizes it reads. *)
Lemma validationErrors_lines (merged : props) :
  validationErrors merged
  = violationLines
      (numberOrZero (get (VObj merged) (lit "ECS_TASK_CPU")))
      (numberOrZero (get (VObj merged) (lit "ECS_TASK_MEMORY"))).
Proof.
  unfold validationErrors, violationLines. rewrite !pushIf_app.
  by rewrite <- !app_assoc.
Qed.

Lemma assignedPrototype_class (m : props) :
  assignedPrototype m = ClassPrototype
  <-> forall v, m !! lit "__proto__" = Some v -> typeof v <> TObject.
Proof.
  unfold assignedPrototype.
  destruct (m !! lit "__proto__") as [v|]; [|by split].
  destruct v; simpl; split; try done;
    try (intros H; by destruct (H _ eq_refl));
    by intros _ ? [= <-].
Qed.

Lemma mergedConfig_not_default config k :
  DataplaneConfig_defaults !! k = None ->
  mergedConfig config !! k = ownProps config !! k.
Proof.
  intros Hk. unfold mergedConfig, spreadOver.
  destruct (ownProps config !! k) as [x|] eqn:E.
  - by apply lookup_union_Some_l.
  - by apply lookup_union_None.
Qed.

(** The call [this.validateConfig(...)] reaches the method exactly for the
    configurations that keep the methods. *)
Lemma reachesMethod_keepsMethods config :
  reachesMethod (BaseConfig_new (mergedConfig config)) (lit "validateConfig")
  = true
  <-> keepsMethods config.
Proof.
  unfold reachesMethod, keepsMethods, BaseConfig_new.
  cbn [BaseConfig_fields BaseConfig_prototype].
  rewrite andb_true_iff, bool_decide_eq_true.
  rewrite lookup_delete_ne by (intros E; vm_compute in E; discriminate E).
  rewrite (mergedConfig_not_default config (lit "validateConfig"))
    by reflexivity.
  rewrite <- (mergedConfig_not_default config (lit "__proto__"))
    by reflexivity.
  rewrite <- assignedPrototype_class.
  destruct (assignedPrototype (mergedConfig config));
    split; intros [? ?]; done.
Qed.

Lemma DataplaneConfig_new_lines config :
  let lines :=
    violationLines
      (numberOrZero (get (VObj (mergedConfig config)) (lit "ECS_TASK_CPU")))
      (numberOrZero (get (VObj (mergedConfig config)) (lit "ECS_TASK_MEMORY")))
  in
  keepsMethods config ->
  DataplaneConfig_new config
  = match lines with
    | [] => Ok {| DataplaneConfig_fields :=
                    delete (lit "__proto__") (mergedConfig config);
                  DataplaneConfig_prototype := ClassPrototype |}
    | _ => Throw (Error (validation_header ++ LF ++ join LF lines))
    end.
Proof.
  intros lines Hkeeps. unfold DataplaneConfig_new, validateConfig.
  pose proof (proj2 (reachesMethod_keepsMethods config) Hkeeps) as Hr.
  rewrite Hr. rewrite validationErrors_lines. fold lines.
  unfold reachesMethod in Hr. apply andb_true_iff in Hr as [_ Hp].
  cbn [BaseConfig_new BaseConfig_fields BaseConfig_prototype] in *.
  destruct (assignedPrototype (mergedConfig config)); try done.
  by destruct lines.
Qed.


Lemma num_lt_le a b :
  a <> NaN -> b <> NaN -> num_lt a b = negb (num_le b a).
Proof. by destruct a, b. Qed.

(** No line is produced exactly when both sizes are within bounds. *)
Lemma violationLines_nil cpu memory :
  cpu <> NaN -> memory <> NaN ->
  violationLines cpu memory = [] <-> withinBounds cpu memory = true.
Proof.
  intros Hc Hm. unfold violationLines, withinBounds, num_gt.
  rewrite !num_lt_le by done.
  destruct (num_le (num_of_Z 256) cpu), (num_le cpu (num_of_Z 16384)),
    (num_le (num_of_Z 512) memory), (num_le memory (num_of_Z 122880));
    simpl; split; done.
Qed.

End DataplaneFacts.

Section AssemblyFacts.
Implicit Types (parsed v : value) (cfg : DeploymentConfig).

Lemma validateAccountId_Ok_inv s t : validateAccountId s = Ok t -> t = s.
Proof.
  unfold validateAccountId.
  destruct (regex_test re_accountId s); simpl; congruence.
Qed.

Lemma validateRegion_Ok_inv s t : validateRegion s = Ok t -> t = s.
Proof.
  unfold validateRegion. destruct (regex_test re_region s); simpl; congruence.
Qed.

Lemma validateBooleanField_required_Ok v fieldName b :
  validateBooleanField v fieldName true None = Ok b -> v = VBool b.
Proof. destruct v; simpl; try done. by intros [= ->]. Qed.

Lemma parseAccount_Ok parsed acc :
  parseAccount parsed = Ok acc ->
  let accountConfig := get parsed (lit "account") in
  exists i r,
    get accountConfig (lit "id") = VStr i
    /\ account_id acc = trim i
    /\ get accountConfig (lit "region") = VStr r
    /\ account_region acc = trim r
    /\ get accountConfig (lit "prodLike") = VBool (account_prodLike acc)
    /\ validateBooleanField (get accountConfig (lit "isAdc"))
         (lit "account.isAdc") false (Some false)
       = Ok (account_isAdc acc).
Proof.
  unfold parseAccount.
  destruct (negb (truthy _) || negb (bool_decide _)); [done|].
  destruct (validateStringField (get _ (lit "id")) _ true) as [i'|] eqn:Ei;
    [|done].
  apply validateStringField_required_Ok in Ei as (i & Ei & -> & _).
  cbn [mbind result_bind].
  destruct (validateAccountId (trim i)) as [aid|] eqn:Eaid; [|done].
  apply validateAccountId_Ok_inv in Eaid as ->.
  destruct (validateStringField (get _ (lit "region")) _ true) as [r'|] eqn:Er;
    [|done].
  apply validateStringField_required_Ok in Er as (r & Er & -> & _).
  cbn [mbind result_bind].
  destruct (validateRegion (trim r)) as [reg|] eqn:Ereg; [|done].
  apply validateRegion_Ok_inv in Ereg as ->.
  destruct (validateBooleanField (get _ (lit "prodLike")) _ true None)
    as [b|] eqn:Eb; [|done].
  apply validateBooleanField_required_Ok in Eb.
  destruct (validateBooleanField (get _ (lit "isAdc")) _ false _)
    as [adc|] eqn:Eadc; [|done].
  intros [= <-]. exists i, r. by split_and!.
Qed.

Lemma parseNetworkConfig_not_object parsed :
  isObjectValue (get parsed (lit "networkConfig")) = false ->
  parseNetworkConfig parsed = Ok None.
Proof. intros H. unfold parseNetworkConfig. by rewrite H. Qed.

Lemma parseNetworkConfig_ext p1 p2 :
  sameSection (get p1 (lit "networkConfig")) (get p2 (lit "networkConfig")) ->
  parseNetworkConfig p1 = parseNetworkConfig p2.
Proof.
  intros [E | [H1 H2]].
  - unfold parseNetworkConfig. by rewrite E.
  - by rewrite !parseNetworkConfig_not_object.
Qed.

(** The loader reads the parsed content through its type, a fixed set of
    keys, and, for the optional sections, only up to [sameSection]. *)
Lemma validateParsed_ext p1 p2 :
  truthy p1 = truthy p2 ->
  typeof p1 = typeof p2 ->
  get p1 (lit "projectName") = get p2 (lit "projectName") ->
  get p1 (lit "account") = get p2 (lit "account") ->
  get p1 (lit "deployIntegrationTests")
  = get p2 (lit "deployIntegrationTests") ->
  (forall sec, sameSection (get p1 (sectionKey sec)) (get p2 (sectionKey sec))) ->
  validateParsed p1 = validateParsed p2.
Proof.
  intros Ht Hty Hpn Hacc Hdit Hsec.
  unfold validateParsed, parseAccount.
  rewrite Ht, Hty, Hpn, Hacc, Hdit.
  rewrite (parseNetworkConfig_ext p1 p2 (Hsec NetworkSection)).
  assert (Hd :
    (if isObjectValue (get p1 (lit "dataplaneConfig"))
     then Some (get p1 (lit "dataplaneConfig")) else None)
    = (if isObjectValue (get p2 (lit "dataplaneConfig"))
       then Some (get p2 (lit "dataplaneConfig")) else None)).
  { destruct (Hsec DataplaneSection) as [E | [H1 H2]]; simpl in *.
    - by rewrite E.
    - by rewrite H1, H2. }
  assert (Hi :
    (if isObjectValue (get p1 (lit "testImageryConfig"))
     then Some (TestImageryConfig_new (get p1 (lit "testImageryConfig")))
     else None)
    = (if isObjectValue (get p2 (lit "testImageryConfig"))
       then Some (TestImageryConfig_new (get p2 (lit "testImageryConfig")))
       else None)).
  { destruct (Hsec TestImagerySection) as [E | [H1 H2]]; simpl in *.
    - by rewrite E.
    - by rewrite H1, H2. }
  assert (Hc :
    (if isObjectValue (get p1 (lit "testConfig"))
     then Some (TestConfig_new (get p1 (lit "testConfig"))) else None)
    = (if isObjectValue (get p2 (lit "testConfig"))
       then Some (TestConfig_new (get p2 (lit "testConfig"))) else None)).
  { destruct (Hsec TestSection) as [E | [H1 H2]]; simpl in *.
    - by rewrite E.
    - by rewrite H1, H2. }
  by rewrite Hd, Hi, Hc.
Qed.

Lemma get_delete_ne (m : props) (k k' : jsstring) :
  k <> k' -> get (VObj (delete k m)) k' = get (VObj m) k'.
Proof. intros H. simpl. by rewrite lookup_delete_ne. Qed.

Lemma get_delete_eq (m : props) (k : jsstring) :
  get (VObj (delete k m)) k = VUndefined.
Proof. simpl. by rewrite lookup_delete_eq. Qed.

Lemma sectionKey_inj sec sec' : sectionKey sec = sectionKey sec' -> sec = sec'.
Proof. destruct sec, sec'; try done; intros H; vm_compute in H; discriminate. Qed.

Lemma sectionKey_not_scalar sec :
  sectionKey sec <> lit "projectName"
  /\ sectionKey sec <> lit "account"
  /\ sectionKey sec <> lit "deployIntegrationTests".
Proof.
  destruct sec; split_and!; intros H; vm_compute in H; discriminate.
Qed.
End AssemblyFacts.

(* ===================================================================== *)
(** ** The unit tests of the repository, replayed on the embedding *)
(* ===================================================================== *)

(** load-deployment.test.ts *)

Example test_missing_file :
  toThrow "Missing deployment.json file"
    (fst (loadDeploymentConfig (parsingTo VNull)
            {| deploymentPath := deploymentPath ex_world;
               deployment_json := FileMissing; console := [] |})) = true.
Proof. vm_compute. reflexivity. Qed.

Example test_invalid_json :
  toThrow "Invalid JSON format"
    (fst (loadDeploymentConfig
            (fun _ => Throw (SyntaxError (lit "Unexpected token i")))
            ex_world)) = true.
Proof. vm_compute. reflexivity. Qed.

Example test_not_an_object :
  toThrow "must contain a valid JSON object"
    (fst (loadDeploymentConfig (parsingTo VNull) ex_world)) = true.
Proof. vm_compute. reflexivity. Qed.

Example test_missing_projectName :
  toThrow "Missing required field: projectName"
    (validateParsed (VObj (object [("account", ex_account)]))) = true.
Proof. vm_compute. reflexivity. Qed.

Example test_empty_projectName :
  toThrow "cannot be empty"
    (validateParsed (VObj (object [("projectName", VStr (lit ""));
                                   ("account", ex_account)]))) = true.
Proof. vm_compute. reflexivity. Qed.

Example test_missing_account :
  toThrow "Missing or invalid account section"
    (validateParsed (VObj (object [("projectName", VStr (lit "test-project"))])))
  = true.
Proof. vm_compute. reflexivity. Qed.

Example test_short_account_id :
  toThrow "Invalid AWS account ID format"
    (validateParsed
       (VObj (object [("projectName", VStr (lit "test-project"));
                      ("account",
                       VObj (object [("id", VStr (lit "12345"));
                                     ("region", VStr (lit "us-west-2"));
                                     ("prodLike", VBool false)]))])))
  = true.
Proof. vm_compute. reflexivity. Qed.

Example test_invalid_region :
  toThrow "Invalid AWS region format"
    (validateParsed
       (VObj (object [("projectName", VStr (lit "test-project"));
                      ("account",
                       VObj (object [("id", VStr (lit "123456789012"));
                                     ("region", VStr (lit "invalid_region_123"));
                                     ("prodLike", VBool false)]))])))
  = true.
Proof. vm_compute. reflexivity. Qed.

Example test_missing_prodLike :
  toThrow "Missing required field: account.prodLike"
    (validateParsed
       (VObj (object [("projectName", VStr (lit "test-project"));
                      ("account",
                       VObj (object [("id", VStr (lit "123456789012"));
                                     ("region", VStr (lit "us-west-2"))]))])))
  = true.
Proof. vm_compute. reflexivity. Qed.

Example test_subnets_not_array :
  toThrow "must be an array"
    (validateParsed
       (ex_config [("networkConfig",
                    VObj (object [("VPC_ID", VStr (lit "vpc-12345678"));
                                  ("TARGET_SUBNETS",
                                   VStr (lit "not-an-array"))]))]))
  = true.
Proof. vm_compute. reflexivity. Qed.

Example test_invalid_subnet :
  toThrow "Invalid Subnet ID format"
    (validateParsed
       (ex_config [("networkConfig",
                    VObj (object [("VPC_ID", VStr (lit "vpc-12345678"));
                                  ("TARGET_SUBNETS",
                                   VArr [VStr (lit "invalid-subnet-id")])]))]))
  = true.
Proof. vm_compute. reflexivity. Qed.

Example test_invalid_security_group :
  toThrow "Invalid security group ID format"
    (validateParsed
       (ex_config [("networkConfig",
                    VObj (object [("VPC_ID", VStr (lit "vpc-12345678"));
                                  ("TARGET_SUBNETS",
                                   VArr [VStr (lit "subnet-12345678")]);
                                  ("SECURITY_GROUP_ID",
                                   VStr (lit "invalid-sg-id"))]))]))
  = true.
Proof. vm_compute. reflexivity. Qed.

Example test_valid_network :
  (fun r => match r with
            | Ok cfg =>
                (fun nc => (NetworkConfig_fields nc !! lit "VPC_ID",
                            NetworkConfig_fields nc !! lit "TARGET_SUBNETS",
                            NetworkConfig_fields nc !! lit "VPC_NAME"))
                  <$> networkConfig cfg
            | Throw _ => None
            end)
    (validateParsed
       (ex_config [("networkConfig",
                    VObj (object [("VPC_ID", VStr (lit "vpc-12345678901234567"));
                                  ("TARGET_SUBNETS",
                                   VArr [VStr (lit "subnet-12345678");
                                         VStr (lit "subnet-87654321")]);
                                  ("SECURITY_GROUP_ID",
                                   VStr (lit "sg-12345678"))]))]))
  = Some (Some (VStr (lit "vpc-12345678901234567")),
          Some (VArr [VStr (lit "subnet-12345678");
                      VStr (lit "subnet-87654321")]),
          Some (VStr (lit "tile-server-vpc"))).
Proof. vm_compute. reflexivity. Qed.

Example test_imagery_config_when_tests_on :
  (fun r => match r with
            | Ok cfg =>
                (fun c => (TestImageryConfig_fields c
                             !! lit "S3_IMAGE_BUCKET_PREFIX",
                           TestImageryConfig_fields c
                             !! lit "S3_TEST_IMAGES_PATH"))
                  <$> testImageryConfig cfg
            | Throw _ => None
            end)
    (validateParsed
       (ex_config [("deployIntegrationTests", VBool true);
                   ("testImageryConfig",
                    VObj (object [("S3_IMAGE_BUCKET_PREFIX",
                                   VStr (lit "custom-test-imagery"))]))]))
  = Some (Some (VStr (lit "custom-test-imagery")),
          Some (VStr (lit "../test/data/integ/"))).
Proof. vm_compute. reflexivity. Qed.

Example test_success_logs_one_line :
  console (snd (loadDeploymentConfig (parsingTo (ex_config [])) ex_world))
  = [lit "Using environment from deployment.json: projectName=test-project, region=us-west-2"].
Proof. vm_compute. reflexivity. Qed.

(** dataplane.test.ts *)

Example test_cpu_below_minimum :
  DataplaneConfig_new (VObj (object [("ECS_TASK_CPU", VNum (num_of_Z 128))]))
  = Throw (Error (lit "Configuration validation failed:" ++ LF
                    ++ lit "ECS_TASK_CPU must be at least 256 (0.25 vCPU)")).
Proof. vm_compute. reflexivity. Qed.

Example test_cpu_above_maximum :
  DataplaneConfig_new (VObj (object [("ECS_TASK_CPU", VNum (num_of_Z 32768))]))
  = Throw (Error (lit "Configuration validation failed:" ++ LF
                    ++ lit "ECS_TASK_CPU must be at most 16384 (16 vCPU)")).
Proof. vm_compute. reflexivity. Qed.

Example test_memory_above_maximum :
  DataplaneConfig_new
    (VObj (object [("ECS_TASK_MEMORY", VNum (num_of_Z 200000))]))
  = Throw (Error (lit "Configuration validation failed:" ++ LF
                    ++ lit "ECS_TASK_MEMORY must be at most 122880 MiB (120 GB)")).
Proof. vm_compute. reflexivity. Qed.

Example test_accepts_bounds :
  succeeds (DataplaneConfig_new
              (VObj (object [("ECS_TASK_CPU", VNum (num_of_Z 16384));
                             ("ECS_TASK_MEMORY", VNum (num_of_Z 122880))])))
  = true
  /\ succeeds (DataplaneConfig_new
                 (VObj (object [("ECS_TASK_CPU", VNum (num_of_Z 256));
                                ("ECS_TASK_MEMORY", VNum (num_of_Z 512))])))
     = true
  /\ succeeds (DataplaneConfig_new VUndefined) = true.
Proof. vm_compute. done. Qed.

(** A section given as an array is an object for [typeof]: it is not
    ignored. *)
Example array_section_is_an_object :
  (fun r => match r with
            | Ok cfg => Some (NetworkConfig_fields <$> networkConfig cfg)
            | Throw _ => None
            end)
    (validateParsed (ex_config [("networkConfig", VArr [VBool true])]))
  = Some (Some (<[lit "0" := VBool true]> NetworkConfig_defaults)).
Proof. vm_compute. reflexivity. Qed.

(* ===================================================================== *)
(** ** Properties of the loader and of the configuration classes *)
(* ===================================================================== *)

(** A concrete string has a shape when the matcher says so. *)
Ltac shape_by_matching :=
  first
    [ apply regex_test_accountId
    | apply lang_region, regex_test_spec
    | apply lang_resourceId, regex_test_spec ];
  vm_compute; reflexivity.

(** The example file parses to the example configuration. *)
Lemma ex_parsesTo parsed : parsesTo (parsingTo parsed) ex_world parsed.
Proof. exists (lit "deployment.json content"). split; reflexivity. Qed.

(** The header of the unit tests' configuration is valid. *)
Lemma ex_vpc_only_validHeader : validHeader ex_vpc_only.
Proof.
  constructor.
  - reflexivity.
  - eexists. split; [reflexivity|]. vm_compute. discriminate.
  - reflexivity.
  - eexists. split; [reflexivity|]. shape_by_matching.
  - eexists. split; [reflexivity|]. shape_by_matching.
  - eexists. reflexivity.
  - reflexivity.
Qed.

(** C1 (as amended).  A network section with [VPC_ID] present and
    [TARGET_SUBNETS] absent, not a list or empty never loads.  The loader is
    fail-fast, so the message is about [TARGET_SUBNETS] when the checks made
    before the subnet rule pass: the header is valid, [VPC_ID] is a VPC
    identifier and, unless [TARGET_SUBNETS] is present and not a list,
    [SECURITY_GROUP_ID] is absent or valid.  With [TARGET_SUBNETS] absent
    the message then contains "TARGET_SUBNETS must also be specified". *)
Theorem vpc_without_subnets_fails
    (JSON_parse : jsstring -> result value) (w : world) (parsed : value) :
  let networkConfigData := get parsed (lit "networkConfig") in
  let targetSubnets := get networkConfigData (lit "TARGET_SUBNETS") in
  parsesTo JSON_parse w parsed ->
  get networkConfigData (lit "VPC_ID") <> VUndefined ->
  noSubnets targetSubnets ->
  exists e,
    fst (loadDeploymentConfig JSON_parse w) = Throw e
    /\ (validHeader parsed -> validVpcId networkConfigData ->
        (targetSubnets = VUndefined \/ targetSubnets = VArr [] ->
         securityGroupOk networkConfigData) ->
        includes (lit "TARGET_SUBNETS") (message e) = true)
    /\ (validHeader parsed -> validVpcId networkConfigData ->
        targetSubnets = VUndefined -> securityGroupOk networkConfigData ->
        includes (lit "TARGET_SUBNETS must also be specified") (message e)
        = true).
Proof.
  intros nc ts Hparse Hvpc Hts. rewrite (load_parsed _ _ _ Hparse).
  destruct (parseNetworkConfig_vpc_no_subnets parsed Hvpc Hts)
    as (e & Hnc & Hmsg & Hreq).
  destruct (validateParsed parsed) as [cfg|e'] eqn:Hload.
  - apply validateParsed_Ok in Hload as (_ & _ & _ & Hnc' & _). congruence.
  - exists e'. split; [done|]. split.
    + intros Hhdr Hv Hsg.
      rewrite (validateParsed_network_throws _ _ Hhdr Hnc) in Hload.
      injection Hload as <-.
      destruct (Hmsg Hv Hsg) as [-> | ->]; vm_compute; reflexivity.
    + intros Hhdr Hv Habsent Hsg.
      rewrite (validateParsed_network_throws _ _ Hhdr Hnc) in Hload.
      injection Hload as <-. rewrite (Hreq Hv Habsent Hsg).
      vm_compute; reflexivity.
Qed.

(** The test "requires TARGET_SUBNETS when VPC_ID is provided". *)
Lemma vpc_without_subnets_fails_witness :
  exists e,
    fst (loadDeploymentConfig (parsingTo ex_vpc_only) ex_world) = Throw e
    /\ includes (lit "TARGET_SUBNETS must also be specified") (message e)
       = true.
Proof.
  destruct (vpc_without_subnets_fails (parsingTo ex_vpc_only) ex_world
              ex_vpc_only (ex_parsesTo _))
    as (e & Hthrow & _ & Hmsg).
  - vm_compute. discriminate.
  - left. reflexivity.
  - exists e. split; [exact Hthrow|]. apply Hmsg.
    + exact ex_vpc_only_validHeader.
    + eexists. split; [reflexivity|]. shape_by_matching.
    + reflexivity.
    + left. reflexivity.
Defined.

(** C1, as first stated, fails: an ill-formed [VPC_ID] with no
    [TARGET_SUBNETS] is reported as an invalid VPC identifier, and the
    message says nothing of [TARGET_SUBNETS]. *)
Lemma vpc_without_subnets_other_message :
  get (get ex_vpc_invalid (lit "networkConfig")) (lit "VPC_ID") <> VUndefined
  /\ get (get ex_vpc_invalid (lit "networkConfig")) (lit "TARGET_SUBNETS")
     = VUndefined
  /\ exists e,
       fst (loadDeploymentConfig (parsingTo ex_vpc_invalid) ex_world) = Throw e
       /\ includes (lit "Invalid VPC ID format") (message e) = true
       /\ includes (lit "TARGET_SUBNETS") (message e) = false.
Proof.
  split; [vm_compute; discriminate|]. split; [reflexivity|].
  eexists. split; [vm_compute; reflexivity|]. split; vm_compute; reflexivity.
Qed.

(** C3.  Each of the VPC, security-group and subnet validators accepts a
    string exactly when it is the validator's prefix followed by exactly 8 or
    exactly 17 lowercase hexadecimal characters; a string it does not accept
    is rejected with an error whose message quotes the string. *)
Theorem resource_id_validators_accept_iff_shape (s : jsstring) :
  (validateVpcId s = Ok s <-> resourceIdShape (lit "vpc-") s)
  /\ (validateSecurityGroupId s = Ok s <-> resourceIdShape (lit "sg-") s)
  /\ (validateSubnetId s = Ok s <-> resourceIdShape (lit "subnet-") s)
  /\ (validateVpcId s = Ok s
      \/ exists e, validateVpcId s = Throw e /\ includes s (message e) = true)
  /\ (validateSecurityGroupId s = Ok s
      \/ exists e, validateSecurityGroupId s = Throw e
                   /\ includes s (message e) = true)
  /\ (validateSubnetId s = Ok s
      \/ exists e, validateSubnetId s = Throw e
                   /\ includes s (message e) = true).
Proof.
  split_and!.
  - apply validateVpcId_iff.
  - apply validateSecurityGroupId_iff.
  - apply validateSubnetId_iff.
  - unfold validateVpcId. destruct (regex_test re_vpcId s); [by left | right].
    eexists. split; [done|]. cbn [message].
    apply includes_app_r, includes_app_l, includes_refl.
  - unfold validateSecurityGroupId.
    destruct (regex_test re_securityGroupId s); [by left | right].
    eexists. split; [done|]. cbn [message].
    apply includes_app_r, includes_app_l, includes_refl.
  - unfold validateSubnetId.
    destruct (regex_test re_subnetId s); [by left | right].
    eexists. split; [done|]. cbn [message].
    apply includes_app_r, includes_app_l, includes_refl.
Qed.

(** Instances of C3: suffixes of 8 and 17 characters are accepted, one of 9
    characters and one with an uppercase digit are not. *)
Lemma resource_id_validators_examples :
  validateVpcId (lit "vpc-12345678") = Ok (lit "vpc-12345678")
  /\ validateSubnetId (lit "subnet-0123456789abcdef0")
     = Ok (lit "subnet-0123456789abcdef0")
  /\ succeeds (validateSecurityGroupId (lit "sg-123456789")) = false
  /\ succeeds (validateVpcId (lit "vpc-1234567F")) = false.
Proof.
  destruct (resource_id_validators_accept_iff_shape (lit "vpc-12345678"))
    as (Hvpc & _).
  destruct (resource_id_validators_accept_iff_shape
              (lit "subnet-0123456789abcdef0")) as (_ & _ & Hsub & _).
  split_and!.
  - apply Hvpc. shape_by_matching.
  - apply Hsub. shape_by_matching.
  - vm_compute. reflexivity.
  - vm_compute. reflexivity.
Defined.



(** C2 (as amended).  For a configuration that keeps the methods of the
    class (no key [validateConfig], no key [__proto__] holding an object or
    [null]): when the merged [ECS_TASK_CPU] and [ECS_TASK_MEMORY] are numbers
    other than NaN, construction succeeds exactly when
    [256 <= ECS_TASK_CPU <= 16384] and [512 <= ECS_TASK_MEMORY <= 122880];
    otherwise it throws one error whose message is the header
    "Configuration validation failed:" followed by one line per violated
    bound, compute lines before memory lines. *)
Theorem dataplane_sizing_bounds (config : value) (cpu memory : number) :
  keepsMethods config ->
  get (VObj (mergedConfig config)) (lit "ECS_TASK_CPU") = VNum cpu ->
  get (VObj (mergedConfig config)) (lit "ECS_TASK_MEMORY") = VNum memory ->
  cpu <> NaN -> memory <> NaN ->
  (succeeds (DataplaneConfig_new config) = true
   <-> withinBounds cpu memory = true)
  /\ (withinBounds cpu memory = true ->
      DataplaneConfig_new config
      = Ok {| DataplaneConfig_fields :=
                delete (lit "__proto__") (mergedConfig config);
              DataplaneConfig_prototype := ClassPrototype |})
  /\ (withinBounds cpu memory = false ->
      violationLines cpu memory <> []
      /\ DataplaneConfig_new config
         = Throw (Error (validation_header ++ LF
                           ++ join LF (violationLines cpu memory)))).
Proof.
  intros Hkeeps Hcpu Hmem Hc Hm.
  rewrite (DataplaneConfig_new_lines config Hkeeps).
  rewrite Hcpu, Hmem. cbn [numberOrZero].
  pose proof (violationLines_nil cpu memory Hc Hm) as Hnil.
  destruct (violationLines cpu memory) as [|line lines] eqn:E.
  - assert (withinBounds cpu memory = true) as -> by by apply Hnil.
    split_and!; done.
  - assert (withinBounds cpu memory = false) as ->.
    { destruct (withinBounds cpu memory); [|done].
      discriminate (proj2 Hnil eq_refl). }
    split_and!; done.
Qed.

(** The test "shows multiple validation errors": both sizes below their
    minimum give the header and both lines, compute first. *)
Lemma dataplane_sizing_bounds_witness :
  DataplaneConfig_new
    (VObj (object [("ECS_TASK_CPU", VNum (num_of_Z 128));
                   ("ECS_TASK_MEMORY", VNum (num_of_Z 256))]))
  = Throw (Error (lit "Configuration validation failed:" ++ LF
                    ++ lit "ECS_TASK_CPU must be at least 256 (0.25 vCPU)" ++ LF
                    ++ lit "ECS_TASK_MEMORY must be at least 512 MiB")).
Proof.
  refine (proj2 (proj2 (proj2 (dataplane_sizing_bounds
            (VObj (object [("ECS_TASK_CPU", VNum (num_of_Z 128));
                           ("ECS_TASK_MEMORY", VNum (num_of_Z 256))]))
            (num_of_Z 128) (num_of_Z 256) _ _ _ _ _)) _)).
  - split; [reflexivity | intros v Hv; vm_compute in Hv; discriminate Hv].
  - reflexivity.
  - reflexivity.
  - discriminate.
  - discriminate.
  - reflexivity.
Defined.

(** C2, as first stated, fails twice over.  NaN is a number, it is within
    no bounds, and construction with it succeeds, since both comparisons
    with NaN are false.  And a configuration with a key [validateConfig]
    hides the method: with both sizes at their defaults, which are numbers
    within the bounds, construction throws, a [TypeError] that has no
    header. *)
Lemma dataplane_sizing_fails_as_stated :
  (let config := VObj (object [("ECS_TASK_CPU", VNum NaN)]) in
   get (VObj (mergedConfig config)) (lit "ECS_TASK_CPU") = VNum NaN
   /\ get (VObj (mergedConfig config)) (lit "ECS_TASK_MEMORY")
      = VNum (num_of_Z 16384)
   /\ typeof (VNum NaN) = TNumber
   /\ succeeds (DataplaneConfig_new config) = true
   /\ num_le (num_of_Z 256) NaN = false)
  /\ (let config := VObj (object [("validateConfig", VBool true)]) in
      get (VObj (mergedConfig config)) (lit "ECS_TASK_CPU")
      = VNum (num_of_Z 8192)
      /\ get (VObj (mergedConfig config)) (lit "ECS_TASK_MEMORY")
         = VNum (num_of_Z 16384)
      /\ withinBounds (num_of_Z 8192) (num_of_Z 16384) = true
      /\ DataplaneConfig_new config = Throw (TypeError msg_not_a_function)
      /\ includes validation_header msg_not_a_function = false).
Proof. split; split_and!; vm_compute; reflexivity. Qed.




(** C5.  When the raw configuration has [deployIntegrationTests] set to
    [false], a configuration the loader returns has [deployIntegrationTests]
    false and both [testImageryConfig] and [testConfig] undefined, whatever
    the raw configuration holds under those two keys. *)
Theorem integration_tests_gate
    (JSON_parse : jsstring -> result value) (w : world) (parsed : value)
    (cfg : DeploymentConfig) :
  parsesTo JSON_parse w parsed ->
  get parsed (lit "deployIntegrationTests") = VBool false ->
  fst (loadDeploymentConfig JSON_parse w) = Ok cfg ->
  deployIntegrationTests cfg = false
  /\ testImageryConfig cfg = None
  /\ testConfig cfg = None.
Proof.
  intros Hparse Hflag. rewrite (load_parsed _ _ _ Hparse). intros Hload.
  apply validateParsed_Ok in Hload as (_ & _ & _ & _ & Hdit & _ & Himg & Htest).
  rewrite Hflag in Hdit. injection Hdit as Hdit.
  rewrite <- Hdit in Himg, Htest. by rewrite <- Hdit.
Qed.

(** The tests "ignores testImageryConfig / testConfig when
    deployIntegrationTests is false", with both sections supplied. *)
Lemma integration_tests_gate_witness :
  exists cfg,
    fst (loadDeploymentConfig (parsingTo ex_tests_off) ex_world) = Ok cfg
    /\ isObjectValue (get ex_tests_off (lit "testImageryConfig")) = true
    /\ isObjectValue (get ex_tests_off (lit "testConfig")) = true
    /\ testImageryConfig cfg = None
    /\ testConfig cfg = None.
Proof.
  destruct (fst (loadDeploymentConfig (parsingTo ex_tests_off) ex_world))
    as [cfg|e] eqn:E.
  - exists cfg. split; [reflexivity|]. split; [reflexivity|].
    split; [reflexivity|].
    exact (proj2 (integration_tests_gate (parsingTo ex_tests_off) ex_world
                    ex_tests_off cfg (ex_parsesTo _) eq_refl E)).
  - vm_compute in E. discriminate.
Defined.

(** C6.  A configuration that supplies only [projectName] and an [account]
    section with [id], [region] and [prodLike], all valid, loads, and the
    result has [isAdc] false, [deployIntegrationTests] true and
    [networkConfig] undefined.  Moreover any configuration that loads and has
    no [account.isAdc] has [isAdc] false in the result. *)
Theorem minimal_config_defaults :
  (forall (JSON_parse : jsstring -> result value) (w : world)
          (p i r : jsstring) (b : bool),
      parsesTo JSON_parse w (minimalConfig p i r b) ->
      trim p <> [] -> accountIdShape (trim i) -> regionShape 2 (trim r) ->
      fst (loadDeploymentConfig JSON_parse w)
      = Ok {| projectName := trim p;
              account := {| account_id := trim i; account_region := trim r;
                            account_prodLike := b; account_isAdc := false |};
              networkConfig := None;
              dataplaneConfig := None;
              deployIntegrationTests := true;
              testImageryConfig := None;
              testConfig := None |})
  /\ (forall (JSON_parse : jsstring -> result value) (w : world)
             (parsed : value) (cfg : DeploymentConfig),
         parsesTo JSON_parse w parsed ->
         get (get parsed (lit "account")) (lit "isAdc") = VUndefined ->
         fst (loadDeploymentConfig JSON_parse w) = Ok cfg ->
         account_isAdc (account cfg) = false).
Proof.
  split.
  - intros JSON_parse w p i r b Hparse Hp Hi Hr.
    rewrite (load_parsed _ _ _ Hparse).
    assert (Hhdr : validHeader (minimalConfig p i r b)).
    { constructor; try reflexivity.
      - exists p. by split.
      - exists i. by split.
      - exists r. by split.
      - by exists b. }
    destruct (validateParsed_valid _ Hhdr) as (p' & acc & Ep & Hacc & ->).
    destruct (parseAccount_valid _ Hhdr) as (i' & r' & b' & Ei & Er & Eb & Hacc').
    rewrite Hacc' in Hacc. injection Hacc as <-.
    change (get (minimalConfig p i r b) (lit "projectName")) with (VStr p) in Ep.
    change (get (get (minimalConfig p i r b) (lit "account")) (lit "id"))
      with (VStr i) in Ei.
    change (get (get (minimalConfig p i r b) (lit "account")) (lit "region"))
      with (VStr r) in Er.
    change (get (get (minimalConfig p i r b) (lit "account")) (lit "prodLike"))
      with (VBool b) in Eb.
    injection Ep as <-. injection Ei as <-. injection Er as <-.
    injection Eb as <-.
    rewrite parseNetworkConfig_not_object by reflexivity.
    reflexivity.
  - intros JSON_parse w parsed cfg Hparse Hadc.
    rewrite (load_parsed _ _ _ Hparse). intros Hload.
    apply validateParsed_Ok in Hload as (_ & _ & Hacc & _).
    apply parseAccount_Ok in Hacc as (i & r & _ & _ & _ & _ & _ & Hval).
    rewrite Hadc in Hval. by injection Hval.
Qed.

(** The first unit test: the minimal valid file. *)
Lemma minimal_config_defaults_witness :
  exists cfg,
    fst (loadDeploymentConfig (parsingTo (ex_config [])) ex_world) = Ok cfg
    /\ projectName cfg = lit "test-project"
    /\ account_isAdc (account cfg) = false
    /\ deployIntegrationTests cfg = true
    /\ networkConfig cfg = None.
Proof.
  eexists. split.
  - refine (proj1 minimal_config_defaults (parsingTo (ex_config [])) ex_world
              (lit "test-project") (lit "123456789012") (lit "us-west-2") false
              (ex_parsesTo _) _ _ _).
    + vm_compute. discriminate.
    + shape_by_matching.
    + shape_by_matching.
  - split_and!; reflexivity.
Defined.

(** C7 (as amended).  [validateStringField] returns a string value with the
    white space at both ends removed, judges emptiness of a required field
    on the trimmed value, so a blank required field fails with a message
    containing "cannot be empty or contain only whitespace", and returns a
    value it has returned unchanged.  The loader stores what the validator
    returns for [projectName], [account.id] and [account.region]. *)
Theorem string_fields_are_trimmed
    (s fieldName : jsstring) (isRequired : bool) :
  (* what [trim] removes *)
  (exists front back,
      s = front ++ trim s ++ back
      /\ Forall (fun c => isWhiteSpace c = true) front
      /\ Forall (fun c => isWhiteSpace c = true) back
      /\ head (isWhiteSpace <$> trim s) <> Some true
      /\ last (isWhiteSpace <$> trim s) <> Some true)
  (* the value returned is the trimmed one *)
  /\ (forall t,
        validateStringField (VStr s) fieldName isRequired = Ok t -> t = trim s)
  (* a blank required field *)
  /\ (Forall (fun c => isWhiteSpace c = true) s ->
      exists e,
        validateStringField (VStr s) fieldName true = Throw e
        /\ includes (lit "cannot be empty or contain only whitespace")
             (message e) = true)
  (* idempotence *)
  /\ trim (trim s) = trim s
  /\ (forall v t,
        validateStringField v fieldName isRequired = Ok t ->
        validateStringField (VStr t) fieldName isRequired = Ok t)
  (* what the loader stores *)
  /\ (forall (JSON_parse : jsstring -> result value) (w : world)
             (parsed : value) (cfg : DeploymentConfig),
        parsesTo JSON_parse w parsed ->
        fst (loadDeploymentConfig JSON_parse w) = Ok cfg ->
        exists p i r,
          get parsed (lit "projectName") = VStr p
          /\ projectName cfg = trim p
          /\ get (get parsed (lit "account")) (lit "id") = VStr i
          /\ account_id (account cfg) = trim i
          /\ get (get parsed (lit "account")) (lit "region") = VStr r
          /\ account_region (account cfg) = trim r).
Proof.
  split_and!.
  - apply trim_spec.
  - intros t. rewrite validateStringField_str.
    destruct (isRequired && is_empty (trim s)); [done|]. by intros [= <-].
  - intros Hws. rewrite validateStringField_str, (trim_all_ws s Hws).
    eexists. split; [reflexivity|]. cbn [message].
    apply includes_app_r, includes_app_r.
    change (lit "' cannot be empty or contain only whitespace")
      with ([39%N; 32%N] ++ lit "cannot be empty or contain only whitespace").
    apply includes_app_r, includes_refl.
  - apply trim_idemp.
  - intros v t Hv. rewrite validateStringField_str.
    assert (Ht : trim t = t
                 /\ (isRequired && is_empty t = false)).
    { unfold validateStringField in Hv.
      destruct (is_undefined v || is_null v).
      - destruct isRequired; [done|]. by injection Hv as <-.
      - destruct v as [| |b|n|s'|l|m]; try done.
        destruct (isRequired && is_empty (trim s')) eqn:E; [done|].
        injection Hv as <-. by rewrite trim_idemp. }
    destruct Ht as [-> ->]. done.
  - intros JSON_parse w parsed cfg Hparse.
    rewrite (load_parsed _ _ _ Hparse). intros Hload.
    apply validateParsed_Ok in Hload as (_ & Hpn & Hacc & _).
    apply validateStringField_required_Ok in Hpn as (p & Ep & Hp & _).
    apply parseAccount_Ok in Hacc as (i & r & Ei & Hi & Er & Hr & _).
    exists p, i, r. by split_and!.
Qed.

(** The test "trims whitespace from string fields", and a blank
    [projectName]. *)
Lemma string_fields_are_trimmed_witness :
  validateStringField (VStr (lit "  x  ")) (lit "projectName") true
  = Ok (lit "x")
  /\ exists e,
       validateStringField (VStr (lit "   ")) (lit "projectName") true
       = Throw e
       /\ includes (lit "cannot be empty or contain only whitespace")
            (message e) = true.
Proof.
  split.
  - reflexivity.
  - apply (string_fields_are_trimmed (lit "   ") (lit "projectName") true).
    apply (bool_decide_unpack _). vm_compute. reflexivity.
Defined.

(** C7, as first stated, fails for the string fields of the network
    section: [VPC_ID] is validated on its trimmed value, but the section is
    passed to [NetworkConfig] as read, so the value stored keeps its
    blanks. *)
Lemma network_strings_stored_untrimmed :
  exists cfg nc,
    fst (loadDeploymentConfig (parsingTo ex_vpc_padded) ex_world) = Ok cfg
    /\ networkConfig cfg = Some nc
    /\ get (get ex_vpc_padded (lit "networkConfig")) (lit "VPC_ID")
       = VStr (lit " vpc-12345678 ")
    /\ NetworkConfig_fields nc !! lit "VPC_ID"
       = Some (VStr (lit " vpc-12345678 "))
    /\ trim (lit " vpc-12345678 ") = lit "vpc-12345678"
    /\ lit " vpc-12345678 " <> lit "vpc-12345678".
Proof.
  assert (Hstored :
    match fst (loadDeploymentConfig (parsingTo ex_vpc_padded) ex_world) with
    | Ok cfg =>
        match networkConfig cfg with
        | Some nc => NetworkConfig_fields nc !! lit "VPC_ID"
        | None => None
        end
    | Throw _ => None
    end = Some (VStr (lit " vpc-12345678 "))) by (vm_compute; reflexivity).
  destruct (fst (loadDeploymentConfig (parsingTo ex_vpc_padded) ex_world))
    as [cfg|e]; [|discriminate].
  destruct (networkConfig cfg) as [nc|] eqn:En; [|discriminate].
  exists cfg, nc. split_and!; try reflexivity.
  - exact En.
  - exact Hstored.
  - vm_compute. discriminate.
Qed.

(** C9.  A top-level [networkConfig], [dataplaneConfig],
    [testImageryConfig] or [testConfig] whose value is not an object (its
    [typeof] is not "object", or it is [null]) is ignored: the loader returns
    or throws what it does for the same configuration without that key, and
    the field of a returned configuration is undefined. *)
Theorem non_object_section_is_ignored
    (JSON_parse JSON_parse' : jsstring -> result value) (w w' : world)
    (config : gmap (list N) value) (sec : section) (v : value) :
  parsesTo JSON_parse w (VObj config) ->
  parsesTo JSON_parse' w' (VObj (delete (sectionKey sec) config)) ->
  config !! sectionKey sec = Some v ->
  typeof v <> TObject \/ v = VNull ->
  fst (loadDeploymentConfig JSON_parse w)
  = fst (loadDeploymentConfig JSON_parse' w')
  /\ forall cfg,
       fst (loadDeploymentConfig JSON_parse w) = Ok cfg -> sectionAbsent sec cfg.
Proof.
  intros Hparse Hparse' Hkey Hv.
  rewrite (load_parsed _ _ _ Hparse), (load_parsed _ _ _ Hparse').
  assert (Hno : isObjectValue (get (VObj config) (sectionKey sec)) = false).
  { simpl. rewrite Hkey. simpl. unfold isObjectValue.
    destruct Hv as [Hv | ->]; [|done].
    destruct (truthy v); [|done]. simpl. by apply bool_decide_eq_false. }
  destruct (sectionKey_not_scalar sec) as (Hpn & Hacc & Hdit).
  split.
  - symmetry. apply validateParsed_ext; try done.
    + by apply get_delete_ne.
    + by apply get_delete_ne.
    + by apply get_delete_ne.
    + intros sec'. destruct (decide (sec' = sec)) as [-> | Hne].
      * right. by rewrite get_delete_eq.
      * left. apply get_delete_ne. intros E. by apply sectionKey_inj in E.
  - intros cfg Hload.
    apply validateParsed_Ok
      in Hload as (_ & _ & _ & Hnc & _ & Hdp & Himg & Htest).
    destruct sec; unfold sectionAbsent; unfold sectionKey in Hno.
    + rewrite parseNetworkConfig_not_object in Hnc by done. by injection Hnc.
    + by rewrite Hdp, Hno.
    + rewrite Himg, Hno. by destruct (deployIntegrationTests cfg).
    + rewrite Htest, Hno. by destruct (deployIntegrationTests cfg).
Qed.

(** Sections given as a string, a number, a boolean and [null]: the
    configuration loads as the one without [testConfig] does, and the four
    fields are undefined. *)
Lemma non_object_section_is_ignored_witness :
  exists cfg,
    fst (loadDeploymentConfig (parsingTo ex_sections_not_objects) ex_world)
    = Ok cfg
    /\ fst (loadDeploymentConfig
              (parsingTo (VObj (delete (lit "testConfig")
                                  (ownProps ex_sections_not_objects))))
              ex_world)
       = Ok cfg
    /\ networkConfig cfg = None /\ dataplaneConfig cfg = None
    /\ testImageryConfig cfg = None /\ testConfig cfg = None.
Proof.
  destruct (fst (loadDeploymentConfig (parsingTo ex_sections_not_objects)
                   ex_world)) as [cfg|e] eqn:E;
    [|vm_compute in E; discriminate].
  exists cfg. split; [reflexivity|].
  assert (H : forall sec v,
             ownProps ex_sections_not_objects !! sectionKey sec = Some v ->
             typeof v <> TObject \/ v = VNull ->
             Ok cfg
             = fst (loadDeploymentConfig
                      (parsingTo (VObj (delete (sectionKey sec)
                                          (ownProps ex_sections_not_objects))))
                      ex_world)
             /\ sectionAbsent sec cfg).
  { intros sec v Hkey Hv.
    destruct (non_object_section_is_ignored
                (parsingTo ex_sections_not_objects)
                (parsingTo (VObj (delete (sectionKey sec)
                                    (ownProps ex_sections_not_objects))))
                ex_world ex_world
                (ownProps ex_sections_not_objects) sec v
                (ex_parsesTo _) (ex_parsesTo _) Hkey Hv) as [Hsame Habsent].
    split; [by rewrite <- Hsame, E | exact (Habsent cfg E)]. }
  split_and!.
  - symmetry. apply (H TestSection VNull); [reflexivity | by right].
  - apply (H NetworkSection (VStr (lit "vpc-12345678"))); [reflexivity|].
    left. discriminate.
  - apply (H DataplaneSection (VNum (num_of_Z 4096))); [reflexivity|].
    left. discriminate.
  - apply (H TestImagerySection (VBool true)); [reflexivity|].
    left. discriminate.
  - apply (H TestSection VNull); [reflexivity | by right].
Defined.

(* ===================================================================== *)
(** ** Further facts about the validators and the loader *)
(* ===================================================================== *)

Section AcceptanceFacts.
Implicit Types (parsed v : value) (s : jsstring).
#[local] Set Warnings "-clear-no-such-hyp".

Lemma succeeds_bind {A B} (m : result A) (k : A -> result B) :
  succeeds (m ≫= k) = true <-> exists a, m = Ok a /\ succeeds (k a) = true.
Proof.
  destruct m as [a|e]; simpl.
  - split; [intros H; by exists a | by intros (? & [= <-] & H)].
  - split; [done | by intros (? & ? & _)].
Qed.

Lemma succeeds_seq {B} (m : result unit) (k : result B) :
  succeeds (m ;; k) = true <-> succeeds m = true /\ succeeds k = true.
Proof. destruct m as [[]|e]; simpl; naive_solver. Qed.

Lemma succeeds_Ok_unit (m : result unit) : succeeds m = true <-> m = Ok tt.
Proof. destruct m as [[]|e]; simpl; naive_solver. Qed.

Lemma succeeds_discard {A} (m : result A) :
  succeeds (discard m) = succeeds m.
Proof. by destruct m. Qed.

Lemma forOf_succeeds {A} (xs : list A) (body : A -> result unit) :
  succeeds (forOf xs body) = true
  <-> Forall (fun x => succeeds (body x) = true) xs.
Proof.
  induction xs as [|x xs IH]; simpl.
  - split; [by constructor | done].
  - change (body x ≫= (fun _ => forOf xs body)) with (body x ;; forOf xs body).
    rewrite succeeds_seq, IH, Forall_cons. done.
Qed.

(** A required string field followed by a pattern validator passes exactly
    on the strings whose trimmed value has the shape. *)
Lemma checked_string_iff (f : jsstring -> result jsstring)
    (P : jsstring -> Prop) (fieldName : jsstring) v :
  (forall s, succeeds (f s) = true <-> P s) ->
  (forall s, P s -> s <> []) ->
  succeeds (validateStringField v fieldName true ≫= f) = true
  <-> exists s, v = VStr s /\ P (trim s).
Proof.
  intros Hf Hne. rewrite succeeds_bind. split.
  - intros (t & Hv & Ht).
    apply validateStringField_required_Ok in Hv as (s & -> & -> & _).
    exists s. split; [done | by apply Hf].
  - intros (s & -> & HP). exists (trim s). split; [|by apply Hf].
    apply validateStringField_nonblank. by apply Hne.
Qed.

Lemma validateAccountId_succeeds s :
  succeeds (validateAccountId s) = true <-> accountIdShape s.
Proof.
  rewrite <- regex_test_accountId. unfold validateAccountId.
  by destruct (regex_test re_accountId s).
Qed.

Lemma validateRegion_succeeds s :
  succeeds (validateRegion s) = true <-> regionShape 2 s.
Proof.
  rewrite <- lang_region, <- regex_test_spec. unfold validateRegion.
  by destruct (regex_test re_region s).
Qed.

Lemma validateVpcId_succeeds s :
  succeeds (validateVpcId s) = true <-> resourceIdShape (lit "vpc-") s.
Proof.
  rewrite <- validateVpcId_iff. unfold validateVpcId.
  destruct (regex_test re_vpcId s); simpl; naive_solver.
Qed.

Lemma validateSecurityGroupId_succeeds s :
  succeeds (validateSecurityGroupId s) = true
  <-> resourceIdShape (lit "sg-") s.
Proof.
  rewrite <- validateSecurityGroupId_iff. unfold validateSecurityGroupId.
  destruct (regex_test re_securityGroupId s); simpl; naive_solver.
Qed.

Lemma validateSubnetId_succeeds s :
  succeeds (validateSubnetId s) = true <-> resourceIdShape (lit "subnet-") s.
Proof.
  rewrite <- validateSubnetId_iff. unfold validateSubnetId.
  destruct (regex_test re_subnetId s); simpl; naive_solver.
Qed.

Lemma checked_accountId v fieldName :
  succeeds (validateStringField v fieldName true ≫= validateAccountId) = true
  <-> exists s, v = VStr s /\ accountIdShape (trim s).
Proof.
  apply checked_string_iff;
    [apply validateAccountId_succeeds | apply accountIdShape_nonempty].
Qed.

Lemma checked_region v fieldName :
  succeeds (validateStringField v fieldName true ≫= validateRegion) = true
  <-> exists s, v = VStr s /\ regionShape 2 (trim s).
Proof.
  apply checked_string_iff;
    [apply validateRegion_succeeds | apply regionShape_nonempty].
Qed.

Lemma checked_vpcId v fieldName :
  succeeds (validateStringField v fieldName true ≫= validateVpcId) = true
  <-> exists s, v = VStr s /\ resourceIdShape (lit "vpc-") (trim s).
Proof.
  apply checked_string_iff;
    [apply validateVpcId_succeeds | apply resourceIdShape_nonempty].
Qed.

Lemma checked_securityGroupId v fieldName :
  succeeds (validateStringField v fieldName true ≫= validateSecurityGroupId)
  = true
  <-> exists s, v = VStr s /\ resourceIdShape (lit "sg-") (trim s).
Proof.
  apply checked_string_iff;
    [apply validateSecurityGroupId_succeeds | apply resourceIdShape_nonempty].
Qed.

Lemma checked_subnetId v fieldName :
  succeeds (validateStringField v fieldName true ≫= validateSubnetId) = true
  <-> validSubnetEntry v.
Proof.
  apply checked_string_iff;
    [apply validateSubnetId_succeeds | apply resourceIdShape_nonempty].
Qed.

Lemma validateBooleanField_required_succeeds v fieldName :
  succeeds (validateBooleanField v fieldName true None) = true
  <-> exists b, v = VBool b.
Proof. destruct v; simpl; naive_solver. Qed.

Lemma validateBooleanField_optional_succeeds v fieldName d :
  succeeds (validateBooleanField v fieldName false (Some d)) = true
  <-> v = VUndefined \/ v = VNull \/ exists b, v = VBool b.
Proof. destruct v; simpl; naive_solver. Qed.

(** The account section passes exactly when it is valid. *)
Lemma parseAccount_succeeds parsed :
  succeeds (parseAccount parsed) = true
  <-> isObjectValue (get parsed (lit "account")) = true
      /\ (exists i, get (get parsed (lit "account")) (lit "id") = VStr i
                    /\ accountIdShape (trim i))
      /\ (exists r, get (get parsed (lit "account")) (lit "region") = VStr r
                    /\ regionShape 2 (trim r))
      /\ (exists b, get (get parsed (lit "account")) (lit "prodLike") = VBool b)
      /\ (is_undefined (get (get parsed (lit "account")) (lit "isAdc"))
          || is_null (get (get parsed (lit "account")) (lit "isAdc"))
          || bool_decide (typeof (get (get parsed (lit "account")) (lit "isAdc"))
                          = TBoolean) = true).
Proof.
  unfold parseAccount, isObjectValue.
  destruct (truthy (get parsed (lit "account"))); simpl; [|naive_solver].
  destruct (bool_decide (typeof (get parsed (lit "account")) = TObject));
    simpl; [|naive_solver].
  rewrite succeeds_bind.
  setoid_rewrite succeeds_bind. setoid_rewrite succeeds_bind.
  split.
  - intros (aid & Hid & reg & Hreg & b & Hb & Hadc).
    assert (Hid' : succeeds (validateStringField
                     (get (get parsed (lit "account")) (lit "id"))
                     (lit "account.id") true ≫= validateAccountId) = true)
      by by rewrite Hid.
    assert (Hreg' : succeeds (validateStringField
                     (get (get parsed (lit "account")) (lit "region"))
                     (lit "account.region") true ≫= validateRegion) = true)
      by by rewrite Hreg.
    apply (proj1 (checked_accountId _ _)) in Hid'.
    apply (proj1 (checked_region _ _)) in Hreg'.
    split_and!; try done.
    + exists b. by eapply validateBooleanField_required_Ok.
    + revert Hadc.
      by destruct (get (get parsed (lit "account")) (lit "isAdc")).
  - intros (_ & Hid & Hreg & (b & Hb) & Hadc).
    apply (proj2 (checked_accountId _ (lit "account.id"))) in Hid.
    apply (proj2 (checked_region _ (lit "account.region"))) in Hreg.
    destruct (_ ≫= validateAccountId) as [aid|]; [|done].
    destruct (_ ≫= validateRegion) as [reg|]; [|done].
    exists aid. split; [done|]. exists reg. split; [done|].
    rewrite Hb. exists b. split; [done|].
    by rewrite validateBooleanField_optional.
Qed.

Lemma validHeader_iff parsed :
  validHeader parsed
  <-> isObjectValue parsed = true
      /\ (exists p, get parsed (lit "projectName") = VStr p /\ trim p <> [])
      /\ succeeds (parseAccount parsed) = true.
Proof.
  rewrite parseAccount_succeeds. split.
  - intros [H1 H2 H3 H4 H5 H6 H7]. by split_and!.
  - intros (H1 & H2 & H3 & H4 & H5 & H6 & H7). by constructor.
Qed.

(** The network section passes exactly when it is valid, and then the
    whole section is handed to [NetworkConfig]. *)
Lemma parseNetworkConfig_succeeds parsed :
  succeeds (parseNetworkConfig parsed) = true <-> validNetwork parsed.
Proof.
  unfold parseNetworkConfig, validNetwork.
  set (nc := get parsed (lit "networkConfig")).
  destruct (isObjectValue nc) eqn:Hobj; [|simpl; naive_solver].
  assert (is_null nc = false) as -> by by destruct nc.
  cbn [andb negb]. cbv zeta.
  set (V := get nc (lit "VPC_ID")). set (ts := get nc (lit "TARGET_SUBNETS")).
  set (sg := get nc (lit "SECURITY_GROUP_ID")).
  rewrite !succeeds_seq.
  assert (H1 : succeeds (when (negb (is_undefined V))
                 (discard (validateStringField V (lit "networkConfig.VPC_ID")
                             true ≫= validateVpcId))) = true
               <-> V = VUndefined \/ validVpcId nc).
  { unfold validVpcId. fold V. destruct (is_undefined V) eqn:EV; simpl.
    - destruct V; try done. naive_solver.
    - rewrite succeeds_discard, checked_vpcId.
      split; [by right | intros [-> | H]; done]. }
  assert (H2 : succeeds (when (negb (is_undefined ts))
                 (if negb (isArray ts) then
                    Throw (DeploymentConfigError
                      (lit "Field 'networkConfig.TARGET_SUBNETS' must be an array")
                      (Some (lit "networkConfig.TARGET_SUBNETS")))
                  else
                    forOf (elements ts) (fun subnetId =>
                      discard (validateStringField subnetId
                                 (lit "networkConfig.TARGET_SUBNETS[]") true
                                 ≫= validateSubnetId)))) = true
               <-> validSubnets ts).
  { unfold validSubnets. destruct ts as [| |b|n|s|l|m]; simpl;
      try (split; [done | intros [? | (? & ? & _)]; done]).
    - split; [by left | done].
    - rewrite forOf_succeeds. split.
      + intros H. right. exists l. split; [done|].
        eapply Forall_impl; [exact H|]. intros x Hx. simpl in Hx.
        rewrite succeeds_discard in Hx.
        by apply (proj1 (checked_subnetId _ _)) in Hx.
      + intros [? | (l' & [= <-] & H)]; [done|].
        eapply Forall_impl; [exact H|]. intros x Hx. simpl.
        rewrite succeeds_discard. by apply (proj2 (checked_subnetId _ _)). }
  assert (H3 : succeeds (when (negb (is_undefined sg))
                 (discard (validateStringField sg
                             (lit "networkConfig.SECURITY_GROUP_ID") true
                             ≫= validateSecurityGroupId))) = true
               <-> securityGroupOk nc).
  { unfold securityGroupOk. fold sg. destruct (is_undefined sg) eqn:Esg; simpl.
    - destruct sg; try done. naive_solver.
    - rewrite succeeds_discard, checked_securityGroupId.
      split; [by right | intros [-> | H]; done]. }
  rewrite H1, H2, H3. clear H1 H2 H3.
  split.
  - intros (H1 & H2 & H3 & H4 & _). right. split_and!; try done.
    intros HV. destruct H1 as [? | (v & Ev & Hv)]; [done|].
    fold V in Ev. rewrite Ev in H4.
    assert (truthy (VStr v) = true) as Htr.
    { simpl. apply resourceIdShape_nonempty, trim_nonempty in Hv.
      by destruct v. }
    rewrite Htr in H4. simpl in H4.
    destruct H2 as [E | (l & E & _)]; rewrite E in H4; [done|].
    destruct l as [|x l]; [done|]. by exists x, l.
  - intros [? | (H1 & H2 & H3 & H4)]; [done|]. split_and!; try done.
    destruct (is_undefined V) eqn:EV.
    + destruct V; done.
    + destruct H4 as (x & l & ->); [by intros E; rewrite E in EV|].
      simpl. by rewrite andb_false_r.
Qed.

Lemma parseNetworkConfig_Ok parsed onc :
  parseNetworkConfig parsed = Ok onc ->
  onc = if isObjectValue (get parsed (lit "networkConfig"))
        then Some (NetworkConfig_new (get parsed (lit "networkConfig")))
        else None.
Proof.
  unfold parseNetworkConfig.
  set (nc := get parsed (lit "networkConfig")).
  destruct (isObjectValue nc) eqn:Hobj; [|cbn; congruence].
  assert (is_null nc = false) as -> by by destruct nc.
  cbn [andb negb]. cbv zeta.
  do 4 (match goal with
        | |- context [when ?c ?b] =>
            destruct (when c b) as [[]|]; cbn [mbind result_bind]; [|done]
        end).
  congruence.
Qed.
End AcceptanceFacts.

Section InstanceFacts.
Implicit Types (parsed v data : value).

Lemma validateParsed_succeeds parsed :
  succeeds (validateParsed parsed) = true <-> validConfiguration parsed.
Proof.
  unfold validConfiguration. rewrite validHeader_iff. split.
  - destruct (validateParsed parsed) as [cfg|] eqn:E; [intros _ | done].
    apply validateParsed_Ok in E as (Hobj & Hpn & Hacc & Hnc & Hdit & _).
    apply validateStringField_required_Ok in Hpn as (p & Ep & Et & Hp).
    split_and!.
    + done.
    + exists p. split; [done|]. by rewrite <- Et.
    + by rewrite Hacc.
    + apply parseNetworkConfig_succeeds. by rewrite Hnc.
    + eapply validateBooleanField_optional_succeeds. by rewrite Hdit.
  - intros ((Hobj & Hpn & Hacc) & Hnet & Hflag).
    assert (Hhdr : validHeader parsed) by by apply validHeader_iff.
    destruct (validateParsed_valid parsed Hhdr) as (p & acc & _ & _ & ->).
    apply parseNetworkConfig_succeeds in Hnet.
    destruct (parseNetworkConfig parsed) as [nc|]; [|done].
    apply (validateBooleanField_optional_succeeds _
             (lit "deployIntegrationTests") true) in Hflag.
    by destruct (validateBooleanField _ _ _ _).
Qed.

Lemma NetworkConfig_new_fields data k :
  k <> lit "__proto__" ->
  NetworkConfig_fields (NetworkConfig_new data) !! k
  = match ownProps data !! k with
    | Some x => Some x
    | None => NetworkConfig_defaults !! k
    end.
Proof.
  intros Hk. unfold NetworkConfig_new, BaseConfig_new, spreadOver.
  cbn [NetworkConfig_fields BaseConfig_fields].
  rewrite lookup_delete_ne by done.
  destruct (ownProps data !! k) as [x|] eqn:E.
  - by apply lookup_union_Some_l.
  - by rewrite lookup_union_r.
Qed.

Lemma NetworkConfig_new_prototype data :
  NetworkConfig_prototype (NetworkConfig_new data)
  = assignedPrototype (ownProps data).
Proof.
  unfold NetworkConfig_new, BaseConfig_new, spreadOver, assignedPrototype.
  cbn [NetworkConfig_prototype BaseConfig_prototype].
  destruct (ownProps data !! lit "__proto__") as [x|] eqn:E.
  - by rewrite (lookup_union_Some_l _ _ _ _ E).
  - by rewrite lookup_union_r.
Qed.

Lemma assignedPrototype_inheritsNothing data P :
  inheritsNothing data -> assignedPrototype (ownProps data) <> ReplacedBy P.
Proof.
  unfold inheritsNothing, assignedPrototype. intros H.
  destruct (ownProps data !! lit "__proto__") as [v|]; [|done].
  specialize (H v eq_refl). by destruct v.
Qed.

(** Without a prototype from the file, what the instance reads is what the
    section holds. *)
Lemma NetworkConfig_new_get data k :
  isObjectValue data = true ->
  inheritsNothing data ->
  NetworkConfig_defaults !! k = None ->
  k <> lit "length" ->
  k <> lit "__proto__" ->
  NetworkConfig_get (NetworkConfig_new data) k = get data k.
Proof.
  intros Hobj Hplain Hdef Hlen Hproto.
  unfold NetworkConfig_get, BaseConfig_get.
  cbn [BaseConfig_fields BaseConfig_prototype].
  rewrite NetworkConfig_new_fields, NetworkConfig_new_prototype, Hdef by done.
  assert (Hget : get data k = default VUndefined (ownProps data !! k)).
  { unfold isObjectValue in Hobj.
    destruct data as [| |b|n|s|l|m]; simpl in Hobj;
      rewrite ?andb_false_r in Hobj; try done.
    unfold get. by rewrite decide_False. }
  rewrite Hget. destruct (ownProps data !! k) as [x|]; [done|].
  pose proof (assignedPrototype_inheritsNothing data) as Hno.
  destruct (assignedPrototype (ownProps data)) as [|P|]; try done.
  by destruct (Hno P Hplain).
Qed.

Lemma NetworkConfig_new_defaults data k :
  is_Some (NetworkConfig_defaults !! k) ->
  is_Some (NetworkConfig_fields (NetworkConfig_new data) !! k).
Proof.
  intros [d Hd].
  rewrite NetworkConfig_new_fields
    by (intros ->; vm_compute in Hd; discriminate Hd).
  rewrite Hd. by destruct (ownProps data !! k).
Qed.

End InstanceFacts.

(** The [NetworkConfig] of a loaded configuration is built from the
    [networkConfig] section of the file, which is valid. *)
Lemma validateParsed_networkConfig
    (parsed : value) (cfg : DeploymentConfig) (nc : NetworkConfig) :
  validateParsed parsed = Ok cfg ->
  networkConfig cfg = Some nc ->
  let data := get parsed (lit "networkConfig") in
  isObjectValue data = true
  /\ nc = NetworkConfig_new data
  /\ (get data (lit "VPC_ID") = VUndefined \/ validVpcId data)
  /\ validSubnets (get data (lit "TARGET_SUBNETS"))
  /\ securityGroupOk data
  /\ (get data (lit "VPC_ID") <> VUndefined ->
      exists x l, get data (lit "TARGET_SUBNETS") = VArr (x :: l)).
Proof.
  intros Hload Hnc data.
  apply validateParsed_Ok in Hload as (_ & _ & _ & Hnet & _).
  assert (Hvalid : validNetwork parsed).
  { apply parseNetworkConfig_succeeds. by rewrite Hnet. }
  apply parseNetworkConfig_Ok in Hnet. rewrite Hnc in Hnet. fold data in Hnet.
  destruct (isObjectValue data) eqn:Hobj; [|done].
  injection Hnet as ->.
  destruct Hvalid as [Hno | (Hvpc & Hts & Hsg & Hrule)];
    [fold data in Hno; congruence|].
  by split_and!.
Qed.

(* ===================================================================== *)
(** ** Further properties *)
(* ===================================================================== *)

(** X1.  [validateAccountId] accepts a string exactly when it consists of
    exactly twelve decimal digits; a string it does not accept is rejected
    with an error whose message quotes it. *)
Theorem account_id_validator_accepts_iff_twelve_digits (s : jsstring) :
  (validateAccountId s = Ok s <-> accountIdShape s)
  /\ (validateAccountId s = Ok s
      \/ exists e, validateAccountId s = Throw e
                   /\ includes s (message e) = true
                   /\ includes (lit "Must be exactly 12 digits") (message e)
                      = true).
Proof.
  split.
  - rewrite <- validateAccountId_succeeds. unfold validateAccountId.
    destruct (regex_test re_accountId s); simpl; split; done.
  - unfold validateAccountId.
    destruct (regex_test re_accountId s); [by left | right].
    eexists. split; [done|]. cbn [message]. split.
    + apply includes_app_r, includes_app_l, includes_refl.
    + apply includes_app_r, includes_app_r.
      change (lit "'. Must be exactly 12 digits.")
        with ([39%N; 46%N; 32%N] ++ lit "Must be exactly 12 digits" ++ [46%N]).
      apply includes_app_r, includes_app_l, includes_refl.
Qed.

(** Twelve digits pass; eleven digits, or a letter among them, do not. *)
Lemma account_id_validator_examples :
  validateAccountId (lit "123456789012") = Ok (lit "123456789012")
  /\ succeeds (validateAccountId (lit "12345678901")) = false
  /\ succeeds (validateAccountId (lit "12345678901a")) = false.
Proof.
  split_and!.
  - apply (account_id_validator_accepts_iff_twelve_digits (lit "123456789012")).
    shape_by_matching.
  - vm_compute. reflexivity.
  - vm_compute. reflexivity.
Defined.

(** X2.  [validateStringField] succeeds exactly on an absent or [null]
    value of an optional field, and on a string that, when the field is
    required, is not made of white space only.  What it returns neither
    starts nor ends with white space, is not empty for a required field, and
    is the empty string for an absent optional one. *)
Theorem string_field_outcome
    (v : value) (fieldName : jsstring) (isRequired : bool) :
  (succeeds (validateStringField v fieldName isRequired) = true
   <-> ((v = VUndefined \/ v = VNull) /\ isRequired = false)
       \/ exists s, v = VStr s
                    /\ (isRequired = true ->
                        ~ Forall (fun c => isWhiteSpace c = true) s))
  /\ forall t,
       validateStringField v fieldName isRequired = Ok t ->
       head (isWhiteSpace <$> t) <> Some true
       /\ last (isWhiteSpace <$> t) <> Some true
       /\ (isRequired = true -> t <> [])
       /\ (v = VUndefined \/ v = VNull -> t = []).
Proof.
  assert (Habsent : v = VUndefined \/ v = VNull ->
            validateStringField v fieldName isRequired
            = if isRequired
              then Throw (DeploymentConfigError
                            (lit "Missing required field: " ++ fieldName)
                            (Some fieldName))
              else Ok []) by by intros [-> | ->].
  assert (Hother : v <> VUndefined -> v <> VNull ->
            (forall s, v <> VStr s) ->
            succeeds (validateStringField v fieldName isRequired) = false).
  { intros H1 H2 H3. destruct v as [| |b|n|s|l|m]; try done.
    by destruct (H3 s). }
  assert (Hcases : (v = VUndefined \/ v = VNull)
                   \/ (exists s, v = VStr s)
                   \/ (v <> VUndefined /\ v <> VNull
                       /\ forall s, v <> VStr s)).
  { destruct v as [| |b|n|s|l|m];
      [left; by left | left; by right | | | right; left; by exists s | |];
      right; right; by split_and!. }
  split.
  - split.
    + intros Hok. destruct Hcases as [Hv | [(s & ->) | (H1 & H2 & H3)]].
      * left. split; [done|]. rewrite (Habsent Hv) in Hok.
        by destruct isRequired.
      * right. exists s. split; [done|]. intros -> Hws.
        rewrite validateStringField_str, (trim_all_ws s Hws) in Hok. done.
      * by rewrite Hother in Hok.
    + intros [[Hv ->] | (s & -> & Hs)].
      * by rewrite (Habsent Hv).
      * rewrite validateStringField_str. destruct isRequired; [|done].
        destruct (trim s) eqn:E; [|done].
        destruct (Hs eq_refl). by apply trim_empty_iff.
  - intros t Ht. destruct Hcases as [Hv | [(s & ->) | (H1 & H2 & H3)]].
    + rewrite (Habsent Hv) in Ht. destruct isRequired; [done|].
      injection Ht as <-. by split_and!.
    + rewrite validateStringField_str in Ht.
      destruct (isRequired && is_empty (trim s)) eqn:E; [done|].
      injection Ht as <-.
      destruct (trim_spec s) as (front & back & _ & _ & _ & Hhd & Hlast).
      split_and!; try done.
      * intros -> Hnil. by rewrite Hnil in E.
      * intros [?|?]; done.
    + assert (Hf := Hother H1 H2 H3). by rewrite Ht in Hf.
Qed.

(** An optional field that is absent gives the empty string; a required one
    given as a number is rejected. *)
Lemma string_field_outcome_witness :
  validateStringField VUndefined (lit "description") false = Ok []
  /\ succeeds (validateStringField (VNum (num_of_Z 7)) (lit "projectName") true)
     = false.
Proof.
  split.
  - destruct (validateStringField VUndefined (lit "description") false)
      as [t|e] eqn:E; [|discriminate].
    f_equal.
    apply (proj2 (string_field_outcome VUndefined (lit "description") false)
             t E).
    by left.
  - reflexivity.
Defined.

(** X3.  The boolean fields are never coerced.  In a configuration that
    loads, the raw [account.prodLike] is the boolean stored; the raw
    [account.isAdc] is absent or [null] (stored as false) or the boolean
    stored; the raw [deployIntegrationTests] is absent or [null] (stored as
    true) or the boolean stored. *)
Theorem loaded_flags_are_raw_booleans
    (JSON_parse : jsstring -> result value) (w : world) (parsed : value)
    (cfg : DeploymentConfig) :
  parsesTo JSON_parse w parsed ->
  fst (loadDeploymentConfig JSON_parse w) = Ok cfg ->
  let accountConfig := get parsed (lit "account") in
  get accountConfig (lit "prodLike") = VBool (account_prodLike (account cfg))
  /\ (((get accountConfig (lit "isAdc") = VUndefined
        \/ get accountConfig (lit "isAdc") = VNull)
       /\ account_isAdc (account cfg) = false)
      \/ get accountConfig (lit "isAdc") = VBool (account_isAdc (account cfg)))
  /\ (((get parsed (lit "deployIntegrationTests") = VUndefined
        \/ get parsed (lit "deployIntegrationTests") = VNull)
       /\ deployIntegrationTests cfg = true)
      \/ get parsed (lit "deployIntegrationTests")
         = VBool (deployIntegrationTests cfg)).
Proof.
  intros Hparse. rewrite (load_parsed _ _ _ Hparse). intros Hload acct.
  apply validateParsed_Ok in Hload as (_ & _ & Hacc & _ & Hdit & _).
  apply parseAccount_Ok in Hacc as (i & r & _ & _ & _ & _ & Hprod & Hadc).
  fold acct in Hprod, Hadc. split_and!.
  - exact Hprod.
  - destruct (get acct (lit "isAdc")); simpl in Hadc; try done;
      injection Hadc as <-; [left | left | right]; try done.
    + split; [by left | done].
    + split; [by right | done].
  - destruct (get parsed (lit "deployIntegrationTests")); simpl in Hdit;
      try done; injection Hdit as <-; [left | left | right]; try done.
    + split; [by left | done].
    + split; [by right | done].
Qed.

(** The text "false" is not the boolean false: the configuration does not
    load; with the flag left out it loads with the default. *)
Lemma loaded_flags_are_raw_booleans_witness :
  succeeds (fst (loadDeploymentConfig
                   (parsingTo (ex_config [("deployIntegrationTests",
                                           VStr (lit "false"))]))
                   ex_world)) = false
  /\ exists cfg,
       fst (loadDeploymentConfig (parsingTo (ex_config [])) ex_world) = Ok cfg
       /\ deployIntegrationTests cfg = true
       /\ account_prodLike (account cfg) = false.
Proof.
  split; [vm_compute; reflexivity|].
  destruct (fst (loadDeploymentConfig (parsingTo (ex_config [])) ex_world))
    as [cfg|e] eqn:E; [|vm_compute in E; discriminate].
  exists cfg. split; [reflexivity|].
  destruct (loaded_flags_are_raw_booleans (parsingTo (ex_config [])) ex_world
              (ex_config []) cfg (ex_parsesTo _) E) as (Hprod & _ & Hflag).
  split.
  - destruct Hflag as [[_ H] | H]; [exact H | discriminate H].
  - injection Hprod as <-. reflexivity.
Defined.

(** X4.  The loader accepts exactly the valid configurations: a readable
    file whose content parses loads if and only if the header is valid, the
    network section is valid or not an object, and
    [deployIntegrationTests] is absent, [null] or a boolean. *)
Theorem loader_accepts_exactly_valid
    (JSON_parse : jsstring -> result value) (w : world) (parsed : value) :
  parsesTo JSON_parse w parsed ->
  succeeds (fst (loadDeploymentConfig JSON_parse w)) = true
  <-> validConfiguration parsed.
Proof.
  intros Hparse. rewrite (load_parsed _ _ _ Hparse).
  apply validateParsed_succeeds.
Qed.

(** The configuration with a padded [VPC_ID] and one subnet is valid, and
    loads. *)
Lemma loader_accepts_exactly_valid_witness :
  validConfiguration ex_vpc_padded
  /\ succeeds (fst (loadDeploymentConfig (parsingTo ex_vpc_padded) ex_world))
     = true.
Proof.
  assert (H : validConfiguration ex_vpc_padded).
  { split_and!.
    - constructor.
      + reflexivity.
      + eexists. split; [reflexivity|]. vm_compute. discriminate.
      + reflexivity.
      + eexists. split; [reflexivity|]. shape_by_matching.
      + eexists. split; [reflexivity|]. shape_by_matching.
      + eexists. reflexivity.
      + reflexivity.
    - right. split_and!.
      + right. eexists. split; [reflexivity|]. shape_by_matching.
      + right. eexists. split; [reflexivity|].
        constructor; [|constructor].
        eexists. split; [reflexivity|]. shape_by_matching.
      + left. reflexivity.
      + intros _. eexists _, _. reflexivity.
    - left. reflexivity. }
  split; [exact H|].
  exact (proj2 (loader_accepts_exactly_valid (parsingTo ex_vpc_padded)
                  ex_world ex_vpc_padded (ex_parsesTo _)) H).
Defined.

(** X5.  The [NetworkConfig] of a configuration that loads always has
    [VPC_NAME] and [SECURITY_GROUP_NAME] of its own, and its prototype is
    the one of the class unless the section has a key [__proto__] holding an
    object or [null].  When the section has no key [__proto__] holding an
    object, what the instance reads is what the loader has checked: its
    [VPC_ID], if any, is a string that trimmed is a VPC identifier and then
    [TARGET_SUBNETS] is a non-empty list; [TARGET_SUBNETS], if any, is a
    list of strings that trimmed are subnet identifiers; and
    [SECURITY_GROUP_ID], if any, is a string that trimmed is a
    security-group identifier. *)
Theorem loaded_network_invariant
    (JSON_parse : jsstring -> result value) (w : world) (parsed : value)
    (cfg : DeploymentConfig) (nc : NetworkConfig) :
  parsesTo JSON_parse w parsed ->
  fst (loadDeploymentConfig JSON_parse w) = Ok cfg ->
  networkConfig cfg = Some nc ->
  let data := get parsed (lit "networkConfig") in
  is_Some (NetworkConfig_fields nc !! lit "VPC_NAME")
  /\ is_Some (NetworkConfig_fields nc !! lit "SECURITY_GROUP_NAME")
  /\ NetworkConfig_prototype nc = assignedPrototype (ownProps data)
  /\ (inheritsNothing data ->
      (NetworkConfig_get nc (lit "VPC_ID") = VUndefined
       \/ exists v, NetworkConfig_get nc (lit "VPC_ID") = VStr v
                    /\ resourceIdShape (lit "vpc-") (trim v))
      /\ validSubnets (NetworkConfig_get nc (lit "TARGET_SUBNETS"))
      /\ (NetworkConfig_get nc (lit "SECURITY_GROUP_ID") = VUndefined
          \/ exists g, NetworkConfig_get nc (lit "SECURITY_GROUP_ID") = VStr g
                       /\ resourceIdShape (lit "sg-") (trim g))
      /\ (NetworkConfig_get nc (lit "VPC_ID") <> VUndefined ->
          exists x l,
            NetworkConfig_get nc (lit "TARGET_SUBNETS") = VArr (x :: l))).
Proof.
  intros Hparse. rewrite (load_parsed _ _ _ Hparse). intros Hload Hnc data.
  destruct (validateParsed_networkConfig _ _ _ Hload Hnc)
    as (Hobj & -> & Hvpc & Hts & Hsg & Hrule).
  fold data in Hobj, Hvpc, Hts, Hsg, Hrule |- *.
  split_and!.
  - apply NetworkConfig_new_defaults. by eexists.
  - apply NetworkConfig_new_defaults. by eexists.
  - apply NetworkConfig_new_prototype.
  - intros Hplain.
    rewrite !NetworkConfig_new_get
      by (done || (intros E; vm_compute in E; done)).
    by split_and!.
Qed.

(** The test "loads networkConfig with valid VPC configuration". *)
Lemma loaded_network_invariant_witness :
  exists cfg nc,
    fst (loadDeploymentConfig (parsingTo ex_vpc_padded) ex_world) = Ok cfg
    /\ networkConfig cfg = Some nc
    /\ is_Some (NetworkConfig_fields nc !! lit "VPC_NAME")
    /\ NetworkConfig_prototype nc = ClassPrototype
    /\ validSubnets (NetworkConfig_get nc (lit "TARGET_SUBNETS")).
Proof.
  destruct (fst (loadDeploymentConfig (parsingTo ex_vpc_padded) ex_world))
    as [cfg|e] eqn:E; [|vm_compute in E; discriminate].
  destruct (networkConfig cfg) as [nc|] eqn:En;
    [|vm_compute in E; injection E as <-; discriminate En].
  pose proof (loaded_network_invariant (parsingTo ex_vpc_padded) ex_world
                ex_vpc_padded cfg nc (ex_parsesTo _) E En) as H.
  cbv zeta in H. destruct H as (Hname & _ & Hproto & Hreads).
  exists cfg, nc. split_and!.
  - reflexivity.
  - exact En.
  - exact Hname.
  - rewrite Hproto. reflexivity.
  - apply Hreads. intros v Hv. vm_compute in Hv. discriminate Hv.
Defined.

(** A key [__proto__] in the section is not a field the loader checks: the
    object under it becomes the prototype of the instance, which then reads
    a [VPC_ID] that was never validated and has no [TARGET_SUBNETS]. *)
Example network_prototype_from_file :
  let inherited := VObj (object [("VPC_ID", VStr (lit "bogus"))]) in
  let parsed :=
    ex_config [("networkConfig", VObj (object [("__proto__", inherited)]))] in
  exists cfg nc,
    fst (loadDeploymentConfig (parsingTo parsed) ex_world) = Ok cfg
    /\ networkConfig cfg = Some nc
    /\ NetworkConfig_prototype nc = ReplacedBy inherited
    /\ NetworkConfig_fields nc !! lit "VPC_ID" = None
    /\ NetworkConfig_get nc (lit "VPC_ID") = VStr (lit "bogus")
    /\ NetworkConfig_get nc (lit "TARGET_SUBNETS") = VUndefined.
Proof.
  eexists _, _. split_and!; [vm_compute; reflexivity | reflexivity..].
Qed.

(** Membership in a list written out. *)
Ltac in_tags := unfold fieldTags; repeat constructor.

Section ErrorFacts.
Implicit Types (parsed v : value) (e : exn).

Lemma bind_Throw {A B} (m : result A) (k : A -> result B) e :
  m ≫= k = Throw e -> m = Throw e \/ exists a, m = Ok a /\ k a = Throw e.
Proof.
  destruct m as [a|e']; simpl; intros H; [right; by exists a | left; by injection H as ->].
Qed.

Lemma tagged_of f e : f ∈ fieldTags -> taggedWith f e -> tagged e.
Proof. intros Hf [m ->]. by exists m, f. Qed.

Lemma validateStringField_Throw v fieldName isRequired e :
  validateStringField v fieldName isRequired = Throw e ->
  taggedWith fieldName e.
Proof.
  unfold validateStringField, taggedWith.
  destruct (is_undefined v || is_null v).
  - destruct isRequired; [|done]. intros [= <-]. by eexists.
  - destruct v as [| |b|n|s|l|m];
      try (intros [= <-]; by eexists).
    cbv zeta. destruct (isRequired && is_empty (trim s)); [|done].
    intros [= <-]. by eexists.
Qed.

Lemma validateBooleanField_Throw v fieldName isRequired d e :
  validateBooleanField v fieldName isRequired d = Throw e ->
  taggedWith fieldName e.
Proof.
  unfold validateBooleanField, taggedWith.
  destruct (is_undefined v || is_null v).
  - destruct isRequired; [|done]. intros [= <-]. by eexists.
  - destruct v as [| |b|n|s|l|m];
      try (intros [= <-]; by eexists); try done.
Qed.

Lemma validateAccountId_Throw s e :
  validateAccountId s = Throw e -> taggedWith (lit "account.id") e.
Proof.
  unfold validateAccountId, taggedWith.
  destruct (regex_test re_accountId s); simpl; [done|].
  intros [= <-]. by eexists.
Qed.

Lemma validateRegion_Throw s e :
  validateRegion s = Throw e -> taggedWith (lit "account.region") e.
Proof.
  unfold validateRegion, taggedWith.
  destruct (regex_test re_region s); simpl; [done|].
  intros [= <-]. by eexists.
Qed.

Lemma validateVpcId_Throw s e :
  validateVpcId s = Throw e -> taggedWith (lit "config.targetVpcId") e.
Proof.
  unfold validateVpcId, taggedWith.
  destruct (regex_test re_vpcId s); simpl; [done|].
  intros [= <-]. by eexists.
Qed.

Lemma validateSecurityGroupId_Throw s e :
  validateSecurityGroupId s = Throw e ->
  taggedWith (lit "vpcConfig.securityGroupId") e.
Proof.
  unfold validateSecurityGroupId, taggedWith.
  destruct (regex_test re_securityGroupId s); simpl; [done|].
  intros [= <-]. by eexists.
Qed.

Lemma validateSubnetId_Throw s e :
  validateSubnetId s = Throw e ->
  taggedWith (lit "networkConfig.targetSubnets") e.
Proof.
  unfold validateSubnetId, taggedWith.
  destruct (regex_test re_subnetId s); simpl; [done|].
  intros [= <-]. by eexists.
Qed.

(** A required string field followed by a pattern validator throws with the
    path of the field or with the tag of the validator. *)
Lemma checked_string_Throw
    (f : jsstring -> result jsstring) v fieldName tag e :
  (forall s e', f s = Throw e' -> taggedWith tag e') ->
  fieldName ∈ fieldTags -> tag ∈ fieldTags ->
  validateStringField v fieldName true ≫= f = Throw e -> tagged e.
Proof.
  intros Hf Hname Htag [H | (t & _ & H)]%bind_Throw.
  - apply (tagged_of fieldName); [done|]. by eapply validateStringField_Throw.
  - apply (tagged_of tag); [done|]. by eapply Hf.
Qed.

Lemma discard_Throw {A} (m : result A) e : discard m = Throw e -> m = Throw e.
Proof.
  destruct m as [a|e']; simpl; intros H; [done | by injection H as ->].
Qed.

Lemma when_Throw c (body : result unit) e :
  when c body = Throw e -> c = true /\ body = Throw e.
Proof. by destruct c. Qed.

Lemma forOf_Throw {A} (xs : list A) (body : A -> result unit) e :
  forOf xs body = Throw e -> exists x, x ∈ xs /\ body x = Throw e.
Proof.
  induction xs as [|x xs IH]; simpl; [done|].
  intros [H | ([] & _ & H)]%bind_Throw.
  - exists x. split; [by left | done].
  - destruct (IH H) as (y & Hy & Hb). exists y. split; [by right | done].
Qed.

Lemma parseAccount_Throw parsed e : parseAccount parsed = Throw e -> tagged e.
Proof.
  unfold parseAccount.
  destruct (negb (truthy _) || negb (bool_decide _)).
  { intros [= <-]. eexists _, _. split; [done | in_tags]. }
  intros [H | (aid & _ & H)]%bind_Throw.
  { eapply checked_string_Throw in H;
      [done | apply validateAccountId_Throw | in_tags..]. }
  apply bind_Throw in H as [H | (reg & _ & H)].
  { eapply checked_string_Throw in H;
      [done | apply validateRegion_Throw | in_tags..]. }
  apply bind_Throw in H as [H | (b & _ & H)].
  { eapply tagged_of; [|by eapply validateBooleanField_Throw]. in_tags. }
  apply bind_Throw in H as [H | (adc & _ & H)]; [|done].
  eapply tagged_of; [|by eapply validateBooleanField_Throw]. in_tags.
Qed.

Lemma parseNetworkConfig_Throw parsed e :
  parseNetworkConfig parsed = Throw e -> tagged e.
Proof.
  unfold parseNetworkConfig.
  destruct (isObjectValue _ && negb (is_null _)); [|done]. cbv zeta.
  intros [H | ([] & _ & H)]%bind_Throw.
  { apply when_Throw in H as [_ H]. apply discard_Throw in H.
    eapply checked_string_Throw in H;
      [done | apply validateVpcId_Throw | in_tags..]. }
  apply bind_Throw in H as [H | ([] & _ & H)].
  { apply when_Throw in H as [_ H].
    destruct (negb (isArray _)).
    - injection H as <-. eexists _, _. split; [done | in_tags].
    - apply forOf_Throw in H as (x & _ & H). apply discard_Throw in H.
      eapply checked_string_Throw in H;
        [done | apply validateSubnetId_Throw | in_tags..]. }
  apply bind_Throw in H as [H | ([] & _ & H)].
  { apply when_Throw in H as [_ H]. apply discard_Throw in H.
    eapply checked_string_Throw in H;
      [done | apply validateSecurityGroupId_Throw | in_tags..]. }
  apply bind_Throw in H as [H | ([] & _ & H)]; [|done].
  apply when_Throw in H as [_ H]. injection H as <-.
  eexists _, _. split; [done | in_tags].
Qed.

(** After parsing, the only error without a tag is the one about the
    top-level value; the check [projectName.length === 0] never fires. *)
Lemma validateParsed_Throw parsed e :
  validateParsed parsed = Throw e ->
  (isObjectValue parsed = false
   /\ e = DeploymentConfigError msg_not_an_object None)
  \/ (isObjectValue parsed = true /\ tagged e).
Proof.
  unfold validateParsed, isObjectValue.
  destruct (truthy parsed); simpl;
    [|intros [= <-]; by left].
  destruct (bool_decide (typeof parsed = TObject)); simpl;
    [|intros [= <-]; by left].
  intros H. right. split; [done|].
  apply bind_Throw in H as [H | (pn & Hpn & H)].
  { eapply tagged_of; [|by eapply validateStringField_Throw]. in_tags. }
  apply validateStringField_required_Ok in Hpn as (p & _ & _ & Hne).
  apply bind_Throw in H as [H | ([] & _ & H)].
  { apply when_Throw in H as [Hlen _]. by destruct pn. }
  apply bind_Throw in H as [H | (acc & _ & H)].
  { by eapply parseAccount_Throw. }
  apply bind_Throw in H as [H | (nc & _ & H)].
  { by eapply parseNetworkConfig_Throw. }
  apply bind_Throw in H as [H | (dit & _ & H)]; [|done].
  eapply tagged_of; [|by eapply validateBooleanField_Throw]. in_tags.
Qed.

Lemma get_insert_ne (m : gmap (list N) value) (k k' : jsstring) x :
  k <> k' -> get (VObj (<[k := x]> m)) k' = get (VObj m) k'.
Proof. intros H. simpl. by rewrite lookup_insert_ne. Qed.

Lemma get_insert_eq (m : gmap (list N) value) (k : jsstring) x :
  get (VObj (<[k := x]> m)) k = x.
Proof. simpl. by rewrite lookup_insert_eq. Qed.

(** Two contents that differ only under the key of one of the opaque
    sections give the same outcome, up to the field of that section. *)
Lemma validateParsed_opaque (m : gmap (list N) value) sec x y :
  sec <> NetworkSection ->
  mapResult (withoutSection sec)
    (validateParsed (VObj (<[sectionKey sec := x]> m)))
  = mapResult (withoutSection sec)
      (validateParsed (VObj (<[sectionKey sec := y]> m))).
Proof.
  intros Hsec.
  destruct (sectionKey_not_scalar sec) as (Hpn & Hacc & Hdit).
  assert (Hnet : sectionKey sec <> lit "networkConfig").
  { intros E. by apply (sectionKey_inj sec NetworkSection) in E. }
  assert (Hget : forall k z, sectionKey sec <> k ->
            get (VObj (<[sectionKey sec := z]> m)) k = get (VObj m) k)
    by (intros; by apply get_insert_ne).
  assert (Hpa : forall z, parseAccount (VObj (<[sectionKey sec := z]> m))
                          = parseAccount (VObj m)).
  { intros z. unfold parseAccount. by rewrite !Hget. }
  assert (Hpnc : forall z, parseNetworkConfig (VObj (<[sectionKey sec := z]> m))
                           = parseNetworkConfig (VObj m)).
  { intros z. apply parseNetworkConfig_ext. left. by apply Hget. }
  unfold validateParsed. cbn [truthy typeof negb orb]. cbv zeta.
  rewrite !Hpa, !Hpnc, !(Hget (lit "projectName")),
    !(Hget (lit "deployIntegrationTests")) by done.
  destruct (validateStringField _ _ _) as [pn|]; cbn [mbind result_bind];
    [|done].
  destruct (when _ _) as [[]|]; cbn [mbind result_bind]; [|done].
  destruct (parseAccount _) as [acc|]; cbn [mbind result_bind]; [|done].
  destruct (parseNetworkConfig _) as [nc|]; cbn [mbind result_bind]; [|done].
  destruct (validateBooleanField _ _ _ _) as [dit|]; cbn [mbind result_bind];
    [|done].
  unfold mapResult, withoutSection. cbn [projectName account networkConfig
    dataplaneConfig deployIntegrationTests testImageryConfig testConfig].
  destruct sec; [done | | |]; cbn [sectionKey] in *;
    rewrite ?(Hget (lit "dataplaneConfig")),
      ?(Hget (lit "testImageryConfig")), ?(Hget (lit "testConfig"))
      by (intros E; vm_compute in E; discriminate);
    reflexivity.
Qed.
End ErrorFacts.

(** X6.  Whatever goes wrong, be it a missing or unreadable file, malformed
    JSON or an invalid field, the loader throws a [DeploymentConfigError]:
    no [SyntaxError] or I/O error escapes it unwrapped. *)
Theorem load_throws_only_DeploymentConfigError
    (JSON_parse : jsstring -> result value) (w : world) (e : exn) :
  fst (loadDeploymentConfig JSON_parse w) = Throw e ->
  exists m f, e = DeploymentConfigError m f.
Proof.
  unfold loadDeploymentConfig.
  destruct (readParsed JSON_parse w ≫= validateParsed) as [cfg|e'] eqn:E;
    [done|].
  intros [= ->].
  apply bind_Throw in E as [E | (parsed & _ & E)].
  - unfold readParsed in E. destruct (deployment_json w) as [|thrown|raw].
    + injection E as <-. by eexists _, _.
    + injection E as <-. destruct thrown; by eexists _, _.
    + destruct (JSON_parse raw) as [p|thrown]; [done|].
      injection E as <-. destruct thrown; by eexists _, _.
  - apply validateParsed_Throw in E as [[_ ->] | [_ (m & f & -> & _)]];
      by eexists _, _.
Qed.

(** A parser that throws a [SyntaxError]: what the caller sees is a
    [DeploymentConfigError] that quotes the parser's message. *)
Lemma load_throws_only_DeploymentConfigError_witness :
  exists m f,
    fst (loadDeploymentConfig
           (fun _ => Throw (SyntaxError (lit "Unexpected token i")))
           ex_world)
    = Throw (DeploymentConfigError m f)
    /\ includes (lit "Unexpected token i") m = true.
Proof.
  destruct (fst (loadDeploymentConfig
                   (fun _ => Throw (SyntaxError (lit "Unexpected token i")))
                   ex_world)) as [cfg|e] eqn:E; [vm_compute in E; discriminate|].
  destruct (load_throws_only_DeploymentConfigError _ _ _ E) as (m & f & ->).
  exists m, f. split; [reflexivity|].
  vm_compute in E. injection E as <- _. vm_compute. reflexivity.
Defined.

(** X7.  Once the content has parsed, an error of the loader is either the
    one raised when the content is not an object, with the message
    "deployment.json must contain a valid JSON object" and no tag, or it
    carries one of the fourteen tags of [fieldTags]: the paths handed to the
    field validators and the fixed tags of the pattern validators, of which
    "config.targetVpcId", "vpcConfig.securityGroupId" and
    "networkConfig.targetSubnets" are no paths of the file.  In particular
    the untagged "projectName cannot be empty" is never thrown. *)
Theorem validation_errors_carry_a_known_tag
    (JSON_parse : jsstring -> result value) (w : world) (parsed : value)
    (e : exn) :
  parsesTo JSON_parse w parsed ->
  fst (loadDeploymentConfig JSON_parse w) = Throw e ->
  (isObjectValue parsed = false
   /\ e = DeploymentConfigError msg_not_an_object None)
  \/ (isObjectValue parsed = true
      /\ exists m f, e = DeploymentConfigError m (Some f) /\ f ∈ fieldTags).
Proof.
  intros Hparse. rewrite (load_parsed _ _ _ Hparse).
  apply validateParsed_Throw.
Qed.

(** A malformed [VPC_ID] is reported under the tag of the pattern validator,
    not under the path "networkConfig.VPC_ID". *)
Lemma validation_errors_carry_a_known_tag_witness :
  exists m,
    fst (loadDeploymentConfig (parsingTo ex_vpc_invalid) ex_world)
    = Throw (DeploymentConfigError m (Some (lit "config.targetVpcId")))
    /\ lit "config.targetVpcId" ∈ fieldTags.
Proof.
  destruct (fst (loadDeploymentConfig (parsingTo ex_vpc_invalid) ex_world))
    as [cfg|e] eqn:E; [vm_compute in E; discriminate|].
  destruct (validation_errors_carry_a_known_tag _ _ _ _ (ex_parsesTo _) E)
    as [[Hno _] | (_ & m & f & -> & Hf)]; [vm_compute in Hno; discriminate|].
  exists m. vm_compute in E. injection E as _ <-. split; [reflexivity|].
  exact Hf.
Defined.


(** X9.  [dataplaneConfig], [testImageryConfig] and [testConfig] are
    opaque to the loader: replacing the value under one of these keys by any
    other value changes neither whether the file loads nor the error, and in
    the result only the field of that section.  A [dataplaneConfig] that is
    an object is stored as it is, with no check of its sizes. *)
Theorem opaque_sections_are_not_validated
    (JSON_parse JSON_parse' : jsstring -> result value) (w w' : world)
    (config : gmap (list N) value) (sec : section) (x y : value) :
  sec <> NetworkSection ->
  parsesTo JSON_parse w (VObj (<[sectionKey sec := x]> config)) ->
  parsesTo JSON_parse' w' (VObj (<[sectionKey sec := y]> config)) ->
  mapResult (withoutSection sec) (fst (loadDeploymentConfig JSON_parse w))
  = mapResult (withoutSection sec) (fst (loadDeploymentConfig JSON_parse' w'))
  /\ forall cfg,
       sec = DataplaneSection ->
       fst (loadDeploymentConfig JSON_parse w) = Ok cfg ->
       dataplaneConfig cfg = if isObjectValue x then Some x else None.
Proof.
  intros Hsec Hparse Hparse'.
  rewrite (load_parsed _ _ _ Hparse), (load_parsed _ _ _ Hparse').
  split; [by apply validateParsed_opaque|].
  intros cfg -> Hload.
  apply validateParsed_Ok in Hload as (_ & _ & _ & _ & _ & Hdp & _).
  cbn [sectionKey] in Hdp. by rewrite get_insert_eq in Hdp.
Qed.

(** A [dataplaneConfig] with a task CPU of 1 loads, as one with a valid size
    does, and is stored as written; it is [DataplaneConfig] that rejects
    it. *)
Lemma opaque_sections_are_not_validated_witness :
  let tiny := VObj (object [("ECS_TASK_CPU", VNum (num_of_Z 1))]) in
  let fine := VObj (object [("ECS_TASK_CPU", VNum (num_of_Z 4096))]) in
  exists cfg,
    fst (loadDeploymentConfig
           (parsingTo (VObj (<[lit "dataplaneConfig" := tiny]>
                               (ownProps (ex_config [])))))
           ex_world) = Ok cfg
    /\ dataplaneConfig cfg = Some tiny
    /\ succeeds (fst (loadDeploymentConfig
                        (parsingTo (VObj (<[lit "dataplaneConfig" := fine]>
                                            (ownProps (ex_config [])))))
                        ex_world)) = true
    /\ succeeds (DataplaneConfig_new tiny) = false.
Proof.
  intros tiny fine.
  destruct (opaque_sections_are_not_validated
              (parsingTo (VObj (<[lit "dataplaneConfig" := tiny]>
                                  (ownProps (ex_config [])))))
              (parsingTo (VObj (<[lit "dataplaneConfig" := fine]>
                                  (ownProps (ex_config [])))))
              ex_world ex_world (ownProps (ex_config [])) DataplaneSection
              tiny fine ltac:(discriminate) (ex_parsesTo _) (ex_parsesTo _))
    as [Hsame Hstored].
  destruct (fst (loadDeploymentConfig
                   (parsingTo (VObj (<[lit "dataplaneConfig" := tiny]>
                                       (ownProps (ex_config [])))))
                   ex_world)) as [cfg|e] eqn:E;
    [|vm_compute in E; discriminate].
  exists cfg. split_and!.
  - reflexivity.
  - exact (Hstored cfg eq_refl eq_refl).
  - destruct (fst (loadDeploymentConfig
                     (parsingTo (VObj (<[lit "dataplaneConfig" := fine]>
                                         (ownProps (ex_config [])))))
                     ex_world)); [reflexivity | discriminate Hsame].
  - vm_compute. reflexivity.
Defined.

Section ConsumerFacts.

(** A call that returns has read and parsed the file. *)
Lemma load_Ok_validated (JSON_parse : jsstring -> result value) (w : world)
    (cfg : DeploymentConfig) :
  fst (loadDeploymentConfig JSON_parse w) = Ok cfg ->
  exists parsed,
    parsesTo JSON_parse w parsed /\ validateParsed parsed = Ok cfg.
Proof.
  unfold loadDeploymentConfig, parsesTo.
  destruct (readParsed JSON_parse w) as [parsed|e] eqn:Eread;
    cbn [mbind result_bind]; [|done].
  destruct (validateParsed parsed) as [cfg'|] eqn:E; [|done].
  intros [= <-]. exists parsed. split; [|done].
  unfold readParsed in Eread.
  destruct (deployment_json w) as [| |raw]; try done.
  exists raw. split; [done|].
  destruct (JSON_parse raw); [by injection Eread as -> | done].
Qed.



(** An entry of the table allows two or three zones and names an S3
    endpoint. *)
Lemma ownConfig_entry (region : jsstring) (c : RegionalConfigType) :
  ownConfig RegionalConfig_configs region = Some c ->
  (maxVpcAzs c = 2 \/ maxVpcAzs c = 3)%Z
  /\ startsWith (lit "s3.") (s3Endpoint c) = true.
Proof.
  unfold RegionalConfig_configs. cbn [ownConfig].
  repeat (destruct (decide (_ = region)) as [_|_];
          [intros [= <-]; split; [by (left + right) | by vm_compute]|]).
  done.
Qed.

Lemma regionShape_not_inherited (region : jsstring) :
  regionShape 2 region -> region ∉ Object_prototype_names.
Proof.
  intros H%validateRegion_succeeds Hin. unfold Object_prototype_names in Hin.
  repeat (apply elem_of_cons in Hin as [-> | Hin];
          [vm_compute in H; discriminate|]).
  by apply elem_of_nil in Hin.
Qed.

(** For a region of the accepted shape the lookup yields the entry of the
    region, or that of us-east-1 when the table does not list the region. *)
Lemma getConfig_regionShape (region : jsstring) :
  regionShape 2 region ->
  getConfig region
  = RegionEntry
      (default {| s3Endpoint := lit "s3.amazonaws.com"; maxVpcAzs := 3 |}
         (ownConfig RegionalConfig_configs region)).
Proof.
  intros Hshape%regionShape_not_inherited. unfold getConfig.
  destruct (ownConfig RegionalConfig_configs region) as [c|] eqn:E; [done|].
  by rewrite decide_False.
Qed.

Lemma default_entry (region : jsstring) :
  let c := default {| s3Endpoint := lit "s3.amazonaws.com"; maxVpcAzs := 3 |}
             (ownConfig RegionalConfig_configs region) in
  (maxVpcAzs c = 2 \/ maxVpcAzs c = 3)%Z
  /\ startsWith (lit "s3.") (s3Endpoint c) = true.
Proof.
  destruct (ownConfig RegionalConfig_configs region) as [c|] eqn:E; simpl.
  - by eapply ownConfig_entry.
  - split; [by right | by vm_compute].
Qed.
End ConsumerFacts.





(** X12.  For a region of the shape [validateRegion] accepts,
    [RegionalConfig.getConfig] returns an entry of the table: the entry the
    table has under that very region, or the entry of us-east-1 when the
    table has none.  Either allows two or three zones and names an S3
    endpoint.  For a name inherited from [Object.prototype] it returns the
    inherited member instead, which is no entry. *)
Theorem accepted_region_has_configuration (region : jsstring) :
  (regionShape 2 region ->
   (forall c, ownConfig RegionalConfig_configs region = Some c ->
              getConfig region = RegionEntry c)
   /\ (ownConfig RegionalConfig_configs region = None ->
       getConfig region
       = RegionEntry
           {| s3Endpoint := lit "s3.amazonaws.com"; maxVpcAzs := 3 |})
   /\ exists c,
        getConfig region = RegionEntry c
        /\ (maxVpcAzs c = 2 \/ maxVpcAzs c = 3)%Z
        /\ startsWith (lit "s3.") (s3Endpoint c) = true)
  /\ (region ∈ Object_prototype_names ->
      getConfig region = InheritedMember region).
Proof.
  split.
  - intros Hshape. rewrite (getConfig_regionShape region Hshape). split_and!.
    + by intros c ->.
    + by intros ->.
    + eexists. split; [reflexivity|]. apply default_entry.
  - unfold Object_prototype_names. intros Hin.
    repeat (apply elem_of_cons in Hin as [-> | Hin]; [by vm_compute|]).
    by apply elem_of_nil in Hin.
Qed.

(** A region the table lists gets its own entry, one it does not list falls
    back to us-east-1; the name "constructor" gets neither. *)
Lemma accepted_region_has_configuration_witness :
  getConfig (lit "us-gov-west-1")
  = RegionEntry {| s3Endpoint := lit "s3.us-gov-west-1.amazonaws.com";
                   maxVpcAzs := 2 |}
  /\ getConfig (lit "eu-central-1")
     = RegionEntry {| s3Endpoint := lit "s3.amazonaws.com"; maxVpcAzs := 3 |}
  /\ getConfig (lit "constructor") = InheritedMember (lit "constructor").
Proof.
  split_and!.
  - apply (proj1 (accepted_region_has_configuration (lit "us-gov-west-1")));
      [shape_by_matching | reflexivity].
  - apply (proj1 (accepted_region_has_configuration (lit "eu-central-1")));
      [shape_by_matching | reflexivity].
  - apply (proj2 (accepted_region_has_configuration (lit "constructor"))).
    unfold Object_prototype_names. left.
Defined.

(** X13.  For the account of a configuration that has loaded,
    [Dataplane.initializeRegionalS3Endpoint] is defined: the region the loader
    stored always selects an entry of the regional table. *)
Theorem loaded_account_has_endpoint
    (JSON_parse : jsstring -> result value) (w : world)
    (cfg : DeploymentConfig) :
  fst (loadDeploymentConfig JSON_parse w) = Ok cfg ->
  exists endpoint,
    initializeRegionalS3Endpoint (account cfg) = Some endpoint
    /\ startsWith (lit "s3.") endpoint = true.
Proof.
  intros (parsed & _ & Hload)%load_Ok_validated.
  assert (Hv : validConfiguration parsed).
  { apply validateParsed_succeeds. by rewrite Hload. }
  destruct Hv as ([_ _ _ _ (r & Er & Hr) _ _] & _).
  apply validateParsed_Ok in Hload as (_ & _ & Hacc & _).
  apply parseAccount_Ok in Hacc as (i & r' & _ & _ & Er' & Hreg & _).
  rewrite Er in Er'. injection Er' as <-.
  rewrite <- Hreg in Hr.
  unfold initializeRegionalS3Endpoint.
  rewrite (getConfig_regionShape _ Hr). eexists. split; [reflexivity|].
  apply default_entry.
Qed.

(** The minimal file, in us-west-2. *)
Lemma loaded_account_has_endpoint_witness :
  exists cfg endpoint,
    fst (loadDeploymentConfig (parsingTo (ex_config [])) ex_world) = Ok cfg
    /\ initializeRegionalS3Endpoint (account cfg) = Some endpoint
    /\ startsWith (lit "s3.") endpoint = true.
Proof.
  destruct (fst (loadDeploymentConfig (parsingTo (ex_config [])) ex_world))
    as [cfg|e] eqn:E; [|vm_compute in E; discriminate].
  destruct (loaded_account_has_endpoint _ _ cfg E) as (endpoint & H1 & H2).
  exists cfg, endpoint. split_and!; [reflexivity | exact H1 | exact H2].
Defined.

(** X14.  The stack and the construct together build the [DataplaneConfig]
    of a loaded configuration from the raw [dataplaneConfig] section when it
    is an object, and otherwise from nothing: then the instance holds the
    defaults and nothing is thrown. *)
Theorem loaded_dataplane_section_builds
    (JSON_parse : jsstring -> result value) (w : world) (parsed : value)
    (cfg : DeploymentConfig) :
  parsesTo JSON_parse w parsed ->
  fst (loadDeploymentConfig JSON_parse w) = Ok cfg ->
  let data := get parsed (lit "dataplaneConfig") in
  TileServerStack_dataplaneConfig cfg ≫= initializeConfig
  = if isObjectValue data then DataplaneConfig_new data
    else Ok {| DataplaneConfig_fields := DataplaneConfig_defaults;
               DataplaneConfig_prototype := ClassPrototype |}.
Proof.
  intros Hparse. rewrite (load_parsed _ _ _ Hparse). intros Hload data.
  apply validateParsed_Ok in Hload as (_ & _ & _ & _ & _ & Hdp & _).
  fold data in Hdp. unfold TileServerStack_dataplaneConfig. rewrite Hdp.
  destruct (isObjectValue data) eqn:Hobj.
  - assert (Ht : truthy data = true).
    { unfold isObjectValue in Hobj. by destruct (truthy data). }
    rewrite Ht. by destruct (DataplaneConfig_new data).
  - vm_compute. reflexivity.
Qed.

(** With no [dataplaneConfig] in the file the dataplane runs on the
    defaults. *)
Lemma loaded_dataplane_section_builds_witness :
  exists cfg,
    fst (loadDeploymentConfig (parsingTo (ex_config [])) ex_world) = Ok cfg
    /\ TileServerStack_dataplaneConfig cfg ≫= initializeConfig
       = Ok {| DataplaneConfig_fields := DataplaneConfig_defaults;
               DataplaneConfig_prototype := ClassPrototype |}.
Proof.
  destruct (fst (loadDeploymentConfig (parsingTo (ex_config [])) ex_world))
    as [cfg|e] eqn:E; [|vm_compute in E; discriminate].
  exists cfg. split; [reflexivity|].
  exact (loaded_dataplane_section_builds _ _ _ cfg (ex_parsesTo _) E).
Defined.

(** X15.  On the [NetworkConfig] of a loaded configuration whose network
    section has no key [__proto__] holding an object: the app imports an
    existing VPC exactly when the section has a [VPC_ID], and the section
    then has a non-empty [TARGET_SUBNETS] list; [Network.resolveSubnets]
    selects by the list of the section exactly as the file gives it, and
    falls back to the private subnets exactly when the section has no
    [TARGET_SUBNETS].  The entries of the list are strings that are subnet
    identifiers once trimmed; they are handed on untrimmed, and an empty
    list is handed on as it is. *)
Theorem imported_vpc_selects_listed_subnets
    (JSON_parse : jsstring -> result value) (w : world) (parsed : value)
    (cfg : DeploymentConfig) (nc : NetworkConfig) :
  parsesTo JSON_parse w parsed ->
  fst (loadDeploymentConfig JSON_parse w) = Ok cfg ->
  networkConfig cfg = Some nc ->
  let data := get parsed (lit "networkConfig") in
  inheritsNothing data ->
  (importsVpc cfg = true <-> get data (lit "VPC_ID") <> VUndefined)
  /\ (importsVpc cfg = true ->
      exists x l, get data (lit "TARGET_SUBNETS") = VArr (x :: l))
  /\ resolveSubnets nc
     = (if is_undefined (get data (lit "TARGET_SUBNETS"))
        then PRIVATE_WITH_EGRESS
        else byIds (get data (lit "TARGET_SUBNETS")))
  /\ validSubnets (get data (lit "TARGET_SUBNETS")).
Proof.
  intros Hparse. rewrite (load_parsed _ _ _ Hparse).
  intros Hload Hnc data Hplain.
  destruct (validateParsed_networkConfig _ _ _ Hload Hnc)
    as (Hobj & -> & Hvpc & Hts & _ & Hrule).
  fold data in Hobj, Hvpc, Hts, Hrule.
  assert (Himp : importsVpc cfg = true
                 <-> get data (lit "VPC_ID") <> VUndefined).
  { unfold importsVpc. rewrite Hnc.
    rewrite NetworkConfig_new_get
      by (done || (intros E; vm_compute in E; done)).
    fold data.
    destruct Hvpc as [E | (v & E & Hv)]; rewrite E;
      [split; [done | congruence]|].
    apply resourceIdShape_nonempty, trim_nonempty in Hv.
    destruct v; [done|]. split; done. }
  unfold resolveSubnets.
  rewrite !NetworkConfig_new_get
    by (done || (intros E; vm_compute in E; done)).
  fold data. split_and!.
  - exact Himp.
  - intros H%Himp. exact (Hrule H).
  - by destruct Hts as [E | (l & E & _)]; rewrite E.
  - exact Hts.
Qed.

(** The padded list of one subnet is selected with its padding, although
    the validator of subnet identifiers rejects the padded text. *)
Lemma imported_vpc_selects_listed_subnets_witness :
  let parsed :=
    ex_config [("networkConfig",
                VObj (object [("VPC_ID", VStr (lit "vpc-12345678"));
                              ("TARGET_SUBNETS",
                               VArr [VStr (lit " subnet-12345678 ")])]))] in
  exists cfg nc,
    fst (loadDeploymentConfig (parsingTo parsed) ex_world) = Ok cfg
    /\ networkConfig cfg = Some nc
    /\ importsVpc cfg = true
    /\ resolveSubnets nc = byIds (VArr [VStr (lit " subnet-12345678 ")])
    /\ succeeds (validateSubnetId (lit " subnet-12345678 ")) = false.
Proof.
  intros parsed.
  destruct (fst (loadDeploymentConfig (parsingTo parsed) ex_world))
    as [cfg|e] eqn:E; [|vm_compute in E; discriminate].
  destruct (networkConfig cfg) as [nc|] eqn:En;
    [|vm_compute in E; injection E as <-; discriminate En].
  pose proof (imported_vpc_selects_listed_subnets _ _ parsed cfg nc
                (ex_parsesTo _) E En) as H.
  cbv zeta in H. destruct H as (Himp & _ & Hsel & _).
  { intros v Hv. vm_compute in Hv. discriminate Hv. }
  exists cfg, nc. split_and!.
  - reflexivity.
  - exact En.
  - apply Himp. vm_compute. discriminate.
  - rewrite Hsel. reflexivity.
  - vm_compute. reflexivity.
Defined.

(** X16.  [validateBooleanField] with a default never coerces: it succeeds
    exactly on a boolean and on an absent or [null] value of an optional
    field; it returns the boolean given, or the default for an absent
    value; and what it throws names the field, and reports a missing field
    exactly for an absent value. *)
Theorem boolean_field_outcome
    (v : value) (fieldName : jsstring) (isRequired d : bool) :
  (succeeds (validateBooleanField v fieldName isRequired (Some d)) = true
   <-> ((v = VUndefined \/ v = VNull) /\ isRequired = false)
       \/ exists b, v = VBool b)
  /\ (forall b,
        validateBooleanField v fieldName isRequired (Some d) = Ok b ->
        v = VBool b \/ ((v = VUndefined \/ v = VNull) /\ b = d))
  /\ (forall e,
        validateBooleanField v fieldName isRequired (Some d) = Throw e ->
        exists m,
          e = DeploymentConfigError m (Some fieldName)
          /\ (m = lit "Missing required field: " ++ fieldName
              <-> v = VUndefined \/ v = VNull)).
Proof.
  assert (Hne : forall t,
            lit "Field '" ++ fieldName ++ lit "' must be a boolean, got "
              ++ typeName t
            <> lit "Missing required field: " ++ fieldName).
  { intros t E. vm_compute in E. discriminate E. }
  split_and!.
  - destruct v as [| |b|n|s|l|m], isRequired; simpl; split;
      try done; try (intros _; left; split; [by (left + right) | done]);
      try (intros _; right; by eexists);
      intros [[[?|?] ?] | [b' ?]]; done.
  - intros b. destruct v as [| |b'|n|s|l|m], isRequired; simpl;
      try done; intros [= <-];
      try (by left); right; split; (done || by (left + right)).
  - intros e. destruct v as [| |b'|n|s|l|m], isRequired; simpl;
      try done; intros [= <-]; eexists; (split; [reflexivity|]);
      split; try done; try (intros _; by (left + right));
      try (intros E; by apply Hne in E); intros [?|?]; done.
Qed.

(** The text "false" is rejected with the field named; an absent optional
    flag gives the default. *)
Lemma boolean_field_outcome_witness :
  succeeds (validateBooleanField (VStr (lit "false")) (lit "account.isAdc")
              false (Some false)) = false
  /\ validateBooleanField VUndefined (lit "deployIntegrationTests") false
       (Some true) = Ok true.
Proof.
  split.
  - destruct (validateBooleanField (VStr (lit "false")) (lit "account.isAdc")
                false (Some false)) as [b|e] eqn:E; [|reflexivity].
    destruct (proj1 (proj2 (boolean_field_outcome (VStr (lit "false"))
                              (lit "account.isAdc") false false)) b E)
      as [H | [[H | H] _]]; discriminate H.
  - reflexivity.
Defined.

(** X17.  [validateStringField] is idempotent: the string it returns is
    accepted again under the same requirement, and returned unchanged. *)
Theorem string_field_idempotent
    (v : value) (fieldName : jsstring) (isRequired : bool) (t : jsstring) :
  validateStringField v fieldName isRequired = Ok t ->
  validateStringField (VStr t) fieldName isRequired = Ok t.
Proof.
  intros H.
  assert (Ht : trim t = t /\ (isRequired = true -> t <> [])).
  { destruct v as [| |b|n|s|l|m];
      try (destruct isRequired; simpl in H; [done|]; injection H as <-;
           split; [by vm_compute | done]);
      try done.
    rewrite validateStringField_str in H.
    destruct isRequired, (is_empty (trim s)) eqn:E; simpl in H; try done;
      injection H as <-; (split; [apply trim_idemp|]); try done.
    intros _ E'. by rewrite E' in E. }
  destruct Ht as [Etrim Hne]. rewrite validateStringField_str, Etrim.
  destruct isRequired; [|done].
  destruct t; [by destruct Hne | done].
Qed.

(** A padded project name: the stored name validates to itself. *)
Lemma string_field_idempotent_witness :
  validateStringField (VStr (lit "  my-project  ")) (lit "projectName") true
  = Ok (lit "my-project")
  /\ validateStringField (VStr (lit "my-project")) (lit "projectName") true
     = Ok (lit "my-project").
Proof.
  split; [reflexivity|].
  apply (string_field_idempotent (VStr (lit "  my-project  "))).
  reflexivity.
Defined.
